(** * Frame graph tasks and node render graph blocks of Babylon.js

    A shallow embedding of
    - [FrameGraphGeometryRendererTask] (geometry renderer task),
    - [NodeRenderGraphTeleportOutBlock] (teleportOutBlock.ts),
    - [NodeRenderGraphBloomPostProcessBlock] (bloomPostProcessBlock.ts),
    and the properties of them that the specification states. *)

From stdpp Require Import gmap strings list fin_maps pretty.
From Stdlib Require Import ZArith Lia.

Open Scope Z_scope.

(** * JavaScript preliminaries *)

(** What a JavaScript [throw] carries. [Error msg] is [throw new Error(msg)];
    [TypeError] is the engine's own exception on a property read of
    [undefined]; [ResolutionFailure] is a failed lookup inside the frame
    graph. *)
Inductive exn : Type :=
| Error (msg : string)
| TypeError
| ResolutionFailure.

(** Computations that mutate a state [S] and may throw. A throw keeps the
    state reached so far, as a JavaScript exception does. *)
Definition M (S A : Type) : Type := S → (exn + A) * S.

Definition ret {S A} (a : A) : M S A := λ s, (inr a, s).

Definition bind {S A B} (c : M S A) (k : A → M S B) : M S B :=
  λ s, match c s with
       | (inl e, s') => (inl e, s')
       | (inr a, s') => k a s'
       end.

Definition throw {S A} (e : exn) : M S A := λ s, (inl e, s).

Definition get_state {S} : M S S := λ s, (inr s, s).

Definition modify {S} (f : S → S) : M S unit := λ s, (inr tt, f s).

Notation "'let!' x ':=' c 'in' k" := (bind c (λ x, k))
  (at level 10, x name, c at level 100, k at level 200, only parsing).
Notation "c '>>' k" := (bind c (λ _, k))
  (at level 100, k at level 200, right associativity, only parsing).

(** [Array.prototype.findIndex]: the first index whose element satisfies
    [p], or -1. *)
Fixpoint findIndex_from {A} (p : A → bool) (l : list A) (i : Z) : Z :=
  match l with
  | [] => -1
  | x :: l' => if p x then i else findIndex_from p l' (i + 1)
  end.

Definition findIndex {A} (p : A → bool) (l : list A) : Z :=
  findIndex_from p l 0.

(** [arr[i]] for a number [i]: [undefined] (here [None]) outside the array,
    in particular at -1. *)
Definition array_at {A} (l : list A) (i : Z) : option A :=
  if decide (0 ≤ i) then l !! Z.to_nat i else None.

(** [s] occurs in [t]. *)
Fixpoint substringb (s t : string) : bool :=
  String.prefix s t ||
  match t with
  | EmptyString => false
  | String _ t' => substringb s t'
  end.

(** A JavaScript [Map]: keys are unique and iteration follows insertion
    order, so it is an association list and not a [gmap]. *)
Module JsMap.
Section JsMap.
Context {K V : Type} `{EqDecision K}.

Fixpoint get (k : K) (m : list (K * V)) : option V :=
  match m with
  | [] => None
  | (k', v) :: m' => if decide (k = k') then Some v else get k m'
  end.

(** [set] keeps the position of a key already present and appends a new
    one. *)
Fixpoint set (k : K) (v : V) (m : list (K * V)) : list (K * V) :=
  match m with
  | [] => [(k, v)]
  | (k', v') :: m' =>
      if decide (k = k') then (k, v) :: m' else (k', v') :: set k v m'
  end.

(** [forEach] with a callback that mutates the value it is handed (the
    values here are arrays). *)
Definition forEach_update (f : K → V → V) (m : list (K * V)) : list (K * V) :=
  map (λ kv, (kv.1, f kv.1 kv.2)) m.

Definition keys (m : list (K * V)) : list K := m.*1.
End JsMap.
End JsMap.

(** * Colors *)

(** [Color4]. The three clear colors have integral components, which is
    all that is used of them here. *)
Record Color4 := mkColor4 { r : Z; g : Z; b : Z; a : Z }.

#[global] Instance Color4_eq_dec : EqDecision Color4.
Proof. solve_decision. Defined.

(** * The geometry plane catalogue *)

(** Modelled from the spec: [TextureClearType] is declared in
    materialHelper.geometryrendering, which is not among the sources. The
    spec names three clear kinds (zero-color, opaque-white,
    large-sentinel-value); they are numbered the way [clearColors] is
    indexed. *)
Inductive TextureClearType : Type :=
| ClearZeros
| ClearOnes
| ClearMaxViewZ.

#[global] Instance TextureClearType_eq_dec : EqDecision TextureClearType.
Proof. solve_decision. Defined.

Definition clearTypeIndex (c : TextureClearType) : nat :=
  match c with
  | ClearZeros => 0
  | ClearOnes => 1
  | ClearMaxViewZ => 2
  end%nat.

(** One entry of [MaterialHelperGeometryRendering.GeometryTextureDescriptions],
    with the fields the task reads. *)
Record GeometryTextureDescription := mkGeometryTextureDescription {
  gd_type : Z;
  gd_name : string;
  gd_clearType : TextureClearType;
  gd_defineIndex : string
}.

(** [IFrameGraphGeometryRendererTextureDescription]. The three fields are
    numbers; the engine's constants for them are integers, and the model
    holds the descriptions whose three numbers are integers. *)
Record IFrameGraphGeometryRendererTextureDescription := mkTextureDescription {
  type : Z;
  textureType : Z;
  textureFormat : Z
}.

(** * The frame graph *)

(** [FrameGraphObjectList]: what an object list holds when it is read. *)
Record FrameGraphObjectList := mkObjectList {
  meshes : list Z;
  particleSystems : list Z
}.

(** The captured variables of the closure that [recordFrameGraph] hands to
    [pass.setExecuteFunc] (lines 157-172): [objectList] and [depthEnabled].
    [objectList] is a reference to the object list, here its address: the
    closure reads the list's [meshes] and [particleSystems] each time it
    runs. It reads everything else through [this], also when it runs. *)
Record ExecuteClosure := mkExecuteClosure {
  cl_objectList : nat;
  cl_depthEnabled : bool
}.

(** Modelled from the spec: the FrameGraph class, its texture-handle table
    and its render passes are not among the sources. A handle is an integer
    index into the descriptor table; a texture id is a handle or a reference
    to a named output of a task (the task is identified by its name); a
    descriptor has a size (absolute or a percentage of the screen), a sample
    count and per-plane types, formats and labels; a render pass has a
    render target, output bindings (handle, mip level, logical name), an
    optional depth target and a deferred execute closure. The frame graph
    holds its object lists by reference: [objectLists] gives, for the id of
    a list, the address of the list object, and [getObjectList] hands out
    that reference. *)
Module FrameGraph.

Inductive FrameGraphTextureId : Type :=
  | TextureHandle (handle : Z)
  | TaskOutputReference (task : string) (output : string).

Record TextureSize := mkSize { width : Z; height : Z }.

Record TextureOptions := mkOptions {
  opt_createMipMaps : bool;
  opt_generateDepthBuffer : bool;
  opt_textureCount : Z;
  opt_samples : Z;
  opt_types : list Z;
  opt_formats : list Z;
  opt_labels : list string
}.

Record TextureCreationOptions := mkCreation {
  tex_size : TextureSize;
  tex_sizeIsPercentage : bool;
  tex_options : TextureOptions
}.

Record TextureDescription := mkDescription {
  desc_size : TextureSize;
  desc_options : TextureOptions
}.

Record RenderPass := mkPass {
  pass_name : string;
  pass_renderTarget : option Z;
  pass_outputTextures : list (Z * Z * string);
  pass_renderTargetDepth : option Z;
  pass_executeFunc : option ExecuteClosure
}.

Record t := mkFrameGraph {
  screen : TextureSize;
  textures : list (string * TextureCreationOptions);
  outputs : gmap (string * string) Z;
  objectLists : gmap Z nat;
  passes : list RenderPass
}.

Definition with_textures (fg : t) (ts : list (string * TextureCreationOptions)) : t :=
  mkFrameGraph (screen fg) ts (outputs fg) (objectLists fg) (passes fg).

Definition with_outputs (fg : t) (os : gmap (string * string) Z) : t :=
  mkFrameGraph (screen fg) (textures fg) os (objectLists fg) (passes fg).

Definition with_passes (fg : t) (ps : list RenderPass) : t :=
  mkFrameGraph (screen fg) (textures fg) (outputs fg) (objectLists fg) ps.

(** [round(screenDimension × size / 100)], with [Math.round] on a
    rational with denominator 100. *)
Definition percentageOf (screenDimension sz : Z) : Z :=
  (2 * screenDimension * sz + 100) `div` 200.

Definition createRenderTargetTexture (name : string) (creation : TextureCreationOptions)
  : M t Z :=
  λ fg, (inr (Z.of_nat (length (textures fg))),
         with_textures fg (textures fg ++ [(name, creation)])).

Definition getTextureHandle (id : FrameGraphTextureId) : M t Z :=
  λ fg, match id with
        | TextureHandle h => (inr h, fg)
        | TaskOutputReference task output =>
            match outputs fg !! (task, output) with
            | Some h => (inr h, fg)
            | None => (inl ResolutionFailure, fg)
            end
        end.

Definition getTextureDescription (handle : Z) : M t TextureDescription :=
  λ fg, match array_at (textures fg) handle with
        | Some (_, c) =>
            let sz :=
              if tex_sizeIsPercentage c
              then mkSize (percentageOf (width (screen fg)) (width (tex_size c)))
                          (percentageOf (height (screen fg)) (height (tex_size c)))
              else tex_size c in
            (inr (mkDescription sz (tex_options c)), fg)
        | None => (inl ResolutionFailure, fg)
        end.

Definition getObjectList (id : Z) : M t nat :=
  λ fg, match objectLists fg !! id with
        | Some l => (inr l, fg)
        | None => (inl ResolutionFailure, fg)
        end.

(** A pass is handed out by reference: its index in [passes]. *)
Definition addRenderPass (name : string) : M t nat :=
  λ fg, (inr (length (passes fg)),
         with_passes fg (passes fg ++ [mkPass name None [] None None])).

Definition update_pass (pass : nat) (f : RenderPass → RenderPass) : M t unit :=
  modify (λ fg, with_passes fg (alter f pass (passes fg))).

Definition setRenderTarget (pass : nat) (handle : Z) : M t unit :=
  update_pass pass (λ p, mkPass (pass_name p) (Some handle) (pass_outputTextures p)
                           (pass_renderTargetDepth p) (pass_executeFunc p)).

(** Binds the output on the pass and registers it as a named output of
    the task that owns the pass. *)
Definition setOutputTexture (pass : nat) (handle mipLevel : Z) (name : string) : M t unit :=
  update_pass pass (λ p, mkPass (pass_name p) (pass_renderTarget p)
                           (pass_outputTextures p ++ [(handle, mipLevel, name)])
                           (pass_renderTargetDepth p) (pass_executeFunc p)) >>
  modify (λ fg, match passes fg !! pass with
                | Some p => with_outputs fg (<[(pass_name p, name) := handle]> (outputs fg))
                | None => fg
                end).

Definition setRenderTargetDepth (pass : nat) (handle : Z) : M t unit :=
  update_pass pass (λ p, mkPass (pass_name p) (pass_renderTarget p) (pass_outputTextures p)
                           (Some handle) (pass_executeFunc p)).

Definition setExecuteFunc (pass : nat) (func : ExecuteClosure) : M t unit :=
    update_pass pass (λ p, mkPass (pass_name p) (pass_renderTarget p) (pass_outputTextures p)
                             (pass_renderTargetDepth p) (Some func)).
End FrameGraph.

(** * External collaborators of the geometry renderer task *)

(** What the task imports and the sources do not contain: the plane
    catalogue [MaterialHelperGeometryRendering.GeometryTextureDescriptions],
    the engine's [buildTextureLayout], and the value of the sentinel
    [backbufferDepthStencilTextureHandle]. With them, what the JavaScript
    engine prints for a number that is an integer but not a safe integer:
    there the conversion to a string rounds the number to the shortest
    numeral that reads back as the same number and, from 1e21 on, writes it
    with an exponent. *)
Class External := mkExternal {
  GeometryTextureDescriptions : list GeometryTextureDescription;
  buildTextureLayout : list bool → list Z;
  backbufferDepthStencilTextureHandle : Z;
  unsafeIntegerToString : Z → string
}.

(** The string that a template literal makes of a number whose value is
    the integer [n]: the decimal numeral when [n] is a safe integer, and the
    engine's numeral otherwise. *)
Definition Number_toString `{External} (n : Z) : string :=
  if decide (- 2 ^ 53 < n < 2 ^ 53) then pretty n else unsafeIntegerToString n.

(** The calls the execute closure makes on the frame graph context. *)
Inductive ContextCall : Type :=
| SetDepthStates (depthTest depthWrite : bool)
| ClearColorAttachments (color : option Color4) (layout : list Z)
| BindAttachments (layout : list Z)
| Render (renderList particleSystemList : list Z).

#[global] Instance ContextCall_eq_dec : EqDecision ContextCall.
Proof. solve_decision. Defined.

Module GeometryRendererTask.
Import FrameGraph.

(** [const clearColors]. *)
Definition clearColors : list Color4 :=
  [mkColor4 0 0 0 0; mkColor4 1 1 1 1;
   mkColor4 100000000 100000000 100000000 100000000].

(** The fields of [_rtt] that the task touches. *)
Record RenderTargetTexture := mkRtt {
  rtt_name : string;
  rtt_size : TextureSize;
  rtt_renderList : list Z;
  rtt_particleSystemList : list Z;
  rtt_renderPassId : Z
}.

(** [FrameGraphGeometryRendererTask]. *)
Record Task := mkTask {
  name : string;
  depthTexture : option FrameGraphTextureId;
  objectList : option Z;
  depthTest : bool;
  depthWrite : bool;
  size : TextureSize;
  sizeIsPercentage : bool;
  samples : Z;
  textureDescriptions : list IFrameGraphGeometryRendererTextureDescription;
  disabled : bool;
  _rtt : RenderTargetTexture;
  _clearAttachmentsLayout : list (TextureClearType * list Z);
  _allAttachmentsLayout : list Z
}.

Definition with_rtt (this : Task) (rtt : RenderTargetTexture) : Task :=
  mkTask (name this) (depthTexture this) (objectList this) (depthTest this) (depthWrite this)
    (size this) (sizeIsPercentage this) (samples this) (textureDescriptions this)
    (disabled this) rtt (_clearAttachmentsLayout this) (_allAttachmentsLayout this).

Definition with_layouts (this : Task) (clearLayout : list (TextureClearType * list Z))
    (allLayout : list Z) : Task :=
  mkTask (name this) (depthTexture this) (objectList this) (depthTest this) (depthWrite this)
    (size this) (sizeIsPercentage this) (samples this) (textureDescriptions this)
    (disabled this) (_rtt this) clearLayout allLayout.

(** What [recordFrameGraph] can change: the task itself, the frame graph,
    and the [defines] of the geometry rendering configuration of the task's
    render pass id. *)
Record World := mkWorld {
  w_task : Task;
  w_frameGraph : FrameGraph.t;
  w_defines : gmap string Z
}.

Definition this_ : M World Task := λ w, (inr (w_task w), w).

Definition set_this (f : Task → Task) : M World unit :=
  modify (λ w, mkWorld (f (w_task w)) (w_frameGraph w) (w_defines w)).

Definition frameGraph {A} (c : M FrameGraph.t A) : M World A :=
  λ w, let '(res, fg) := c (w_frameGraph w) in
       (res, mkWorld (w_task w) fg (w_defines w)).

Definition set_define (key : string) (value : Z) : M World unit :=
  modify (λ w, mkWorld (w_task w) (w_frameGraph w) (<[key := value]> (w_defines w))).

(** The error messages, as the template literals build them. *)
Definition msg_prefix (taskName : string) : string :=
  "FrameGraphGeometryRendererTask " +:+ taskName +:+ ": ".

Definition msg_missing (taskName : string) : string :=
  msg_prefix taskName +:+
  "object list and at least one geometry texture description must be provided".

Definition msg_unknown_type `{External} (taskName : string) (ty : Z) : string :=
  msg_prefix taskName +:+ "unknown texture type " +:+ Number_toString ty.

Definition msg_backbuffer (taskName : string) : string :=
  msg_prefix taskName +:+
  "the depth/stencil back buffer is not allowed as a depth texture".

Definition msg_samples (taskName : string) : string :=
  msg_prefix taskName +:+
  "the depth texture and the output texture must have the same number of samples".

Section Task.
Context `{External}.

(** [GeometryTextureDescriptions.findIndex((f) => f.type === description.type)]. *)
Definition catalogueIndex (description : IFrameGraphGeometryRendererTextureDescription) : Z :=
  findIndex (λ f, bool_decide (gd_type f = type description)) GeometryTextureDescriptions.

Definition catalogueEntry (description : IFrameGraphGeometryRendererTextureDescription)
  : option GeometryTextureDescription :=
  array_at GeometryTextureDescriptions (catalogueIndex description).

(** The clear kind of a plane; [None] when its type is not in the
    catalogue. *)
Definition clearKindOf (description : IFrameGraphGeometryRendererTextureDescription)
  : option TextureClearType :=
  gd_clearType <$> catalogueEntry description.

Definition inCatalogue (description : IFrameGraphGeometryRendererTextureDescription) : Prop :=
  ∃ f, f ∈ GeometryTextureDescriptions ∧ gd_type f = type description.

(** The [for] loop of [_createMultiRenderTargetTexture] (lines 185-196),
    from index [i] on; [types[i] = ...] at [i = types.length] appends. *)
Fixpoint createLoop (taskName : string)
    (descriptions : list IFrameGraphGeometryRendererTextureDescription)
    (acc : list Z * list Z * list string) : exn + (list Z * list Z * list string) :=
  match descriptions with
  | [] => inr acc
  | description :: rest =>
      let '(types, formats, labels) := acc in
      let index := catalogueIndex description in
      if bool_decide (index = -1) then
        inl (Error (msg_unknown_type taskName (type description)))
      else
        match array_at GeometryTextureDescriptions index with
        | None => inl TypeError
        | Some f =>
            createLoop taskName rest
              (types ++ [textureType description],
               formats ++ [textureFormat description],
               labels ++ [gd_name f])
        end
  end.

Definition _createMultiRenderTargetTexture : M World Z :=
  let! this := this_ in
  match createLoop (name this) (textureDescriptions this) ([], [], []) with
  | inl e => throw e
  | inr (types, formats, labels) =>
      frameGraph (createRenderTargetTexture (name this)
        (mkCreation (size this) (sizeIsPercentage this)
           (mkOptions false false (Z.of_nat (length (textureDescriptions this)))
              (samples this) types formats labels)))
  end.

Definition _checkDepthTextureCompatibility : M World bool :=
  let! this := this_ in
  match depthTexture this with
  | Some depthTexture =>
      let! depthTextureHandle := frameGraph (getTextureHandle depthTexture) in
      if bool_decide (depthTextureHandle = backbufferDepthStencilTextureHandle) then
        throw (Error (msg_backbuffer (name this)))
      else
        let! depthTextureDescription := frameGraph (getTextureDescription depthTextureHandle) in
        if bool_decide (opt_samples (desc_options depthTextureDescription) ≠ samples this) then
          throw (Error (msg_samples (name this)))
        else ret true
  | None => ret false
  end.

(** One turn of the [for] loop of [_buildClearAttachmentsLayout] (lines
    237-256), at index [i]. The array stored under a new kind is the one
    that the inner loop then fills with [i] times [false]. *)
Definition clearLayoutStep (i : nat)
    (description : IFrameGraphGeometryRendererTextureDescription)
    (acc : list (TextureClearType * list bool) * list bool)
  : exn + (list (TextureClearType * list bool) * list bool) :=
  let '(clearAttachmentsLayout, allAttachmentsLayout) := acc in
  match catalogueEntry description with
  | None => inl TypeError
  | Some geometryDescription =>
      let clearAttachmentsLayout1 :=
        match JsMap.get (gd_clearType geometryDescription) clearAttachmentsLayout with
        | None =>
            JsMap.set (gd_clearType geometryDescription) (replicate i false)
              clearAttachmentsLayout
        | Some _ => clearAttachmentsLayout
        end in
      inr (JsMap.forEach_update
             (λ clearType layout,
                layout ++ [bool_decide (clearType = gd_clearType geometryDescription)])
             clearAttachmentsLayout1,
           allAttachmentsLayout ++ [true])
  end.

Fixpoint clearLayoutLoop (i : nat)
    (descriptions : list IFrameGraphGeometryRendererTextureDescription)
    (acc : list (TextureClearType * list bool) * list bool)
  : exn + (list (TextureClearType * list bool) * list bool) :=
  match descriptions with
  | [] => inr acc
  | description :: rest =>
      match clearLayoutStep i description acc with
      | inl e => inl e
      | inr acc' => clearLayoutLoop (S i) rest acc'
      end
  end.

(** Lines 234-256: the boolean layouts, before they are handed to the
    engine. *)
Definition clearLayoutBooleans
    (descriptions : list IFrameGraphGeometryRendererTextureDescription)
  : exn + (list (TextureClearType * list bool) * list bool) :=
  clearLayoutLoop 0 descriptions ([], []).

(** Lines 258-262: a new [Map], filled by [forEach] and [set]. *)
Definition nativeLayouts (clearAttachmentsLayout : list (TextureClearType * list bool))
  : list (TextureClearType * list Z) :=
  foldl (λ m kv, JsMap.set kv.1 (buildTextureLayout kv.2) m) [] clearAttachmentsLayout.

Definition _buildClearAttachmentsLayout : M World unit :=
  let! this := this_ in
  match clearLayoutBooleans (textureDescriptions this) with
  | inl e => throw e
  | inr (clearAttachmentsLayout, allAttachmentsLayout) =>
      set_this (λ t, with_layouts t (nativeLayouts clearAttachmentsLayout)
                       (_allAttachmentsLayout t)) >>
      set_this (λ t, with_layouts t (_clearAttachmentsLayout t)
                       (buildTextureLayout allAttachmentsLayout))
  end.

Fixpoint registerLoop (i : Z)
    (descriptions : list IFrameGraphGeometryRendererTextureDescription) : M World unit :=
  match descriptions with
  | [] => ret tt
  | description :: rest =>
      match catalogueEntry description with
      | None => throw TypeError
      | Some geometryDescription =>
          set_define (gd_defineIndex geometryDescription) i >>
          registerLoop (i + 1) rest
      end
  end.

(** The configuration of [renderPassId] is the one whose [defines] the
    world holds. *)
Definition _registerForRenderPassId (renderPassId : Z) : M World unit :=
  let! this := this_ in
  registerLoop 0 (textureDescriptions this).

Definition recordFrameGraph : M World unit :=
  let! this := this_ in
  if bool_decide (length (textureDescriptions this) = 0%nat)
     || bool_decide (objectList this = None)
  then throw (Error (msg_missing (name this)))
  else
    let! outputTextureHandle := _createMultiRenderTargetTexture in
    let! depthEnabled := _checkDepthTextureCompatibility in
    _buildClearAttachmentsLayout >>
    _registerForRenderPassId (rtt_renderPassId (_rtt this)) >>
    let! outputTextureDescription := frameGraph (getTextureDescription outputTextureHandle) in
    set_this (λ t, with_rtt t (mkRtt (rtt_name (_rtt t)) (desc_size outputTextureDescription)
                                 (rtt_renderList (_rtt t)) (rtt_particleSystemList (_rtt t))
                                 (rtt_renderPassId (_rtt t)))) >>
    let! objectList :=
      match objectList this with
      | Some id => frameGraph (getObjectList id)
      | None => throw TypeError
      end in
    let! pass := frameGraph (addRenderPass (name this)) in
    frameGraph (setRenderTarget pass outputTextureHandle) >>
    frameGraph (setOutputTexture pass outputTextureHandle 0 "geometryViewDepth") >>
    frameGraph (setOutputTexture pass outputTextureHandle 0 "geometryScreenDepth") >>
    frameGraph (setOutputTexture pass outputTextureHandle 0 "geometryViewNormal") >>
    frameGraph (setOutputTexture pass outputTextureHandle 0 "geometryWorldNormal") >>
    frameGraph (setOutputTexture pass outputTextureHandle 0 "geometryLocalPosition") >>
    frameGraph (setOutputTexture pass outputTextureHandle 0 "geometryWorldPosition") >>
    frameGraph (setOutputTexture pass outputTextureHandle 0 "geometryAlbedo") >>
    frameGraph (setOutputTexture pass outputTextureHandle 0 "geometryReflectivity") >>
    frameGraph (setOutputTexture pass outputTextureHandle 0 "geometryVelocity") >>
    frameGraph (setOutputTexture pass outputTextureHandle 0 "geometryLinearVelocity") >>
    (match depthTexture this with
     | Some depthTexture =>
         let! h := frameGraph (getTextureHandle depthTexture) in
         frameGraph (setRenderTargetDepth pass h)
     | None => ret tt
     end) >>
    frameGraph (setExecuteFunc pass (mkExecuteClosure objectList depthEnabled)).

(** Running the execute closure: the task [this] as it is at that time,
    what the object list at each address holds at that time, the scene's
    render id, and the calls made on the context so far. *)
Record ExecWorld := mkExecWorld {
  ex_task : Task;
  ex_objectLists : nat → FrameGraphObjectList;
  ex_renderId : Z;
  ex_calls : list ContextCall
}.

Definition executeFunc (closure : ExecuteClosure) (w : ExecWorld) : ExecWorld :=
    let objectList := ex_objectLists w (cl_objectList closure) in
    let this1 :=
      with_rtt (ex_task w)
        (mkRtt (rtt_name (_rtt (ex_task w))) (rtt_size (_rtt (ex_task w)))
           (meshes objectList) (particleSystems objectList)
           (rtt_renderPassId (_rtt (ex_task w)))) in
    mkExecWorld this1 (ex_objectLists w) (ex_renderId w + 1)
      (ex_calls w
       ++ [SetDepthStates (depthTest this1 && cl_depthEnabled closure)
                          (depthWrite this1 && cl_depthEnabled closure)]
       ++ map (λ kv, ClearColorAttachments (clearColors !! clearTypeIndex kv.1) kv.2)
              (_clearAttachmentsLayout this1)
       ++ [BindAttachments (_allAttachmentsLayout this1)]
       ++ [Render (rtt_renderList (_rtt this1)) (rtt_particleSystemList (_rtt this1))]).
End Task.

(** Lines 81-84, [set name]. *)
Definition set_name (value : string) (this : Task) : Task :=
  mkTask value (depthTexture this) (objectList this) (depthTest this) (depthWrite this)
    (size this) (sizeIsPercentage this) (samples this) (textureDescriptions this)
    (disabled this)
    (mkRtt (value +:+ "_internal_rtt") (rtt_size (_rtt this)) (rtt_renderList (_rtt this))
       (rtt_particleSystemList (_rtt this)) (rtt_renderPassId (_rtt this)))
    (_clearAttachmentsLayout this) (_allAttachmentsLayout this).

(** Lines 21-69 and 92-108: the field initialisers and the constructor.
    [objectList] and [depthTexture] have no initialiser and are
    [undefined]. The render target texture is made with the task's name and
    size 1, and gets its render pass id from the engine; the constructor
    then runs the setter of [name]. *)
Definition constructor (taskName : string) (renderPassId : Z) : Task :=
  set_name taskName
    (mkTask "" None None true true (mkSize 100 100) true 1 [] false
       (mkRtt taskName (mkSize 1 1) [] [] renderPassId) [] []).

End GeometryRendererTask.

(** * Node render graph blocks *)

(** A JavaScript value, as far as serialization objects hold them. *)
Inductive JsValue : Type :=
| JsUndefined
| JsNull
| JsNumber (n : Z)
| JsString (s : string).

#[global] Instance JsValue_eq_dec : EqDecision JsValue.
Proof. solve_decision. Defined.

(** Modelled from the spec: [NodeRenderGraphBlockConnectionPointTypes] is
    declared in nodeRenderGraphTypes, which is not among the sources. These
    are the kinds that the two blocks use and the spec names. *)
Inductive NodeRenderGraphBlockConnectionPointTypes : Type :=
| Texture
| TextureBackBuffer
| TextureBackBufferDepthStencilAttachment
| TextureAllButBackBuffer
| TextureAll
| ObjectList
| Camera
| Scalar
| AutoDetect
| BasedOnInput.

#[global] Instance ConnectionPointTypes_eq_dec :
  EqDecision NodeRenderGraphBlockConnectionPointTypes.
Proof. solve_decision. Defined.

(** ** The teleport receiver, teleportOutBlock.ts *)

Module TeleportOut.

(** Blocks are objects: they live in a heap and are named by their
    address. *)
Abbreviation loc := nat.

(** The paired source block, [NodeRenderGraphTeleportInBlock], with what
    the receiver reads of it. *)
Record NodeRenderGraphTeleportInBlock := mkIn {
  in_uniqueId : Z;
  in_name : string;
  _endpoints : list loc
}.

(** The receiver's only connection point, [this._outputs[0]]. *)
Record OutputPoint := mkOutputPoint {
  out_name : string;
  out_type : NodeRenderGraphBlockConnectionPointTypes;
  out_value : option Z
}.

Record NodeRenderGraphTeleportOutBlock := mkOut {
  uniqueId : Z;
  name : string;
  _isTeleportOut : bool;
  _outputs : list OutputPoint;
  _entryPoint : option loc;
  _tempEntryPointUniqueId : JsValue
}.

Inductive Call : Type :=
  | AttachToEndpoint (entry endpoint : loc)
  | DetachFromEndpoint (entry endpoint : loc).

Record Heap := mkHeap {
  teleportIns : gmap nat NodeRenderGraphTeleportInBlock;
  teleportOuts : gmap nat NodeRenderGraphTeleportOutBlock;
  nextUniqueId : Z;
  calls : list Call
}.

Definition with_ins (h : Heap) (ins : gmap nat NodeRenderGraphTeleportInBlock) : Heap :=
  mkHeap ins (teleportOuts h) (nextUniqueId h) (calls h).

Definition with_outs (h : Heap) (outs : gmap nat NodeRenderGraphTeleportOutBlock) : Heap :=
  mkHeap (teleportIns h) outs (nextUniqueId h) (calls h).

Definition log (c : Call) : M Heap unit :=
  modify (λ h, mkHeap (teleportIns h) (teleportOuts h) (nextUniqueId h) (calls h ++ [c])).

(** Reading through a reference. A dangling address has no counterpart
    in JavaScript; the model answers it with [TypeError]. *)
Definition read_out (this : loc) : M Heap NodeRenderGraphTeleportOutBlock :=
  λ h, match teleportOuts h !! this with
       | Some blk => (inr blk, h)
       | None => (inl TypeError, h)
       end.

Definition read_in (entry : loc) : M Heap NodeRenderGraphTeleportInBlock :=
  λ h, match teleportIns h !! entry with
       | Some blk => (inr blk, h)
       | None => (inl TypeError, h)
       end.

Definition update_out (this : loc)
    (f : NodeRenderGraphTeleportOutBlock → NodeRenderGraphTeleportOutBlock) : M Heap unit :=
  read_out this >> modify (λ h, with_outs h (alter f this (teleportOuts h))).

Definition update_in (entry : loc)
    (f : NodeRenderGraphTeleportInBlock → NodeRenderGraphTeleportInBlock) : M Heap unit :=
  read_in entry >> modify (λ h, with_ins h (alter f entry (teleportIns h))).

Definition set_entryPoint (e : option loc) (blk : NodeRenderGraphTeleportOutBlock) :=
  mkOut (uniqueId blk) (name blk) (_isTeleportOut blk) (_outputs blk) e
    (_tempEntryPointUniqueId blk).

Definition set_tempEntryPointUniqueId (v : JsValue) (blk : NodeRenderGraphTeleportOutBlock) :=
  mkOut (uniqueId blk) (name blk) (_isTeleportOut blk) (_outputs blk) (_entryPoint blk) v.

(** Lines 15-30: the field initialisers and the constructor. The base
    constructor gives the block its [uniqueId]. *)
Definition constructor (name : string) (uid : Z) : NodeRenderGraphTeleportOutBlock :=
  mkOut uid name true [mkOutputPoint "output" BasedOnInput None] None JsNull.

Definition new_block (name : string) : M Heap loc :=
  λ h, let l := fresh (dom (teleportOuts h) ∪ dom (teleportIns h)) in
       (inr l,
        mkHeap (teleportIns h)
          (<[l := constructor name (nextUniqueId h)]> (teleportOuts h))
          (nextUniqueId h + 1) (calls h)).

(** Modelled from the spec: [attachToEndpoint] and [detachFromEndpoint]
    belong to NodeRenderGraphTeleportInBlock, which is not among the
    sources. Attaching stores a direct reference to the receiver on the
    source side, and the receiver's [entryPoint] then exposes the source;
    detaching clears both sides' linkage. *)
Definition attachToEndpoint (entry endpoint : loc) : M Heap unit :=
  log (AttachToEndpoint entry endpoint) >>
  update_in entry (λ e, mkIn (in_uniqueId e) (in_name e) (_endpoints e ++ [endpoint])) >>
  update_out endpoint (set_entryPoint (Some entry)).

Definition detachFromEndpoint (entry endpoint : loc) : M Heap unit :=
  log (DetachFromEndpoint entry endpoint) >>
  update_in entry (λ e, mkIn (in_uniqueId e) (in_name e)
                          (filter (λ x, x ≠ endpoint) (_endpoints e))) >>
  update_out endpoint (set_entryPoint None).

(** The methods of the base class NodeRenderGraphBlock that the receiver
    overrides and calls through [super], and the [build] of the paired
    source. They are not among the sources and stay arbitrary. *)
Class Base := mkBase {
  super_serialize : NodeRenderGraphTeleportOutBlock → gmap string JsValue;
  super_deserialize :
    gmap string JsValue → NodeRenderGraphTeleportOutBlock → NodeRenderGraphTeleportOutBlock;
  entryPoint_build : loc → M Heap unit
}.

Section Methods.
Context `{Base}.

(** [get entryPoint()]. *)
Definition entryPoint (this : loc) : M Heap (option loc) :=
    let! blk := read_out this in ret (_entryPoint blk).

(** [get output()]: [this._outputs[0]]. *)
Definition output (this : loc) : M Heap (option OutputPoint) :=
    let! blk := read_out this in ret (_outputs blk !! 0%nat).

Definition detach (this : loc) : M Heap unit :=
    let! e := entryPoint this in
    match e with
    | None => ret tt
    | Some e => detachFromEndpoint e this
    end.

Definition _buildBlock (this : loc) : M Heap unit := ret tt.

Definition _customBuildStep (this : loc) : M Heap unit :=
    let! e := entryPoint this in
    match e with
    | Some e => entryPoint_build e
    | None => ret tt
    end.

(** Modelled from the spec: the base class's clone() is not among the
    sources. It yields a new block of the same class and name, made by
    the constructor. *)
Definition super_clone (this : loc) : M Heap loc :=
    let! blk := read_out this in new_block (name blk).

Definition clone (this : loc) : M Heap loc :=
    let! clone := super_clone this in
    let! e := entryPoint this in
    (match e with
     | Some e => attachToEndpoint e clone
     | None => ret tt
     end) >>
    ret clone.

(** [this.entryPoint?.uniqueId ?? ""]. *)
Definition entryPoint_uniqueId (this : loc) : M Heap JsValue :=
    let! e := entryPoint this in
    match e with
    | Some e => let! entry := read_in e in ret (JsNumber (in_uniqueId entry))
    | None => ret (JsString "")
    end.

Definition serialize (this : loc) : M Heap (gmap string JsValue) :=
    let! blk := read_out this in
    let serializationObject := super_serialize blk in
    let! v := entryPoint_uniqueId this in
    ret (<["entryPoint" := v]> serializationObject).

(** [serializationObject.entryPoint]: [undefined] when the property is
    absent. *)
Definition _deserialize (this : loc) (serializationObject : gmap string JsValue)
      : M Heap unit :=
      update_out this (super_deserialize serializationObject) >>
      update_out this
        (set_tempEntryPointUniqueId (default JsUndefined (serializationObject !! "entryPoint"))).
End Methods.
End TeleportOut.

(** ** The bloom block, bloomPostProcessBlock.ts *)

Module BloomBlock.

(** Modelled from the spec: NodeRenderGraphConnectionPoint is not among
    the sources. A connection point has a name, a kind, accepted kinds,
    and the point it is connected to, or null. *)
Record NodeRenderGraphConnectionPoint := mkPoint {
  cp_name : string;
  cp_kind : NodeRenderGraphBlockConnectionPointTypes;
  cp_isOptional : bool;
  cp_acceptedKinds : list NodeRenderGraphBlockConnectionPointTypes;
  cp_connectedPoint : option Z
}.

(** Modelled from the spec: a point is connected when its
    [connectedPoint] is not null. *)
Definition isConnected (p : NodeRenderGraphConnectionPoint) : bool :=
  bool_decide (cp_connectedPoint p ≠ None).

(** The block, with its connection points. [_typeConnectionSource] of the
    output is a closure over [this]; it is stored as a function of the
    block as it is when the closure runs. *)
Record NodeRenderGraphBloomPostProcessBlock := mkBlock {
  _inputs : list NodeRenderGraphConnectionPoint;
  _outputs : list NodeRenderGraphConnectionPoint;
  _typeConnectionSource :
    option (list NodeRenderGraphConnectionPoint → option NodeRenderGraphConnectionPoint)
}.

(** Modelled from the spec: [registerInput], [registerOutput] and
    [addAcceptedConnectionPointTypes] of the base class and of the
    connection point append a new point and an accepted kind. *)
Definition registerInput (name : string) (kind : NodeRenderGraphBlockConnectionPointTypes)
    (isOptional : bool) (this : NodeRenderGraphBloomPostProcessBlock) :=
  mkBlock (_inputs this ++ [mkPoint name kind isOptional [] None]) (_outputs this)
    (_typeConnectionSource this).

Definition registerOutput (name : string) (kind : NodeRenderGraphBlockConnectionPointTypes)
    (this : NodeRenderGraphBloomPostProcessBlock) :=
  mkBlock (_inputs this) (_outputs this ++ [mkPoint name kind false [] None])
    (_typeConnectionSource this).

Definition addAcceptedConnectionPointTypes (input : nat)
    (kind : NodeRenderGraphBlockConnectionPointTypes)
    (this : NodeRenderGraphBloomPostProcessBlock) :=
  mkBlock
    (alter (λ p, mkPoint (cp_name p) (cp_kind p) (cp_isOptional p)
                   (cp_acceptedKinds p ++ [kind]) (cp_connectedPoint p))
       input (_inputs this))
    (_outputs this) (_typeConnectionSource this).

(** [get source()], [get destination()], [get output()]. *)
Definition source (inputs : list NodeRenderGraphConnectionPoint) := inputs !! 0%nat.
Definition destination (inputs : list NodeRenderGraphConnectionPoint) := inputs !! 1%nat.
Definition output (this : NodeRenderGraphBloomPostProcessBlock) := _outputs this !! 0%nat.

(** Lines 52-54, the closure
    [() => this.destination.isConnected ? this.destination : this.source]. *)
Definition typeResolver (inputs : list NodeRenderGraphConnectionPoint)
  : option NodeRenderGraphConnectionPoint :=
  match destination inputs with
  | Some d => if isConnected d then Some d else source inputs
  | None => None
  end.

(** Lines 46-54 of the constructor. *)
Definition constructor : NodeRenderGraphBloomPostProcessBlock :=
  let this := mkBlock [] [] None in
  let this := registerInput "source" Texture false this in
  let this := registerInput "destination" Texture true this in
  let this := registerOutput "output" BasedOnInput this in
  let this := addAcceptedConnectionPointTypes 0 TextureAllButBackBuffer this in
  let this := addAcceptedConnectionPointTypes 1 TextureAll this in
  mkBlock (_inputs this) (_outputs this) (Some typeResolver).

(** Modelled from the spec: connecting an input sets its
    [connectedPoint]. *)
Definition connectInput (input : nat) (remote : Z)
    (this : NodeRenderGraphBloomPostProcessBlock) :=
  mkBlock
    (alter (λ p, mkPoint (cp_name p) (cp_kind p) (cp_isOptional p) (cp_acceptedKinds p)
                   (Some remote))
       input (_inputs this))
    (_outputs this) (_typeConnectionSource this).

(** Modelled from the spec: the kind of an output declared BasedOnInput
    is the kind of the point that its resolver returns, evaluated on
    read. *)
Definition outputKind (this : NodeRenderGraphBloomPostProcessBlock)
    : option NodeRenderGraphBlockConnectionPointTypes :=
    match output this with
    | Some o =>
        if decide (cp_kind o = BasedOnInput) then
          match _typeConnectionSource this with
          | Some resolver => cp_kind <$> resolver (_inputs this)
          | None => Some BasedOnInput
          end
        else Some (cp_kind o)
    | None => None
    end.
End BloomBlock.

(** ** The receiver's code dump, teleportOutBlock.ts lines 73-92 *)

Module TeleportOutDump.
Import TeleportOut.

(** The two arrays that [_dumpCode] is handed and that the callees fill:
    [uniqueNames] and [alreadyDumped]. *)
Record DumpState := mkDumpState {
  uniqueNames : list string;
  alreadyDumped : list nat
}.

(** The methods of the base class reached through [super], and those of the
    paired source. They are not among the sources and stay arbitrary. *)
Class DumpBase := mkDumpBase {
  super_dumpCode : NodeRenderGraphTeleportOutBlock → M DumpState string;
  entryPoint_dumpCode : nat → M DumpState string;
  super_dumpCodeForOutputConnections :
    NodeRenderGraphTeleportOutBlock → M (list nat) string;
  entryPoint_dumpCodeForOutputConnections : nat → M (list nat) string
}.

(** [Array.prototype.indexOf] on an array of block references. *)
Definition indexOf (l : list nat) (x : nat) : Z :=
  findIndex (λ y, bool_decide (y = x)) l.

Section Dump.
Context `{DumpBase}.

Definition _dumpCode (this : NodeRenderGraphTeleportOutBlock) : M DumpState string :=
  let! codeString :=
    match _entryPoint this with
    | Some e =>
        let! st := get_state in
        if bool_decide (indexOf (alreadyDumped st) e = -1) then
          let! code := entryPoint_dumpCode e in ret ("" +:+ code)
        else ret ""
    | None => ret ""
    end in
  let! code := super_dumpCode this in
  ret (codeString +:+ code).

Definition _dumpCodeForOutputConnections (this : NodeRenderGraphTeleportOutBlock)
  : M (list nat) string :=
  let! codeString := super_dumpCodeForOutputConnections this in
  match _entryPoint this with
  | Some e =>
      let! code := entryPoint_dumpCodeForOutputConnections e in ret (codeString +:+ code)
  | None => ret codeString
  end.
End Dump.
End TeleportOutDump.

(** ** The bloom block's build and serialization, bloomPostProcessBlock.ts
    lines 72-110 and 141-185 *)

Module BloomBlockState.
Import FrameGraph BloomBlock.

Section Values.
(** The values of the editable properties are JavaScript values of any
    kind; [undefined] is what a read of an absent property gives. The bloom
    effect is an object of a class that is not among the sources: [E] is
    what such an object holds. *)
Context {V E : Type} (undefined : V).

(** Modelled from the spec: FrameGraphBloomTask is not among the sources.
    A task is a record with a name and texture references by logical slot;
    these are the fields that the block reads and writes, the source
    sampling mode among them. *)
Record FrameGraphBloomTask := mkBloomTask {
  task_name : string;
  sourceTexture : option FrameGraphTextureId;
  destinationTexture : option FrameGraphTextureId;
  task_sourceSamplingMode : V
}.

(** The block: its connection points, its name, the value of its output,
    its task and its post process. *)
Record Block := mkState {
  points : NodeRenderGraphBloomPostProcessBlock;
  name : string;
  outputValue : option FrameGraphTextureId;
  _frameGraphTask : FrameGraphBloomTask;
  _postProcess : E
}.

(** While a block builds: the block, and the tasks that the frame graph
    was given, in order, each as it was when it was added. *)
Record BuildWorld := mkBuildWorld {
  bw_block : Block;
  bw_tasks : list FrameGraphBloomTask
}.

(** The methods of the base class reached through [super]. They are not
    among the sources and stay arbitrary. *)
Class BlockBase := mkBlockBase {
  super_buildBlock : M BuildWorld unit;
  super_serialize : Block → gmap string V;
  super_deserialize : gmap string V → Block → Block
}.

(** The accessors of BloomEffect's [threshold], [weight] and [kernel]. The
    class is not among the sources, and an accessor may compute with the
    value it is handed or holds: the three getters and the three setters
    stay arbitrary. *)
Class BloomEffect := mkBloomEffect {
  effect_get_threshold : E → V;
  effect_set_threshold : V → E → E;
  effect_get_weight : E → V;
  effect_set_weight : V → E → E;
  effect_get_kernel : E → V;
  effect_set_kernel : V → E → E
}.

Definition with_task (this : Block) (task : FrameGraphBloomTask) : Block :=
  mkState (points this) (name this) (outputValue this) task (_postProcess this).

Definition with_postProcess (this : Block) (effect : E) : Block :=
  mkState (points this) (name this) (outputValue this) (_frameGraphTask this) effect.

(** Lines 72-80: the getter and the setter of [sourceSamplingMode]. *)
Definition sourceSamplingMode (this : Block) : V :=
  task_sourceSamplingMode (_frameGraphTask this).

Definition set_sourceSamplingMode (value : V) (this : Block) : Block :=
  with_task this
    (mkBloomTask (task_name (_frameGraphTask this)) (sourceTexture (_frameGraphTask this))
       (destinationTexture (_frameGraphTask this)) value).

Section Accessors.
Context `{BloomEffect}.

(** Lines 82-110: the getters and setters of [threshold], [weight] and
    [kernel] hand over to the accessors of the post process. *)
Definition threshold (this : Block) : V := effect_get_threshold (_postProcess this).

Definition set_threshold (value : V) (this : Block) : Block :=
  with_postProcess this (effect_set_threshold value (_postProcess this)).

Definition weight (this : Block) : V := effect_get_weight (_postProcess this).

Definition set_weight (value : V) (this : Block) : Block :=
  with_postProcess this (effect_set_weight value (_postProcess this)).

Definition kernel (this : Block) : V := effect_get_kernel (_postProcess this).

Definition set_kernel (value : V) (this : Block) : Block :=
  with_postProcess this (effect_set_kernel value (_postProcess this)).
End Accessors.

Section Methods.
Context `{BlockBase} `{BloomEffect}.

Definition this_block : M BuildWorld Block := λ w, (inr (bw_block w), w).

Definition set_block (f : Block → Block) : M BuildWorld unit :=
  modify (λ w, mkBuildWorld (f (bw_block w)) (bw_tasks w)).

(** Modelled from the spec: [frameGraph.addTask] registers the task with
    the frame graph, behind the tasks registered before. *)
Definition addTask (task : FrameGraphBloomTask) : M BuildWorld unit :=
  modify (λ w, mkBuildWorld (bw_block w) (bw_tasks w ++ [task])).

(** Lines 141-159. [values] holds the value of every connection point
    that an input can be connected to, by the point's id; a point without
    value reads [undefined]. The task's [outputTextureReference] is the pair
    of the task and "output". *)
Definition _buildBlock (values : gmap Z FrameGraphTextureId) : M BuildWorld unit :=
  super_buildBlock >>
  set_block (λ this,
    with_task this
      (mkBloomTask (name this) (sourceTexture (_frameGraphTask this))
         (destinationTexture (_frameGraphTask this))
         (task_sourceSamplingMode (_frameGraphTask this)))) >>
  let! this := this_block in
  match output (points this) with
  | None => throw TypeError
  | Some _ =>
      set_block (λ this,
        mkState (points this) (name this)
          (Some (TaskOutputReference (task_name (_frameGraphTask this)) "output"))
          (_frameGraphTask this) (_postProcess this)) >>
      match source (_inputs (points this)) with
      | None => throw TypeError
      | Some s =>
          match cp_connectedPoint s with
          | Some sourceConnectedPoint =>
              set_block (λ this,
                with_task this
                  (mkBloomTask (task_name (_frameGraphTask this))
                     (values !! sourceConnectedPoint)
                     (destinationTexture (_frameGraphTask this))
                     (task_sourceSamplingMode (_frameGraphTask this))))
          | None => ret tt
          end >>
          match destination (_inputs (points this)) with
          | None => throw TypeError
          | Some d =>
              match cp_connectedPoint d with
              | Some destinationConnectedPoint =>
                  set_block (λ this,
                    with_task this
                      (mkBloomTask (task_name (_frameGraphTask this))
                         (sourceTexture (_frameGraphTask this))
                         (values !! destinationConnectedPoint)
                         (task_sourceSamplingMode (_frameGraphTask this))))
              | None => ret tt
              end >>
              let! this := this_block in
              addTask (_frameGraphTask this)
          end
      end
  end.

(** Lines 170-177: the four properties are read through the getters. *)
Definition serialize (this : Block) : gmap string V :=
  let serializationObject := super_serialize this in
  let serializationObject := <["threshold" := threshold this]> serializationObject in
  let serializationObject := <["weight" := weight this]> serializationObject in
  let serializationObject := <["kernel" := kernel this]> serializationObject in
  <["sourceSamplingMode" := sourceSamplingMode this]> serializationObject.

(** Lines 179-185: the four properties of the object, [undefined] where
    the object has none, are handed to the setters. *)
Definition _deserialize (serializationObject : gmap string V) (this : Block) : Block :=
  let this := super_deserialize serializationObject this in
  let this := set_threshold (default undefined (serializationObject !! "threshold")) this in
  let this := set_weight (default undefined (serializationObject !! "weight")) this in
  let this := set_kernel (default undefined (serializationObject !! "kernel")) this in
  set_sourceSamplingMode (default undefined (serializationObject !! "sourceSamplingMode")) this.
End Methods.
End Values.
End BloomBlockState.

(** ** Arrays of color components, math.color.ts lines 691-708 *)

Module Color4Arrays.
Section CheckColors4.
(** The elements of the arrays are JavaScript values: [undefined] is what
    a read outside an array gives, [one] is the number 1.0. *)
Context {X : Type} (undefined one : X).

(** [arr[i]]. *)
Definition js_read (arr : list X) (i : nat) : X := default undefined (arr !! i).

(** [arr[i] = v]: inside the array the element is replaced; at or behind
    its end the array grows, and the indices skipped read [undefined]. *)
Definition js_write (arr : list X) (i : nat) (v : X) : list X :=
  if decide (i < length arr)%nat then <[i := v]> arr
  else arr ++ replicate (i - length arr) undefined ++ [v].

(** The [for] loop of lines 695-701, from [index] on; [fuel] bounds the
    number of turns. *)
Fixpoint checkLoop (fuel index : nat) (colors colors4 : list X) : list X :=
  match fuel with
  | O => colors4
  | S fuel' =>
      if decide (index < length colors)%nat then
        let newIndex := (index / 3 * 4)%nat in
        let colors4 := js_write colors4 newIndex (js_read colors index) in
        let colors4 := js_write colors4 (newIndex + 1) (js_read colors (index + 1)) in
        let colors4 := js_write colors4 (newIndex + 2) (js_read colors (index + 2)) in
        let colors4 := js_write colors4 (newIndex + 3) one in
        checkLoop fuel' (index + 3) colors colors4
      else colors4
  end.

(** [Color4.CheckColors4], for a [count] that is an integer. The loop
    makes at most one turn for each element of [colors]. *)
Definition CheckColors4 (colors : list X) (count : Z) : list X :=
  if decide (Z.of_nat (length colors) = count * 3) then
    checkLoop (length colors) 0 colors []
  else colors.

(** The components of [colors] taken three at a time, with [one] behind
    each three. *)
Fixpoint withAlpha (colors : list X) : list X :=
  match colors with
  | cr :: cg :: cb :: rest => cr :: cg :: cb :: one :: withAlpha rest
  | _ => []
  end.
End CheckColors4.
End Color4Arrays.

(** * The clear layouts, as the specification words them *)

(** The distinct elements of a list, in the order of their first
    occurrence. *)
Definition firstSeen {K} `{EqDecision K} (l : list K) : list K :=
  foldl (λ acc x, if decide (x ∈ acc) then acc else acc ++ [x]) [] l.

(** The layout of one clear kind: index [i] is true iff plane [i]'s clear
    kind is that kind. *)
Definition layoutOf (kinds : list TextureClearType) (kind : TextureClearType) : list bool :=
  map (λ k, bool_decide (kind = k)) kinds.

(** One layout for each distinct clear kind present. *)
Definition layoutsSpec (kinds : list TextureClearType)
  : list (TextureClearType * list bool) :=
  map (λ kind, (kind, layoutOf kinds kind)) (firstSeen kinds).

(** The clear color of each kind, as the specification names them:
    transparent zero, opaque white, and the 1e8 sentinel. *)
Definition clearColorOf (kind : TextureClearType) : Color4 :=
  match kind with
  | ClearZeros => mkColor4 0 0 0 0
  | ClearOnes => mkColor4 1 1 1 1
  | ClearMaxViewZ => mkColor4 100000000 100000000 100000000 100000000
  end.

(** The catalogue entry of a type: the first entry of the catalogue that
    has this type. A catalogue that lists every type once has no other entry
    of the type. *)
Definition entryOfType `{External} (ty : Z) (f : GeometryTextureDescription) : Prop :=
  ∃ before after,
    GeometryTextureDescriptions = before ++ f :: after ∧
    gd_type f = ty ∧
    Forall (λ g, gd_type g ≠ ty) before.

(** The clear kind of a plane: the clear kind of the catalogue entry of the
    plane's type. *)
Definition planeKind `{External} (description : IFrameGraphGeometryRendererTextureDescription)
    (kind : TextureClearType) : Prop :=
  ∃ f, entryOfType (type description) f ∧ gd_clearType f = kind.

(** A message names a task when the task's name occurs in it, and names a
    count when the count's decimal numeral occurs in it. *)
Definition namesTask (msg taskName : string) : bool := substringb taskName msg.

Definition namesCount (msg : string) (count : Z) : bool := substringb (pretty count) msg.

(** The pass that a call of [recordFrameGraph] registered: the one added
    behind the passes that were there before. *)
Definition recordedPass (before after : GeometryRendererTask.World)
  : option FrameGraph.RenderPass :=
  FrameGraph.passes (GeometryRendererTask.w_frameGraph after)
    !! length (FrameGraph.passes (GeometryRendererTask.w_frameGraph before)).

(** The depth texture of the task, when it has one, resolves to a handle
    other than the sentinel whose descriptor has the task's sample count. *)
Definition depthCompatible `{External} (w : GeometryRendererTask.World) : Prop :=
  match GeometryRendererTask.depthTexture (GeometryRendererTask.w_task w) with
  | None => True
  | Some depth =>
      ∃ handle description,
        (FrameGraph.getTextureHandle depth (GeometryRendererTask.w_frameGraph w)).1
        = inr handle ∧
        handle ≠ backbufferDepthStencilTextureHandle ∧
        (FrameGraph.getTextureDescription handle (GeometryRendererTask.w_frameGraph w)).1
        = inr description ∧
        FrameGraph.opt_samples (FrameGraph.desc_options description)
        = GeometryRendererTask.samples (GeometryRendererTask.w_task w)
  end.

(** The calls that one run of the execute closure makes on the context. *)
Definition callsOf (closure : ExecuteClosure) (w : GeometryRendererTask.ExecWorld)
  : list ContextCall :=
  drop (length (GeometryRendererTask.ex_calls w))
    (GeometryRendererTask.ex_calls (GeometryRendererTask.executeFunc closure w)).

Definition isSetDepthStates (call : ContextCall) : bool :=
  match call with
  | SetDepthStates _ _ => true
  | _ => false
  end.

(** A step that leaves the task alone and adds or removes no pass. *)
Definition keepsTaskAndPasses (before after : GeometryRendererTask.World) : Prop :=
  GeometryRendererTask.w_task after = GeometryRendererTask.w_task before ∧
  length (FrameGraph.passes (GeometryRendererTask.w_frameGraph after))
  = length (FrameGraph.passes (GeometryRendererTask.w_frameGraph before)).

(** The defines after the planes from attachment index [i] on have been
    registered: each plane stores its index under the define index of its
    catalogue entry. *)
Fixpoint registeredDefines `{External} (i : Z)
    (descriptions : list IFrameGraphGeometryRendererTextureDescription)
    (defines : gmap string Z) : gmap string Z :=
  match descriptions with
  | [] => defines
  | description :: rest =>
      match GeometryRendererTask.catalogueEntry description with
      | Some f => registeredDefines (i + 1) rest (<[gd_defineIndex f := i]> defines)
      | None => defines
      end
  end.

(** The names of the ten outputs that [recordFrameGraph] binds, in the
    order of lines 142-151. *)
Definition geometryOutputNames : list string :=
  ["geometryViewDepth"; "geometryScreenDepth"; "geometryViewNormal"; "geometryWorldNormal";
   "geometryLocalPosition"; "geometryWorldPosition"; "geometryAlbedo";
   "geometryReflectivity"; "geometryVelocity"; "geometryLinearVelocity"].

(** The render target texture of a task is named after the task. *)
Definition rttNamedAfterTask (this : GeometryRendererTask.Task) : Prop :=
  GeometryRendererTask.rtt_name (GeometryRendererTask._rtt this)
  = GeometryRendererTask.name this +:+ "_internal_rtt".

(** What [recordFrameGraph] may change of a task: the two layouts and the
    size of the render target texture. Everything else of [after] is as in
    [before]. *)
Definition onlyLayoutsAndSize (before after : GeometryRendererTask.Task) : Prop :=
  after =
  GeometryRendererTask.mkTask
    (GeometryRendererTask.name before) (GeometryRendererTask.depthTexture before)
    (GeometryRendererTask.objectList before) (GeometryRendererTask.depthTest before)
    (GeometryRendererTask.depthWrite before) (GeometryRendererTask.size before)
    (GeometryRendererTask.sizeIsPercentage before) (GeometryRendererTask.samples before)
    (GeometryRendererTask.textureDescriptions before) (GeometryRendererTask.disabled before)
    (GeometryRendererTask.mkRtt
       (GeometryRendererTask.rtt_name (GeometryRendererTask._rtt before))
       (GeometryRendererTask.rtt_size (GeometryRendererTask._rtt after))
       (GeometryRendererTask.rtt_renderList (GeometryRendererTask._rtt before))
       (GeometryRendererTask.rtt_particleSystemList (GeometryRendererTask._rtt before))
       (GeometryRendererTask.rtt_renderPassId (GeometryRendererTask._rtt before)))
    (GeometryRendererTask._clearAttachmentsLayout after)
    (GeometryRendererTask._allAttachmentsLayout after).

(** A computation that, whatever its outcome, changes of the task only
    the layouts and the size of the render target texture. *)
Definition keepsConfiguration {A} (c : M GeometryRendererTask.World A) : Prop :=
  ∀ w res w', c w = (res, w') →
    onlyLayoutsAndSize (GeometryRendererTask.w_task w) (GeometryRendererTask.w_task w').

(** An exception that reports its cause: a failed lookup of the frame
    graph, or an error of the task whose message starts with the task's
    prefix. *)
Definition reportedFailure (taskName : string) (e : exn) : Prop :=
  e = ResolutionFailure ∨
  ∃ msg, e = Error msg ∧ String.prefix (GeometryRendererTask.msg_prefix taskName) msg = true.

(** The tasks that the class's own code produces: the constructor makes
    one, and the setter of [name], an assignment to the public fields, a
    call of [recordFrameGraph] whatever its outcome, and a run of an execute
    closure lead from one to another. *)
Inductive reachable `{External} : GeometryRendererTask.Task → Prop :=
| reachable_constructor taskName renderPassId :
    reachable (GeometryRendererTask.constructor taskName renderPassId)
| reachable_set_name value this :
    reachable this → reachable (GeometryRendererTask.set_name value this)
| reachable_configure this depth objects test write sz percentage count descriptions off :
    reachable this →
    reachable
      (GeometryRendererTask.mkTask (GeometryRendererTask.name this) depth objects test write sz
         percentage count descriptions off (GeometryRendererTask._rtt this)
         (GeometryRendererTask._clearAttachmentsLayout this)
         (GeometryRendererTask._allAttachmentsLayout this))
| reachable_recordFrameGraph w res w' :
    reachable (GeometryRendererTask.w_task w) →
    GeometryRendererTask.recordFrameGraph w = (res, w') →
    reachable (GeometryRendererTask.w_task w')
| reachable_executeFunc closure ew :
    reachable (GeometryRendererTask.ex_task ew) →
    reachable (GeometryRendererTask.ex_task (GeometryRendererTask.executeFunc closure ew)).

(** The texture that the bloom block's [_buildBlock] leaves on its task
    for an input: the value of the point that the input is connected to,
    and the texture the task had when the input is not connected. *)
Definition builtTexture (values : gmap Z FrameGraph.FrameGraphTextureId)
    (input : BloomBlock.NodeRenderGraphConnectionPoint)
    (old : option FrameGraph.FrameGraphTextureId)
  : option FrameGraph.FrameGraphTextureId :=
  match BloomBlock.cp_connectedPoint input with
  | Some remote => values !! remote
  | None => old
  end.

(** * Sample data *)

Module Sample.
Import FrameGraph GeometryRendererTask.

(** WebGL's numbering: COLOR_ATTACHMENT0 + i for a plane that is on,
    NONE for one that is off. *)
Definition webglLayout (textureStatus : list bool) : list Z :=
  imap (λ i (status : bool), if status then 36064 + Z.of_nat i else 0) textureStatus.

#[local] Instance external : External :=
  mkExternal
    [mkGeometryTextureDescription 5 "Depth" ClearMaxViewZ "PREPASS_DEPTH_INDEX";
     mkGeometryTextureDescription 6 "Normal" ClearZeros "PREPASS_NORMAL_INDEX";
     mkGeometryTextureDescription 12 "Albedo" ClearZeros "PREPASS_ALBEDO_INDEX";
     mkGeometryTextureDescription 10 "ScreenDepth" ClearOnes "PREPASS_SCREENSPACE_DEPTH_INDEX"]
    webglLayout
    1
    pretty.

Definition planes : list IFrameGraphGeometryRendererTextureDescription :=
  [mkTextureDescription 6 2 5; mkTextureDescription 5 1 6;
   mkTextureDescription 12 0 5; mkTextureDescription 10 1 6].

Definition rtt : RenderTargetTexture := mkRtt "geom_internal_rtt" (mkSize 1 1) [] [] 7.

Definition task (depth : option FrameGraphTextureId) (planes : list _)
    (objects : option Z) : Task :=
  mkTask "geom" depth objects true true (mkSize 100 100) true 1 planes false rtt [] [].

(** Handles 0 and 1 are the back buffer's; handle 2 is a depth texture
    with 4 samples, handle 3 one with 1 sample. *)
Definition depthOptions (samples : Z) : TextureCreationOptions :=
  mkCreation (mkSize 100 100) true (mkOptions false true 1 samples [0] [13] ["depth"]).

(** The object list of id 0 is the list at address 30. *)
Definition graph : FrameGraph.t :=
  mkFrameGraph (mkSize 1920 1080)
    [("backbuffer", depthOptions 1); ("backbufferDepthStencil", depthOptions 1);
     ("depth4", depthOptions 4); ("depth1", depthOptions 1)]
    ∅ {[ 0 := 30%nat ]} [].

Definition world (depth : option FrameGraphTextureId) (planes : list _)
    (objects : option Z) : World :=
  mkWorld (task depth planes objects) graph ∅.

Definition world_no_planes : World := world None [] (Some 0).
Definition world_no_depth : World := world None planes (Some 0).
Definition world_backbuffer : World := world (Some (TextureHandle 1)) planes (Some 0).
Definition world_depth4 : World := world (Some (TextureHandle 2)) planes (Some 0).
Definition world_depth1 : World := world (Some (TextureHandle 3)) planes (Some 0).

(** What the object lists hold when the closures of the samples run: the
    list at address 30 holds two meshes and one particle system, every other
    list is empty. *)
Definition objects (address : nat) : FrameGraphObjectList :=
  if decide (address = 30%nat) then mkObjectList [11; 12] [21] else mkObjectList [] [].

(** The worlds that recording the task leaves. *)
Definition recorded_no_depth : World := (recordFrameGraph world_no_depth).2.
Definition recorded_depth1 : World := (recordFrameGraph world_depth1).2.
End Sample.

Module TeleportSample.
Import TeleportOut.

(** A base class that serializes and restores the name, and a source
    whose build throws. *)
#[local] Instance base : Base :=
  mkBase
    (λ blk, {[ "customType" := JsString "BABYLON.NodeRenderGraphTeleportOutBlock";
               "name" := JsString (name blk) ]})
    (λ obj blk,
       match obj !! "name" with
       | Some (JsString n) =>
           mkOut (uniqueId blk) n (_isTeleportOut blk) (_outputs blk) (_entryPoint blk)
             (_tempEntryPointUniqueId blk)
       | _ => blk
       end)
    (λ e, throw (Error "entry point built")).

(** The source at address 10 is paired with the receiver at address 20;
    the receiver at address 21 has no source. *)
Definition paired : NodeRenderGraphTeleportOutBlock :=
  mkOut 43 "> source" true [mkOutputPoint "output" BasedOnInput None] (Some 10%nat) JsNull.

Definition unpaired : NodeRenderGraphTeleportOutBlock := constructor "lonely" 44.

Definition source : NodeRenderGraphTeleportInBlock := mkIn 42 "source" [20%nat].

Definition heap : Heap :=
    mkHeap {[ 10%nat := source ]} {[ 20%nat := paired; 21%nat := unpaired ]} 45 [].
End TeleportSample.

Module BloomSample.
Import BloomBlock.

(** The block as constructed, with only its source connected, and with
    both inputs connected. *)
Definition source_only : NodeRenderGraphBloomPostProcessBlock :=
  connectInput 0 7 constructor.

Definition both : NodeRenderGraphBloomPostProcessBlock :=
    connectInput 1 8 source_only.
End BloomSample.

Module SamplePlanes.
Import FrameGraph GeometryRendererTask.

(** Three planes, the second of a type that the catalogue does not
    have. *)
Definition planes_unknown : list IFrameGraphGeometryRendererTextureDescription :=
  [mkTextureDescription 6 2 5; mkTextureDescription 99 0 0; mkTextureDescription 5 1 6].

Definition world_unknown : World := Sample.world None planes_unknown (Some 0).

(** The catalogue entries of [Sample.planes], plane by plane. *)
Definition entries : list GeometryTextureDescription :=
  [mkGeometryTextureDescription 6 "Normal" ClearZeros "PREPASS_NORMAL_INDEX";
   mkGeometryTextureDescription 5 "Depth" ClearMaxViewZ "PREPASS_DEPTH_INDEX";
   mkGeometryTextureDescription 12 "Albedo" ClearZeros "PREPASS_ALBEDO_INDEX";
   mkGeometryTextureDescription 10 "ScreenDepth" ClearOnes "PREPASS_SCREENSPACE_DEPTH_INDEX"].
End SamplePlanes.

Module TeleportDumpSample.
Import TeleportOut TeleportOutDump.

(** A base class that dumps a declaration of the block, and a source whose
    dump declares it and marks it as dumped. *)
#[local] Instance dumpBase : DumpBase :=
  mkDumpBase
    (λ blk st, (inr ("var " +:+ name blk +:+ ";"),
                mkDumpState (uniqueNames st ++ [name blk]) (alreadyDumped st)))
    (λ e st, (inr "var source;",
              mkDumpState (uniqueNames st ++ ["source"]) (alreadyDumped st ++ [e])))
    (λ blk, ret "")
    (λ e, ret "").

(** Two receivers of the source at address 10. *)
Definition first : NodeRenderGraphTeleportOutBlock :=
  mkOut 43 "first" true [mkOutputPoint "output" BasedOnInput None] (Some 10%nat) JsNull.

Definition second : NodeRenderGraphTeleportOutBlock :=
  mkOut 44 "second" true [mkOutputPoint "output" BasedOnInput None] (Some 10%nat) JsNull.
End TeleportDumpSample.

Module BloomStateSample.
Import FrameGraph BloomBlock BloomBlockState.

(** A bloom effect that holds its three properties as plain fields. *)
Record PlainEffect := mkPlainEffect {
  plain_threshold : JsValue;
  plain_weight : JsValue;
  plain_kernel : JsValue
}.

#[local] Instance plainEffect : BloomEffect (V := JsValue) (E := PlainEffect) :=
  mkBloomEffect
    plain_threshold (λ v e, mkPlainEffect v (plain_weight e) (plain_kernel e))
    plain_weight (λ v e, mkPlainEffect (plain_threshold e) v (plain_kernel e))
    plain_kernel (λ v e, mkPlainEffect (plain_threshold e) (plain_weight e) v).

(** A base class whose build does nothing and which serializes and restores
    the block's name. *)
#[local] Instance blockBase : BlockBase (V := JsValue) (E := PlainEffect) :=
  mkBlockBase
    (ret tt)
    (λ this, {[ "name" := JsString (name this); "kernel" := JsNull ]})
    (λ obj this,
       match obj !! "name" with
       | Some (JsString n) =>
           mkState (points this) n (outputValue this) (_frameGraphTask this) (_postProcess this)
       | _ => this
       end).

(** A block named "bloom" whose task still carries the name and the
    textures of an earlier build. *)
Definition block (points : NodeRenderGraphBloomPostProcessBlock)
  : Block (V := JsValue) (E := PlainEffect) :=
  mkState points "bloom" None
    (mkBloomTask "old" (Some (TextureHandle 5)) (Some (TextureHandle 6)) (JsNumber 2))
    (mkPlainEffect (JsNumber 20) (JsNumber 75) (JsNumber 64)).

(** The connection point 7 carries the texture 3. *)
Definition values : gmap Z FrameGraphTextureId := {[ 7 := TextureHandle 3 ]}.
End BloomStateSample.

(** * Properties *)

(** ** JavaScript preliminaries *)

Section Preliminaries.
Context {A : Type}.

Lemma findIndex_from_spec (p : A → bool) (l : list A) (i : Z) :
    0 ≤ i →
    (findIndex_from p l i = -1 ∧ Forall (λ x, p x = false) l) ∨
    (∃ n x, findIndex_from p l i = i + Z.of_nat n ∧ l !! n = Some x ∧ p x = true).
  Proof.
    revert i. induction l as [|x l IH]; intros i Hi; simpl.
    - left. split; [done | constructor].
    - destruct (p x) eqn:Hp.
      + right. exists 0%nat, x. split_and!; [lia | done | done].
      + destruct (IH (i + 1) ltac:(lia)) as [[-> Hall] | (n & y & -> & Hn & Hy)].
        * left. split; [done | by constructor].
        * right. exists (S n), y. split_and!; [lia | done | done].
  Qed.

Lemma findIndex_found (p : A → bool) (l : list A) (x : A) :
    x ∈ l → p x = true →
    ∃ y, findIndex p l ≠ -1 ∧ array_at l (findIndex p l) = Some y ∧ p y = true.
  Proof.
    intros Hx Hp. unfold findIndex, array_at.
    destruct (findIndex_from_spec p l 0 ltac:(lia)) as [[_ Hall] | (n & y & Hn & Hl & Hy)].
    - rewrite Forall_forall in Hall. specialize (Hall x Hx). congruence.
    - exists y. rewrite Hn. split_and!; [lia | | done].
      rewrite decide_True by lia. by replace (Z.to_nat (0 + Z.of_nat n)) with n by lia.
  Qed.

Lemma findIndex_missing (p : A → bool) (l : list A) :
    (∀ x, x ∈ l → p x = false) →
    findIndex p l = -1 ∧ array_at l (findIndex p l) = None.
  Proof.
    intros Hall. unfold findIndex, array_at.
    destruct (findIndex_from_spec p l 0 ltac:(lia)) as [[-> _] | (n & y & _ & Hl & Hy)].
    - by rewrite decide_False by lia.
    - apply list_elem_of_lookup_2 in Hl. specialize (Hall y Hl). congruence.
  Qed.

Lemma findIndex_from_first (p : A → bool) (before : list A) (x : A) (after : list A) :
    ∀ i, Forall (λ y, p y = false) before → p x = true →
         findIndex_from p (before ++ x :: after) i = i + Z.of_nat (length before).
  Proof.
    induction before as [|y before IH]; intros i Hbefore Hx; simpl.
    - rewrite Hx. lia.
    - apply Forall_cons in Hbefore as [Hy Hbefore]. rewrite Hy, IH by done. lia.
  Qed.

Lemma findIndex_from_split (p : A → bool) (l : list A) :
    ∀ i, 0 ≤ i →
      (findIndex_from p l i = -1) ∨
      (∃ before x after,
         l = before ++ x :: after ∧ p x = true ∧ Forall (λ y, p y = false) before ∧
         findIndex_from p l i = i + Z.of_nat (length before)).
  Proof.
    induction l as [|y l IH]; intros i Hi; simpl.
    - by left.
    - destruct (p y) eqn:Hy.
      + right. exists [], y, l. split_and!; [done | done | constructor | simpl; lia].
      + destruct (IH (i + 1) ltac:(lia)) as [Hm | (before & x & after & -> & Hx & Hb & Hn)].
        * by left.
        * right. exists (y :: before), x, after.
          split_and!; [done | done | by constructor | rewrite Hn; simpl; lia].
  Qed.

(** [findIndex] finds the first element that satisfies [p], and only
    that. *)
Lemma findIndex_first (p : A → bool) (l : list A) (x : A) :
    array_at l (findIndex p l) = Some x ↔
    ∃ before after, l = before ++ x :: after ∧ p x = true ∧ Forall (λ y, p y = false) before.
  Proof.
    unfold findIndex, array_at. split.
    - destruct (findIndex_from_split p l 0 ltac:(lia))
        as [-> | (before & y & after & -> & Hy & Hb & ->)].
      + by rewrite decide_False by lia.
      + rewrite decide_True by lia.
        replace (Z.to_nat (0 + Z.of_nat (length before))) with (length before) by lia.
        rewrite list_lookup_middle by done. intros [= ->]. by exists before, after.
    - intros (before & after & -> & Hx & Hbefore).
      rewrite (findIndex_from_first p before x after 0 Hbefore Hx).
      rewrite decide_True by lia.
      replace (Z.to_nat (0 + Z.of_nat (length before))) with (length before) by lia.
      by rewrite list_lookup_middle.
  Qed.
End Preliminaries.

Lemma prefix_app_l (s t : string) : String.prefix s (s +:+ t) = true.
Proof.
  induction s as [|c s IH]; simpl.
  - by destruct t.
  - destruct (Ascii.ascii_dec c c) as [_|]; [exact IH | done].
Qed.

Lemma substringb_prefix (s t : string) : String.prefix s t = true → substringb s t = true.
Proof. intros Hp. destruct t; simpl; simpl in Hp; by rewrite Hp. Qed.

(** A string that was spliced into a message occurs in it. *)
Lemma substringb_splice (p s t : string) : substringb s (p +:+ s +:+ t) = true.
Proof.
  induction p as [|c p IH].
  - change (substringb s (s +:+ t) = true). apply substringb_prefix, prefix_app_l.
  - simpl. rewrite IH. apply orb_true_r.
Qed.

Section Monad.
Context {S A B : Type}.
Implicit Types (c : M S A) (k : A → M S B).

Lemma bind_inr c k s a s' : c s = (inr a, s') → bind c k s = k a s'.
Proof. intros Hc. unfold bind. by rewrite Hc. Qed.

Lemma bind_inl c k s e s' : c s = (inl e, s') → bind c k s = (inl e, s').
Proof. intros Hc. unfold bind. by rewrite Hc. Qed.

Lemma bind_inv_inr c k s b s'' :
  bind c k s = (inr b, s'') → ∃ a s', c s = (inr a, s') ∧ k a s' = (inr b, s'').
Proof.
  unfold bind. destruct (c s) as [[e|a] s'] eqn:Hc; [done |]. intros Hk. by exists a, s'.
Qed.
End Monad.

Section JsMapFacts.
Context {K V : Type} `{EqDecision K}.
Implicit Types (m : list (K * V)) (k : K) (v : V).

Lemma JsMap_get_None k m : JsMap.get k m = None ↔ k ∉ m.*1.
  Proof.
    induction m as [|[k' v'] m IH]; simpl.
    - split; [intros _; apply not_elem_of_nil | done].
    - destruct (decide (k = k')) as [->|Hne].
      + split; [done | intros []; left].
      + rewrite IH, not_elem_of_cons. tauto.
  Qed.

Lemma JsMap_get_Some k v m : JsMap.get k m = Some v → k ∈ m.*1.
  Proof.
    intros Hget. destruct (decide (k ∈ m.*1)) as [|Hn]; [done |].
    apply JsMap_get_None in Hn. congruence.
  Qed.

Lemma JsMap_set_fresh k v m : k ∉ m.*1 → JsMap.set k v m = m ++ [(k, v)].
  Proof.
    induction m as [|[k' v'] m IH]; simpl; [done |].
    rewrite not_elem_of_cons. intros [Hne Hk].
    rewrite decide_False by done. by rewrite IH.
  Qed.
End JsMapFacts.

(** ** The distinct kinds of a list *)

Section FirstSeen.
Context {K : Type} `{EqDecision K}.
Implicit Types (l : list K) (x : K).

Lemma firstSeen_snoc l x :
    firstSeen (l ++ [x]) =
    if decide (x ∈ firstSeen l) then firstSeen l else firstSeen l ++ [x].
  Proof. unfold firstSeen. by rewrite foldl_app. Qed.

Lemma elem_of_firstSeen l x : x ∈ firstSeen l ↔ x ∈ l.
  Proof.
    induction l as [|y l IH] using rev_ind.
    - done.
    - rewrite firstSeen_snoc. case_decide as Hy.
      + rewrite elem_of_app, list_elem_of_singleton, <- IH.
        split; [tauto | intros [?| ->]; done].
      + by rewrite !elem_of_app, IH.
  Qed.

Lemma NoDup_firstSeen l : NoDup (firstSeen l).
  Proof.
    induction l as [|y l IH] using rev_ind.
    - constructor.
    - rewrite firstSeen_snoc. case_decide as Hy; [done |].
      apply NoDup_app. split_and!; [done | | apply NoDup_singleton].
      intros z Hz ->%list_elem_of_singleton. done.
  Qed.
End FirstSeen.

Lemma layoutOf_snoc kinds k kind :
  layoutOf (kinds ++ [k]) kind = layoutOf kinds kind ++ [bool_decide (kind = k)].
Proof. unfold layoutOf. by rewrite map_app. Qed.

Lemma layoutOf_absent kinds kind :
  kind ∉ kinds → layoutOf kinds kind = replicate (length kinds) false.
Proof.
  induction kinds as [|k kinds IH]; simpl; [done |].
  rewrite not_elem_of_cons. intros [Hne Hk].
  rewrite bool_decide_eq_false_2 by done. by rewrite IH.
Qed.

Lemma layoutsSpec_keys kinds : (layoutsSpec kinds).*1 = firstSeen kinds.
Proof.
  unfold layoutsSpec. rewrite <- list_fmap_compose. apply list_fmap_id.
Qed.

Lemma layoutsSpec_snoc kinds k :
  layoutsSpec (kinds ++ [k]) =
  JsMap.forEach_update (λ kind layout, layout ++ [bool_decide (kind = k)])
    (match JsMap.get k (layoutsSpec kinds) with
     | None => JsMap.set k (replicate (length kinds) false) (layoutsSpec kinds)
     | Some _ => layoutsSpec kinds
     end).
Proof.
  assert (Hmap : ∀ ks,
    JsMap.forEach_update (λ kind layout, layout ++ [bool_decide (kind = k)])
      (map (λ kind, (kind, layoutOf kinds kind)) ks)
    = map (λ kind, (kind, layoutOf (kinds ++ [k]) kind)) ks).
  { intros ks. unfold JsMap.forEach_update. rewrite map_map.
    apply map_ext. intros kind. simpl. by rewrite layoutOf_snoc. }
  destruct (JsMap.get k (layoutsSpec kinds)) as [v|] eqn:Hget.
  - apply JsMap_get_Some in Hget. rewrite layoutsSpec_keys in Hget.
    unfold layoutsSpec at 1. rewrite firstSeen_snoc, decide_True by done.
    symmetry. apply Hmap.
  - apply JsMap_get_None in Hget. rewrite layoutsSpec_keys in Hget.
    rewrite JsMap_set_fresh by (by rewrite layoutsSpec_keys).
    unfold layoutsSpec at 1. rewrite firstSeen_snoc, decide_False by done.
    rewrite map_app. unfold JsMap.forEach_update. rewrite map_app.
    f_equal.
    + symmetry. apply Hmap.
    + simpl. rewrite layoutOf_snoc. do 3 f_equal.
      apply layoutOf_absent. by rewrite <- elem_of_firstSeen.
Qed.

(** ** The geometry renderer task *)

Module GeometryRendererTaskFacts.
Import FrameGraph GeometryRendererTask.

Section Catalogue.
Context `{External}.
Implicit Types (description : IFrameGraphGeometryRendererTextureDescription).

Lemma catalogueEntry_known description :
  inCatalogue description →
  ∃ f, catalogueIndex description ≠ -1 ∧ catalogueEntry description = Some f.
Proof.
  intros (f & Hf & Hty).
  destruct (findIndex_found (λ f, bool_decide (gd_type f = type description))
              GeometryTextureDescriptions f Hf) as (y & Hne & Hat & _).
  { by apply bool_decide_eq_true_2. }
  exists y. by split.
Qed.

Lemma catalogueEntry_unknown description :
  ¬ inCatalogue description →
  catalogueIndex description = -1 ∧ catalogueEntry description = None.
Proof.
  intros Hnot. apply findIndex_missing. intros f Hf.
  apply bool_decide_eq_false_2. intros Hty. apply Hnot. by exists f.
Qed.

Lemma catalogueEntry_inCatalogue description f :
  catalogueEntry description = Some f → inCatalogue description.
Proof.
  intros Hentry. unfold catalogueEntry, array_at in Hentry. case_decide; [|done].
  exists f. split; [by eapply list_elem_of_lookup_2 |].
  unfold catalogueIndex, findIndex in *.
  destruct (findIndex_from_spec (λ f, bool_decide (gd_type f = type description))
              GeometryTextureDescriptions 0 ltac:(lia)) as [[Hm _]|(n & y & Hn & Hl & Hy)].
  - lia.
  - rewrite Hn in Hentry.
    replace (Z.to_nat (0 + Z.of_nat n)) with n in Hentry by lia.
    assert (y = f) as -> by congruence. by apply bool_decide_eq_true_1 in Hy.
Qed.

Lemma inCatalogue_dec description : inCatalogue description ∨ ¬ inCatalogue description.
Proof.
  destruct (catalogueEntry description) as [f|] eqn:Hentry.
  - left. by eapply catalogueEntry_inCatalogue.
  - right. intros Hin. apply catalogueEntry_known in Hin as (f & _ & Hf). congruence.
Qed.

(** The entry that the lookup of lines 187, 239 and 272 finds is the
    catalogue entry of the plane's type. *)
Lemma catalogueEntry_entryOfType description f :
  catalogueEntry description = Some f ↔ entryOfType (type description) f.
Proof.
  unfold catalogueEntry, catalogueIndex, entryOfType. rewrite findIndex_first.
  split; intros (before & after & Hsplit & Hf & Hbefore); exists before, after;
    (split_and!; [done | |]).
  - by apply bool_decide_eq_true_1 in Hf.
  - eapply Forall_impl; [exact Hbefore |]. intros g Hg. by apply bool_decide_eq_false_1 in Hg.
  - by apply bool_decide_eq_true_2.
  - eapply Forall_impl; [exact Hbefore |]. intros g Hg. by apply bool_decide_eq_false_2.
Qed.

Lemma clearKindOf_planeKind description kind :
  clearKindOf description = Some kind ↔ planeKind description kind.
Proof.
  unfold clearKindOf, planeKind. split.
  - destruct (catalogueEntry description) as [f|] eqn:Hentry; [|done].
    intros [= <-]. exists f. split; [by apply catalogueEntry_entryOfType | done].
  - intros (f & Hentry%catalogueEntry_entryOfType & <-). by rewrite Hentry.
Qed.

Lemma planeKind_unique description kind kind' :
  planeKind description kind → planeKind description kind' → kind = kind'.
Proof. rewrite <- !clearKindOf_planeKind. congruence. Qed.

Lemma planeKinds (descriptions : list IFrameGraphGeometryRendererTextureDescription) kinds :
  Forall2 (λ d k, clearKindOf d = Some k) descriptions kinds ↔
  Forall2 planeKind descriptions kinds.
Proof.
  split; intros Hkinds; (eapply Forall2_impl; [exact Hkinds |]); intros d k Hk;
    by apply clearKindOf_planeKind.
Qed.

Lemma planeKinds_unique
    (descriptions : list IFrameGraphGeometryRendererTextureDescription) : ∀ kinds kinds',
  Forall2 planeKind descriptions kinds → Forall2 planeKind descriptions kinds' →
  kinds = kinds'.
Proof.
  induction descriptions as [|d ds IH]; intros kinds kinds' Hk Hk'.
  - apply Forall2_nil_inv_l in Hk as ->. by apply Forall2_nil_inv_l in Hk' as ->.
  - apply Forall2_cons_inv_l in Hk as (k & ks & Hd & Hk & ->).
    apply Forall2_cons_inv_l in Hk' as (k' & ks' & Hd' & Hk' & ->).
    f_equal; [by eapply planeKind_unique | by apply IH].
Qed.

Lemma clearKindOf_known description :
  inCatalogue description → is_Some (clearKindOf description).
Proof.
  intros (f & _ & Hf)%catalogueEntry_known. unfold clearKindOf. rewrite Hf. by eexists.
Qed.

(** The clear kinds of planes that are all in the catalogue. *)
Lemma clearKinds_exist (descriptions : list IFrameGraphGeometryRendererTextureDescription) :
  Forall inCatalogue descriptions →
  ∃ kinds, Forall2 (λ d k, clearKindOf d = Some k) descriptions kinds.
Proof.
  induction 1 as [|d ds Hd _ [kinds IH]].
  - exists []. constructor.
  - destruct (clearKindOf_known d Hd) as [k Hk]. exists (k :: kinds). by constructor.
Qed.

Lemma clearLayoutStep_spec description k kinds :
  clearKindOf description = Some k →
  clearLayoutStep (length kinds) description (layoutsSpec kinds, replicate (length kinds) true)
  = inr (layoutsSpec (kinds ++ [k]), replicate (length (kinds ++ [k])) true).
Proof.
  unfold clearKindOf, clearLayoutStep. intros Hk.
  destruct (catalogueEntry description) as [f|]; [|done].
  injection Hk as ->. rewrite layoutsSpec_snoc. do 2 f_equal.
  rewrite length_app. simpl. rewrite Nat.add_1_r.
  by rewrite replicate_S_end.
Qed.

Lemma clearLayoutLoop_spec descriptions : ∀ kinds done,
  Forall2 (λ d k, clearKindOf d = Some k) descriptions kinds →
  clearLayoutLoop (length done) descriptions (layoutsSpec done, replicate (length done) true)
  = inr (layoutsSpec (done ++ kinds), replicate (length (done ++ kinds)) true).
Proof.
  induction descriptions as [|d ds IH]; intros kinds done Hk.
  - apply Forall2_nil_inv_l in Hk as ->. by rewrite app_nil_r.
  - apply Forall2_cons_inv_l in Hk as (k & kinds' & Hd & Hds & ->).
    cbn [clearLayoutLoop]. rewrite (clearLayoutStep_spec d k done Hd).
    replace (S (length done)) with (length (done ++ [k])) by (rewrite length_app; simpl; lia).
    rewrite (IH kinds' (done ++ [k]) Hds). by rewrite <- app_assoc.
Qed.

(** The loop of [_buildClearAttachmentsLayout] computes the layouts that
    the specification describes. *)
Lemma clearLayoutBooleans_spec descriptions kinds :
  Forall2 (λ d k, clearKindOf d = Some k) descriptions kinds →
  clearLayoutBooleans descriptions
  = inr (layoutsSpec kinds, replicate (length descriptions) true).
Proof.
  intros Hk. unfold clearLayoutBooleans. rewrite (Forall2_length _ _ _ Hk).
  exact (clearLayoutLoop_spec descriptions kinds [] Hk).
Qed.

(** The conversion to the engine's layouts keeps one entry for each kind,
    in the same order. *)
Lemma nativeLayouts_spec (layouts : list (TextureClearType * list bool)) :
  NoDup layouts.*1 →
  nativeLayouts layouts = map (λ kv, (kv.1, buildTextureLayout kv.2)) layouts.
Proof.
  unfold nativeLayouts.
  set (g := λ kv : TextureClearType * list bool, (kv.1, buildTextureLayout kv.2)).
  assert (Hgen : ∀ done,
    NoDup (done ++ layouts).*1 →
    foldl (λ m kv, JsMap.set kv.1 (buildTextureLayout kv.2) m) (map g done) layouts
    = map g (done ++ layouts)).
  { induction layouts as [|[k l] rest IH]; intros done Hnd.
    - by rewrite app_nil_r.
    - cbn [foldl fst snd]. rewrite JsMap_set_fresh.
      + change [(k, buildTextureLayout l)] with (map g [(k, l)]).
        rewrite <- map_app, IH; rewrite <- app_assoc; done.
      + rewrite fmap_app in Hnd. apply NoDup_app in Hnd as (_ & Hdis & _).
        intros Hin. apply (Hdis k).
        * rewrite <- list_fmap_compose in Hin. exact Hin.
        * simpl. left. }
  intros Hnd. exact (Hgen [] Hnd).
Qed.

Lemma layoutOf_lookup kinds kind (i : nat) k :
  kinds !! i = Some k → layoutOf kinds kind !! i = Some (bool_decide (kind = k)).
Proof. intros Hk. unfold layoutOf. change (map ?f ?l) with (f <$> l). by rewrite list_lookup_fmap, Hk. Qed.

Lemma elem_of_layoutsSpec kinds kind (layout : list bool) :
  (kind, layout) ∈ layoutsSpec kinds ↔ kind ∈ kinds ∧ layout = layoutOf kinds kind.
Proof.
  unfold layoutsSpec. rewrite list_elem_of_fmap. split.
  - intros (k & [= -> ->] & Hk). by rewrite <- elem_of_firstSeen.
  - intros [Hk ->]. exists kind. by rewrite elem_of_firstSeen.
Qed.

Lemma _buildClearAttachmentsLayout_run (w : World) kinds :
  Forall2 (λ d k, clearKindOf d = Some k) (textureDescriptions (w_task w)) kinds →
  _buildClearAttachmentsLayout w =
    (inr tt,
     mkWorld
       (with_layouts (w_task w)
          (map (λ kind, (kind, buildTextureLayout (layoutOf kinds kind))) (firstSeen kinds))
          (buildTextureLayout (replicate (length (textureDescriptions (w_task w))) true)))
       (w_frameGraph w) (w_defines w)).
Proof.
  intros Hkinds. unfold _buildClearAttachmentsLayout, bind, this_.
  rewrite (clearLayoutBooleans_spec _ _ Hkinds).
  rewrite nativeLayouts_spec by (rewrite layoutsSpec_keys; apply NoDup_firstSeen).
  unfold set_this, modify. simpl. do 3 f_equal.
  unfold layoutsSpec. by rewrite map_map.
Qed.

(** C1. For planes whose types are all in the catalogue, the loop of
    [_buildClearAttachmentsLayout] yields one boolean layout for each
    distinct clear kind present; each has length N and is true at index i
    iff plane i has that clear kind, which is the clear kind of the catalogue
    entry of plane i's type; and every index is true in exactly one of the
    layouts. The method returns and stores these layouts in the engine's
    form. *)
Theorem clear_layouts_partition
    (descriptions : list IFrameGraphGeometryRendererTextureDescription) :
  Forall inCatalogue descriptions →
  ∃ layouts : list (TextureClearType * list bool),
    clearLayoutBooleans descriptions = inr (layouts, replicate (length descriptions) true) ∧
    NoDup layouts.*1 ∧
    (∀ kind, kind ∈ layouts.*1 ↔ ∃ d, d ∈ descriptions ∧ planeKind d kind) ∧
    (∀ kind layout, (kind, layout) ∈ layouts →
       length layout = length descriptions ∧
       ∀ (i : nat) d, descriptions !! i = Some d →
         ∃ b : bool, layout !! i = Some b ∧ (b = true ↔ planeKind d kind)) ∧
    (∀ i : nat, (i < length descriptions)%nat →
       exists ! kind, ∃ layout, (kind, layout) ∈ layouts ∧ layout !! i = Some true) ∧
    (∀ w : World, textureDescriptions (w_task w) = descriptions →
       _buildClearAttachmentsLayout w =
         (inr tt,
          mkWorld
            (with_layouts (w_task w)
               (map (λ kv, (kv.1, buildTextureLayout kv.2)) layouts)
               (buildTextureLayout (replicate (length descriptions) true)))
            (w_frameGraph w) (w_defines w))).
Proof.
  intros Hcat. destruct (clearKinds_exist descriptions Hcat) as [kinds Hkinds].
  exists (layoutsSpec kinds).
  pose proof (Forall2_length _ _ _ Hkinds) as Hlen.
  split_and!.
  - by apply clearLayoutBooleans_spec.
  - rewrite layoutsSpec_keys. apply NoDup_firstSeen.
  - intros kind. rewrite layoutsSpec_keys, elem_of_firstSeen. split.
    + intros (i & Hi)%list_elem_of_lookup_1.
      destruct (Forall2_lookup_r _ _ _ _ _ Hkinds Hi) as (d & Hd & Hdk).
      exists d. split; [by eapply list_elem_of_lookup_2 | by apply clearKindOf_planeKind].
    + intros (d & (i & Hi)%list_elem_of_lookup_1 & Hdk%clearKindOf_planeKind).
      destruct (Forall2_lookup_l _ _ _ _ _ Hkinds Hi) as (k & Hk & Hdk').
      assert (k = kind) as -> by congruence. by eapply list_elem_of_lookup_2.
  - intros kind layout [_ ->]%elem_of_layoutsSpec. split.
    + unfold layoutOf. rewrite length_map. lia.
    + intros i d Hi.
      destruct (Forall2_lookup_l _ _ _ _ _ Hkinds Hi) as (k & Hk & Hdk).
      exists (bool_decide (kind = k)). split; [by apply layoutOf_lookup |].
      rewrite bool_decide_eq_true, <- clearKindOf_planeKind, Hdk. split; congruence.
  - intros i Hi.
    destruct (lookup_lt_is_Some_2 kinds i ltac:(lia)) as [k Hk].
    exists k. split.
    + exists (layoutOf kinds k). split.
      * apply elem_of_layoutsSpec. split; [by eapply list_elem_of_lookup_2 | done].
      * rewrite (layoutOf_lookup _ _ _ _ Hk). by rewrite bool_decide_eq_true_2.
    + intros kind (layout & [_ ->]%elem_of_layoutsSpec & Htrue).
      rewrite (layoutOf_lookup _ _ _ _ Hk) in Htrue.
      injection Htrue as Htrue. apply bool_decide_eq_true_1 in Htrue. done.
  - intros w <-. rewrite (_buildClearAttachmentsLayout_run w kinds Hkinds).
    unfold layoutsSpec. by rewrite map_map.
Qed.
End Catalogue.

Lemma clear_layouts_partition_witness :
  Forall (inCatalogue (H := Sample.external)) Sample.planes ∧
  clearLayoutBooleans (H := Sample.external) Sample.planes
  = inr ([(ClearZeros, [true; false; true; false]);
          (ClearMaxViewZ, [false; true; false; false]);
          (ClearOnes, [false; false; false; true])],
         [true; true; true; true]) ∧
  (∀ kind, kind ∈ [ClearZeros; ClearMaxViewZ; ClearOnes]
           ↔ ∃ d, d ∈ Sample.planes ∧ planeKind (H := Sample.external) d kind) ∧
  ∀ i : nat, (i < 4)%nat →
    exists ! kind, ∃ layout,
      (kind, layout) ∈ [(ClearZeros, [true; false; true; false]);
                        (ClearMaxViewZ, [false; true; false; false]);
                        (ClearOnes, [false; false; false; true])]
      ∧ layout !! i = Some true.
Proof.
  assert (Hcat : Forall (inCatalogue (H := Sample.external)) Sample.planes).
  { repeat constructor; eapply (catalogueEntry_inCatalogue (H := Sample.external));
      vm_compute; reflexivity. }
  split; [exact Hcat |].
  destruct (clear_layouts_partition (H := Sample.external) Sample.planes Hcat)
    as (layouts & Hrun & _ & Hkinds & _ & Hpart & _).
  assert (Hlayouts : layouts = [(ClearZeros, [true; false; true; false]);
                                (ClearMaxViewZ, [false; true; false; false]);
                                (ClearOnes, [false; false; false; true])]).
  { assert (Hsample : clearLayoutBooleans (H := Sample.external) Sample.planes
                      = inr ([(ClearZeros, [true; false; true; false]);
                              (ClearMaxViewZ, [false; true; false; false]);
                              (ClearOnes, [false; false; false; true])],
                             [true; true; true; true])) by (vm_compute; reflexivity).
    rewrite Hrun in Hsample. by injection Hsample. }
  rewrite Hlayouts in Hrun, Hkinds, Hpart.
  split_and!; [exact Hrun | exact Hkinds | exact Hpart].
Defined.

(** *** Running [recordFrameGraph] *)

Lemma append_assoc (s t u : string) : (s +:+ t) +:+ u = s +:+ t +:+ u.
Proof.
  induction s as [|c s IH]; [done |].
  change (String c ((s +:+ t) +:+ u) = String c (s +:+ t +:+ u)). by rewrite IH.
Qed.

(** The four messages of the task all name it. *)
Lemma msg_prefix_names (taskName rest : string) :
  namesTask (msg_prefix taskName +:+ rest) taskName = true.
Proof.
  unfold namesTask, msg_prefix. rewrite !append_assoc. apply substringb_splice.
Qed.

Section Record.
Context `{External}.
Implicit Types (w : World).

Lemma frameGraph_run {X} (c : M FrameGraph.t X) w res fg' :
  c (w_frameGraph w) = (res, fg') →
  frameGraph c w = (res, mkWorld (w_task w) fg' (w_defines w)).
Proof. intros Hc. unfold frameGraph. by rewrite Hc. Qed.

Lemma createLoop_outcome taskName descriptions : ∀ acc,
  (Forall inCatalogue descriptions ∧
   ∃ types formats labels, createLoop taskName descriptions acc = inr (types, formats, labels)) ∨
  (∃ d, d ∈ descriptions ∧ ¬ inCatalogue d ∧
        createLoop taskName descriptions acc = inl (Error (msg_unknown_type taskName (type d)))).
Proof.
  induction descriptions as [|d ds IH]; intros [[types formats] labels].
  - left. split; [constructor | by eexists _, _, _].
  - cbn [createLoop]. destruct (inCatalogue_dec d) as [Hd | Hd].
    + destruct (catalogueEntry_known d Hd) as (f & Hne & Hf).
      rewrite bool_decide_eq_false_2 by done.
      change (array_at GeometryTextureDescriptions (catalogueIndex d))
        with (catalogueEntry d). rewrite Hf.
      destruct (IH (types ++ [textureType d], formats ++ [textureFormat d],
                    labels ++ [gd_name f]))
        as [[Hall Hrun] | (d' & Hin & Hnot & Hrun)].
      * left. split; [by constructor | done].
      * right. exists d'. split_and!; [by right | done | done].
    + destruct (catalogueEntry_unknown d Hd) as [Hidx _].
      rewrite bool_decide_eq_true_2 by done.
      right. exists d. split_and!; [by left | done | done].
Qed.

(** What [_createMultiRenderTargetTexture] does: it appends one texture,
    with the task's sample count, or throws for an unknown type and leaves
    the world as it was. *)
Lemma _createMultiRenderTargetTexture_outcome w :
  (Forall inCatalogue (textureDescriptions (w_task w)) ∧
   ∃ creation,
     opt_samples (tex_options creation) = samples (w_task w) ∧
     _createMultiRenderTargetTexture w =
       (inr (Z.of_nat (length (textures (w_frameGraph w)))),
        mkWorld (w_task w)
          (with_textures (w_frameGraph w)
             (textures (w_frameGraph w) ++ [(name (w_task w), creation)]))
          (w_defines w))) ∨
  (∃ d, d ∈ textureDescriptions (w_task w) ∧ ¬ inCatalogue d ∧
        _createMultiRenderTargetTexture w =
          (inl (Error (msg_unknown_type (name (w_task w)) (type d))), w)).
Proof.
  unfold _createMultiRenderTargetTexture, bind, this_.
  destruct (createLoop_outcome (name (w_task w)) (textureDescriptions (w_task w)) ([], [], []))
    as [[Hall (types & formats & labels & ->)] | (d & Hin & Hnot & ->)].
  - left. split; [done |]. eexists. split; [|reflexivity]. done.
  - right. by exists d.
Qed.

Lemma getTextureHandle_state id (fg : FrameGraph.t) :
  (getTextureHandle id fg).2 = fg.
Proof. destruct id; simpl; [done |]. by destruct (outputs fg !! _). Qed.

Lemma getTextureHandle_run id (fg : FrameGraph.t) res :
  (getTextureHandle id fg).1 = res → getTextureHandle id fg = (res, fg).
Proof.
  intros <-. rewrite <- (getTextureHandle_state id fg) at 3. by destruct (getTextureHandle id fg).
Qed.

(** Creating a texture does not change what a texture id resolves to. *)
Lemma getTextureHandle_textures id (fg : FrameGraph.t) ts :
  (getTextureHandle id (with_textures fg ts)).1 = (getTextureHandle id fg).1.
Proof. destruct id; simpl; [done |]. by destruct (outputs fg !! _). Qed.

Lemma getTextureDescription_state handle (fg : FrameGraph.t) :
  (getTextureDescription handle fg).2 = fg.
Proof. unfold getTextureDescription. by destruct (array_at _ _) as [[]|]. Qed.

Lemma getTextureDescription_run handle (fg : FrameGraph.t) res :
  (getTextureDescription handle fg).1 = res → getTextureDescription handle fg = (res, fg).
Proof.
  intros <-. rewrite <- (getTextureDescription_state handle fg) at 3.
  by destruct (getTextureDescription handle fg).
Qed.

(** Nor the descriptor of a handle that was in the table. *)
Lemma getTextureDescription_textures handle (fg : FrameGraph.t) extra description :
  (getTextureDescription handle fg).1 = inr description →
  (getTextureDescription handle (with_textures fg (textures fg ++ extra))).1 = inr description.
Proof.
  unfold getTextureDescription, array_at. simpl.
  case_decide; [|done].
  destruct (textures fg !! Z.to_nat handle) as [[n c]|] eqn:Hl; [|done].
  by rewrite (lookup_app_l_Some _ _ _ _ Hl).
Qed.

Lemma _checkDepthTextureCompatibility_backbuffer w depth :
  depthTexture (w_task w) = Some depth →
  (getTextureHandle depth (w_frameGraph w)).1 = inr backbufferDepthStencilTextureHandle →
  _checkDepthTextureCompatibility w = (inl (Error (msg_backbuffer (name (w_task w)))), w).
Proof.
  destruct w as [task fg defs]. simpl. intros Hd Hh%getTextureHandle_run.
  unfold _checkDepthTextureCompatibility.
  unfold bind at 1. unfold this_. simpl. rewrite Hd.
  rewrite (bind_inr _ _ _ _ _ (frameGraph_run _ (mkWorld task fg defs) _ _ Hh)).
  by rewrite bool_decide_eq_true_2 by done.
Qed.

Lemma _checkDepthTextureCompatibility_samples w depth handle description :
  depthTexture (w_task w) = Some depth →
  (getTextureHandle depth (w_frameGraph w)).1 = inr handle →
  handle ≠ backbufferDepthStencilTextureHandle →
  (getTextureDescription handle (w_frameGraph w)).1 = inr description →
  opt_samples (desc_options description) ≠ samples (w_task w) →
  _checkDepthTextureCompatibility w = (inl (Error (msg_samples (name (w_task w)))), w).
Proof.
  destruct w as [task fg defs]. simpl.
  intros Hd Hh%getTextureHandle_run Hne Hdesc%getTextureDescription_run Hs.
  unfold _checkDepthTextureCompatibility.
  unfold bind at 1. unfold this_. simpl. rewrite Hd.
  rewrite (bind_inr _ _ _ _ _ (frameGraph_run _ (mkWorld task fg defs) _ _ Hh)).
  rewrite bool_decide_eq_false_2 by done.
  rewrite (bind_inr _ _ _ _ _ (frameGraph_run _ (mkWorld task fg defs) _ _ Hdesc)).
  by rewrite bool_decide_eq_true_2 by done.
Qed.

Lemma recordFrameGraph_missing w :
  textureDescriptions (w_task w) = [] ∨ objectList (w_task w) = None →
  recordFrameGraph w = (inl (Error (msg_missing (name (w_task w)))), w).
Proof.
  intros Hm. unfold recordFrameGraph, bind, this_.
  destruct Hm as [-> | ->]; simpl; [done |]. by rewrite orb_true_r.
Qed.

(** With a configuration that passes the first check, [recordFrameGraph]
    goes on to create its texture. *)
Lemma recordFrameGraph_configured w :
  textureDescriptions (w_task w) ≠ [] → objectList (w_task w) ≠ None →
  bool_decide (length (textureDescriptions (w_task w)) = 0%nat)
  || bool_decide (objectList (w_task w) = None) = false.
Proof.
  intros Hd Ho. rewrite (bool_decide_eq_false_2 (objectList _ = None)) by done.
  rewrite bool_decide_eq_false_2; [done |]. by destruct (textureDescriptions (w_task w)).
Qed.

Lemma recordFrameGraph_unknown_type w :
  textureDescriptions (w_task w) ≠ [] → objectList (w_task w) ≠ None →
  ¬ Forall inCatalogue (textureDescriptions (w_task w)) →
  ∃ d, d ∈ textureDescriptions (w_task w) ∧
       recordFrameGraph w = (inl (Error (msg_unknown_type (name (w_task w)) (type d))), w).
Proof.
  intros Hd Ho Hcat. unfold recordFrameGraph. unfold bind at 1. unfold this_.
  rewrite (recordFrameGraph_configured w Hd Ho).
  destruct (_createMultiRenderTargetTexture_outcome w)
    as [[Hall _] | (d & Hin & _ & Hrun)]; [done |].
  exists d. split; [done |]. by rewrite (bind_inl _ _ _ _ _ Hrun).
Qed.

(** A depth texture that [_checkDepthTextureCompatibility] refuses makes
    [recordFrameGraph] throw, with the message of the first check that
    fails. *)
Lemma recordFrameGraph_depth_refused w depth handle (msg : string) :
  depthTexture (w_task w) = Some depth →
  (getTextureHandle depth (w_frameGraph w)).1 = inr handle →
  namesTask msg (name (w_task w)) = true →
  (∀ w1 : World,
     w_task w1 = w_task w →
     (getTextureHandle depth (w_frameGraph w1)).1 = inr handle →
     (∀ description, (getTextureDescription handle (w_frameGraph w)).1 = inr description →
                     (getTextureDescription handle (w_frameGraph w1)).1 = inr description) →
     _checkDepthTextureCompatibility w1 = (inl (Error msg), w1)) →
  ∃ msg' w',
    recordFrameGraph w = (inl (Error msg'), w') ∧
    namesTask msg' (name (w_task w)) = true ∧
    (textureDescriptions (w_task w) ≠ [] → objectList (w_task w) ≠ None →
     Forall inCatalogue (textureDescriptions (w_task w)) → msg' = msg).
Proof.
  intros Hd Hh Hnames Hcheck.
  destruct (decide (textureDescriptions (w_task w) = [])) as [Hempty | Hdescs].
  { eexists _, _. split_and!; [by apply recordFrameGraph_missing; left | | done].
    apply msg_prefix_names. }
  destruct (decide (objectList (w_task w) = None)) as [Hnone | Hobj].
  { eexists _, _. split_and!; [by apply recordFrameGraph_missing; right | | done].
    apply msg_prefix_names. }
  destruct (_createMultiRenderTargetTexture_outcome w)
    as [[Hall (creation & _ & Hrun)] | (d & Hin & Hnot & Hrun)].
  - exists msg. eexists. split_and!; [| done | done].
    unfold recordFrameGraph. unfold bind at 1. unfold this_.
    rewrite (recordFrameGraph_configured w Hdescs Hobj).
    rewrite (bind_inr _ _ _ _ _ Hrun).
    apply bind_inl, Hcheck; simpl.
    + done.
    + by rewrite getTextureHandle_textures.
    + intros description. apply getTextureDescription_textures.
  - eexists _, _. split_and!.
    + unfold recordFrameGraph. unfold bind at 1. unfold this_.
      rewrite (recordFrameGraph_configured w Hdescs Hobj).
      by rewrite (bind_inl _ _ _ _ _ Hrun).
    + apply msg_prefix_names.
    + intros _ _ Hall. rewrite Forall_forall in Hall. by destruct (Hnot (Hall d Hin)).
Qed.

(** C5. With no texture description or no object list, [recordFrameGraph]
    throws an error that names the task, and the world is as it was before
    the call: no texture was created and no pass registered. *)
Theorem record_rejects_missing_configuration w :
  textureDescriptions (w_task w) = [] ∨ objectList (w_task w) = None →
  recordFrameGraph w = (inl (Error (msg_missing (name (w_task w)))), w) ∧
  namesTask (msg_missing (name (w_task w))) (name (w_task w)) = true.
Proof.
  intros Hm. split; [by apply recordFrameGraph_missing | apply msg_prefix_names].
Qed.

(** C4. When [depthTexture] is defined and resolves to the swap chain's
    depth/stencil sentinel, [recordFrameGraph] throws an error whose
    message names the task; with a configuration that is valid otherwise,
    it is the back buffer message. *)
Theorem record_rejects_backbuffer_depth w depth :
  depthTexture (w_task w) = Some depth →
  (getTextureHandle depth (w_frameGraph w)).1 = inr backbufferDepthStencilTextureHandle →
  ∃ msg w',
    recordFrameGraph w = (inl (Error msg), w') ∧
    namesTask msg (name (w_task w)) = true ∧
    (textureDescriptions (w_task w) ≠ [] → objectList (w_task w) ≠ None →
     Forall inCatalogue (textureDescriptions (w_task w)) →
     msg = msg_backbuffer (name (w_task w))).
Proof.
  intros Hd Hh.
  apply (recordFrameGraph_depth_refused w depth _ _ Hd Hh); [apply msg_prefix_names |].
  intros w1 Htask Hh1 _. rewrite <- Htask.
  apply (_checkDepthTextureCompatibility_backbuffer w1 depth); [by rewrite Htask | done].
Qed.

(** C3, amended. When [depthTexture] is defined and resolves to a handle
    that is not the sentinel and whose descriptor has a sample count other
    than the task's [samples], [recordFrameGraph] throws an error whose
    message names the task; with a configuration that is valid otherwise,
    it is the message that the depth texture and the output texture must
    have the same number of samples, which states no count. *)
Theorem record_rejects_sample_mismatch w depth handle description :
  depthTexture (w_task w) = Some depth →
  (getTextureHandle depth (w_frameGraph w)).1 = inr handle →
  handle ≠ backbufferDepthStencilTextureHandle →
  (getTextureDescription handle (w_frameGraph w)).1 = inr description →
  opt_samples (desc_options description) ≠ samples (w_task w) →
  ∃ msg w',
    recordFrameGraph w = (inl (Error msg), w') ∧
    namesTask msg (name (w_task w)) = true ∧
    (textureDescriptions (w_task w) ≠ [] → objectList (w_task w) ≠ None →
     Forall inCatalogue (textureDescriptions (w_task w)) →
     msg = msg_samples (name (w_task w))).
Proof.
  intros Hd Hh Hne Hdesc Hs.
  apply (recordFrameGraph_depth_refused w depth _ _ Hd Hh); [apply msg_prefix_names |].
  intros w1 Htask Hh1 Hdesc1. rewrite <- Htask.
  apply (_checkDepthTextureCompatibility_samples w1 depth handle description);
    rewrite ?Htask; auto.
Qed.
End Record.

Lemma record_rejects_missing_configuration_witness :
  (textureDescriptions (w_task Sample.world_no_planes) = [] ∨
   objectList (w_task Sample.world_no_planes) = None) ∧
  recordFrameGraph (H := Sample.external) Sample.world_no_planes
  = (inl (Error (msg_missing "geom")), Sample.world_no_planes) ∧
  namesTask (msg_missing "geom") "geom" = true.
Proof.
  assert (Hm : textureDescriptions (w_task Sample.world_no_planes) = [] ∨
               objectList (w_task Sample.world_no_planes) = None) by (left; reflexivity).
  split; [exact Hm |].
  exact (record_rejects_missing_configuration (H := Sample.external) Sample.world_no_planes Hm).
Defined.

Lemma record_rejects_backbuffer_depth_witness :
  depthTexture (w_task Sample.world_backbuffer) = Some (TextureHandle 1) ∧
  (getTextureHandle (TextureHandle 1) (w_frameGraph Sample.world_backbuffer)).1
  = inr (backbufferDepthStencilTextureHandle (External := Sample.external)) ∧
  ∃ msg w',
    recordFrameGraph (H := Sample.external) Sample.world_backbuffer = (inl (Error msg), w') ∧
    namesTask msg "geom" = true.
Proof.
  split; [reflexivity |]. split; [reflexivity |].
  destruct (record_rejects_backbuffer_depth (H := Sample.external) Sample.world_backbuffer
              (TextureHandle 1) eq_refl eq_refl) as (msg & w' & Hrun & Hnames & _).
  exists msg, w'. split; [exact Hrun | exact Hnames].
Defined.

Lemma record_rejects_sample_mismatch_witness :
  depthTexture (w_task Sample.world_depth4) = Some (TextureHandle 2) ∧
  (getTextureHandle (TextureHandle 2) (w_frameGraph Sample.world_depth4)).1 = inr 2 ∧
  2 ≠ backbufferDepthStencilTextureHandle (External := Sample.external) ∧
  (getTextureDescription 2 (w_frameGraph Sample.world_depth4)).1
  = inr (mkDescription (mkSize 1920 1080) (tex_options (Sample.depthOptions 4))) ∧
  4 ≠ samples (w_task Sample.world_depth4) ∧
  ∃ msg w',
    recordFrameGraph (H := Sample.external) Sample.world_depth4 = (inl (Error msg), w') ∧
    namesTask msg "geom" = true.
Proof.
  assert (Hne : 2 ≠ backbufferDepthStencilTextureHandle (External := Sample.external))
    by (vm_compute; discriminate).
  assert (Hs : 4 ≠ samples (w_task Sample.world_depth4)) by (vm_compute; discriminate).
  split_and!; [reflexivity | reflexivity | exact Hne | reflexivity | exact Hs |].
  destruct (record_rejects_sample_mismatch (H := Sample.external) Sample.world_depth4
              (TextureHandle 2) 2
              (mkDescription (mkSize 1920 1080) (tex_options (Sample.depthOptions 4)))
              eq_refl eq_refl Hne eq_refl Hs) as (msg & w' & Hrun & Hnames & _).
  exists msg, w'. split; [exact Hrun | exact Hnames].
Defined.

(** C3 as the specification states it fails: with a depth texture of 4
    samples and a task of 1 sample, the error that [recordFrameGraph]
    throws names neither count. *)
Lemma sample_mismatch_message_names_no_count :
  depthTexture (w_task Sample.world_depth4) = Some (TextureHandle 2) ∧
  (getTextureHandle (TextureHandle 2) (w_frameGraph Sample.world_depth4)).1 = inr 2 ∧
  2 ≠ backbufferDepthStencilTextureHandle (External := Sample.external) ∧
  (getTextureDescription 2 (w_frameGraph Sample.world_depth4)).1
  = inr (mkDescription (mkSize 1920 1080) (tex_options (Sample.depthOptions 4))) ∧
  samples (w_task Sample.world_depth4) = 1 ∧
  ¬ ∃ msg w',
      recordFrameGraph (H := Sample.external) Sample.world_depth4 = (inl (Error msg), w') ∧
      namesCount msg 4 = true ∧ namesCount msg 1 = true.
Proof.
  split_and!; [reflexivity | reflexivity | vm_compute; discriminate | reflexivity
              | reflexivity |].
  intros (msg & w' & Hrun & H4 & _).
  assert (Hmsg : (recordFrameGraph (H := Sample.external) Sample.world_depth4).1
                 = inl (Error (msg_samples "geom"))) by (vm_compute; reflexivity).
  rewrite Hrun in Hmsg. simpl in Hmsg. injection Hmsg as ->.
  vm_compute in H4. discriminate.
Qed.

(** *** A call of [recordFrameGraph] that returns *)

Section Recorded.
Context `{External}.
Implicit Types (w : World).

Lemma keepsTaskAndPasses_refl w : keepsTaskAndPasses w w.
Proof. by split. Qed.

Lemma keepsTaskAndPasses_trans w1 w2 w3 :
  keepsTaskAndPasses w1 w2 → keepsTaskAndPasses w2 w3 → keepsTaskAndPasses w1 w3.
Proof. intros [? ?] [? ?]. split; congruence. Qed.

Lemma frameGraph_inv {X} (c : M FrameGraph.t X) w (x : X) w' :
  frameGraph c w = (inr x, w') →
  ∃ fg', c (w_frameGraph w) = (inr x, fg') ∧ w' = mkWorld (w_task w) fg' (w_defines w).
Proof.
  unfold frameGraph. destruct (c (w_frameGraph w)) as [res fg'].
  intros [= -> <-]. by exists fg'.
Qed.

Lemma update_pass_keeps pass f w u w' :
  frameGraph (update_pass pass f) w = (inr u, w') → keepsTaskAndPasses w w'.
Proof.
  intros (fg' & Hrun & ->)%frameGraph_inv. unfold update_pass, modify in Hrun.
  injection Hrun as _ <-. split; simpl; [done |]. apply length_alter.
Qed.

Lemma setOutputTexture_keeps pass handle mipLevel output w u w' :
  frameGraph (setOutputTexture pass handle mipLevel output) w = (inr u, w') →
  keepsTaskAndPasses w w'.
Proof.
  intros (fg' & Hrun & ->)%frameGraph_inv. split; simpl; [done |].
  unfold setOutputTexture, bind, update_pass, modify in Hrun. simpl in Hrun.
  destruct (alter _ pass (passes (w_frameGraph w)) !! pass);
    injection Hrun as _ <-; simpl; apply length_alter.
Qed.

Lemma getTextureHandle_inv id w h w' :
  frameGraph (getTextureHandle id) w = (inr h, w') → w' = w.
Proof.
  intros (fg' & Hrun & ->)%frameGraph_inv.
  pose proof (getTextureHandle_state id (w_frameGraph w)) as Hst.
  rewrite Hrun in Hst. simpl in Hst. subst fg'. by destruct w.
Qed.

Lemma getTextureDescription_inv handle w d w' :
  frameGraph (getTextureDescription handle) w = (inr d, w') → w' = w.
Proof.
  intros (fg' & Hrun & ->)%frameGraph_inv.
  pose proof (getTextureDescription_state handle (w_frameGraph w)) as Hst.
  rewrite Hrun in Hst. simpl in Hst. subst fg'. by destruct w.
Qed.

Lemma getObjectList_inv id w l w' :
  frameGraph (getObjectList id) w = (inr l, w') → w' = w.
Proof.
  intros (fg' & Hrun & ->)%frameGraph_inv. unfold getObjectList in Hrun.
  destruct (objectLists (w_frameGraph w) !! id); [|done].
  injection Hrun as _ <-. by destruct w.
Qed.

Lemma _createMultiRenderTargetTexture_inv w h w' :
  _createMultiRenderTargetTexture w = (inr h, w') →
  Forall inCatalogue (textureDescriptions (w_task w)) ∧ keepsTaskAndPasses w w'.
Proof.
  intros Hrun.
  destruct (_createMultiRenderTargetTexture_outcome w)
    as [[Hall (creation & _ & Hok)] | (d & _ & _ & Herr)]; [|congruence].
  rewrite Hok in Hrun. injection Hrun as _ <-. by split.
Qed.

(** The depth is enabled exactly when a depth texture is given. *)
Lemma _checkDepthTextureCompatibility_inv w (depthEnabled : bool) w' :
  _checkDepthTextureCompatibility w = (inr depthEnabled, w') →
  w' = w ∧ depthEnabled = bool_decide (is_Some (depthTexture (w_task w))).
Proof.
  unfold _checkDepthTextureCompatibility. unfold bind at 1. unfold this_.
  destruct (depthTexture (w_task w)) as [depth|] eqn:Hd.
  - intros (h & w1 & ->%getTextureHandle_inv & Hrest)%bind_inv_inr.
    case_bool_decide; [done |].
    apply bind_inv_inr in Hrest as (d & w2 & ->%getTextureDescription_inv & Hrest).
    case_bool_decide; [done |].
    injection Hrest as <- <-. split; [done |].
    by rewrite bool_decide_eq_true_2 by by eexists.
  - intros [= <- <-]. split; [done |].
    rewrite bool_decide_eq_false_2; [done |]. by intros [? ?].
Qed.

Lemma registerLoop_keeps descriptions : ∀ i w res w',
  registerLoop i descriptions w = (res, w') →
  w_task w' = w_task w ∧ w_frameGraph w' = w_frameGraph w.
Proof.
  induction descriptions as [|d ds IH]; intros i w res w'; cbn [registerLoop].
  - by intros [= _ <-].
  - destruct (catalogueEntry d) as [f|]; [|by intros [= _ <-]].
    unfold bind at 1. unfold set_define, modify.
    intros Hrun. apply IH in Hrun. done.
Qed.

(** A texture id resolves in a frame graph. *)
Lemma getTextureHandle_outputs id (fg fg' : FrameGraph.t) h :
  (getTextureHandle id fg).1 = inr h →
  (∀ k, is_Some (outputs fg !! k) → is_Some (outputs fg' !! k)) →
  ∃ h', (getTextureHandle id fg').1 = inr h'.
Proof.
  destruct id as [h0 | task output]; simpl; [by eexists |].
  destruct (outputs fg !! (task, output)) as [h1|] eqn:Hk; [|done].
  intros _ Hmono. destruct (Hmono (task, output)) as [h' ->]; [by rewrite Hk |]. by eexists.
Qed.

Lemma update_pass_run pass f w :
  ∃ w', frameGraph (update_pass pass f) w = (inr tt, w') ∧
        w_task w' = w_task w ∧
        outputs (w_frameGraph w') = outputs (w_frameGraph w).
Proof. eexists. split; [reflexivity | done]. Qed.

Lemma setOutputTexture_run pass handle mipLevel output w :
  ∃ w', frameGraph (setOutputTexture pass handle mipLevel output) w = (inr tt, w') ∧
        w_task w' = w_task w ∧
        ∀ k, is_Some (outputs (w_frameGraph w) !! k) →
             is_Some (outputs (w_frameGraph w') !! k).
Proof.
  eexists. split; [reflexivity |]. split; [done |].
  intros k Hk. simpl.
  destruct (alter _ pass (passes (w_frameGraph w)) !! pass); simpl; [|done].
  rewrite lookup_insert. case_decide; [by eexists | done].
Qed.

Lemma registerLoop_run descriptions : ∀ i w,
  Forall inCatalogue descriptions →
  ∃ w', registerLoop i descriptions w = (inr tt, w').
Proof.
  induction descriptions as [|d ds IH]; intros i w Hall; cbn [registerLoop].
  - by eexists.
  - apply Forall_cons in Hall as [Hd Hds].
    destruct (catalogueEntry_known d Hd) as (f & _ & ->).
    unfold bind at 1. unfold set_define, modify. apply IH, Hds.
Qed.

Lemma _registerForRenderPassId_run renderPassId w :
  Forall inCatalogue (textureDescriptions (w_task w)) →
  ∃ w', _registerForRenderPassId renderPassId w = (inr tt, w') ∧
        w_task w' = w_task w ∧ w_frameGraph w' = w_frameGraph w.
Proof.
  intros Hall. unfold _registerForRenderPassId, bind, this_.
  destruct (registerLoop_run (textureDescriptions (w_task w)) 0 w Hall) as [w' Hreg].
  exists w'. split; [done |]. by apply registerLoop_keeps in Hreg.
Qed.

Lemma _checkDepthTextureCompatibility_run w :
  depthCompatible w →
  _checkDepthTextureCompatibility w
  = (inr (bool_decide (is_Some (depthTexture (w_task w)))), w).
Proof.
  destruct w as [task fg defs]. unfold depthCompatible. simpl.
  unfold _checkDepthTextureCompatibility. unfold bind at 1. unfold this_. simpl.
  destruct (depthTexture task) as [depth|].
  - intros (handle & description & Hh%getTextureHandle_run & Hne
            & Hd%getTextureDescription_run & Hs).
    rewrite (bind_inr _ _ _ _ _ (frameGraph_run _ (mkWorld task fg defs) _ _ Hh)).
    rewrite bool_decide_eq_false_2 by done.
    rewrite (bind_inr _ _ _ _ _ (frameGraph_run _ (mkWorld task fg defs) _ _ Hd)).
    rewrite bool_decide_eq_false_2 by (intros Hn; by apply Hn).
    by rewrite bool_decide_eq_true_2 by by eexists.
  - intros _. rewrite bool_decide_eq_false_2; [done |]. by intros [? ?].
Qed.

Lemma depthCompatible_textures w extra :
  depthCompatible w →
  depthCompatible
    (mkWorld (w_task w)
       (with_textures (w_frameGraph w) (textures (w_frameGraph w) ++ extra)) (w_defines w)).
Proof.
  unfold depthCompatible. simpl. destruct (depthTexture (w_task w)) as [depth|]; [|done].
  intros (handle & description & Hh & Hne & Hd & Hs). exists handle, description.
  split_and!; [by rewrite getTextureHandle_textures | done
              | by apply getTextureDescription_textures | done].
Qed.

(** [recordFrameGraph] returns on every valid configuration: at least one
    plane, all planes in the catalogue, an object list that the frame graph
    knows, and no depth texture or a compatible one. *)
Lemma recordFrameGraph_returns w id objects :
  textureDescriptions (w_task w) ≠ [] →
  Forall inCatalogue (textureDescriptions (w_task w)) →
  objectList (w_task w) = Some id →
  objectLists (w_frameGraph w) !! id = Some objects →
  depthCompatible w →
  ∃ w', recordFrameGraph w = (inr tt, w').
Proof.
  intros Hdescs Hall Hobj Hlist Hdepth.
  unfold recordFrameGraph. unfold bind at 1. unfold this_.
  rewrite (recordFrameGraph_configured w Hdescs) by (by rewrite Hobj).
  destruct (_createMultiRenderTargetTexture_outcome w)
    as [[_ (creation & _ & Hrun)] | (d & Hin & Hnot & _)].
  2: { rewrite Forall_forall in Hall. by destruct (Hnot (Hall d Hin)). }
  rewrite (bind_inr _ _ _ _ _ Hrun). clear Hrun.
  pose proof (depthCompatible_textures w [(name (w_task w), creation)] Hdepth) as Hdepth1.
  set (w1 := mkWorld _ (with_textures _ _) _) in *.
  rewrite (bind_inr _ _ _ _ _ (_checkDepthTextureCompatibility_run w1 Hdepth1)).
  destruct (clearKinds_exist _ Hall) as [kinds Hkinds].
  rewrite (bind_inr _ _ _ _ _ (_buildClearAttachmentsLayout_run w1 kinds Hkinds)).
  set (w2 := mkWorld _ _ _).
  destruct (_registerForRenderPassId_run (rtt_renderPassId (_rtt (w_task w))) w2 Hall)
    as (w3 & Hreg & Ht3 & Hf3).
  rewrite (bind_inr _ _ _ _ _ Hreg). clear Hreg.
  assert (Hdesc : ∃ d, getTextureDescription (Z.of_nat (length (textures (w_frameGraph w))))
                         (w_frameGraph w3) = (inr d, w_frameGraph w3)).
  { rewrite Hf3. simpl. unfold getTextureDescription, array_at. simpl.
    rewrite decide_True by lia. rewrite Nat2Z.id, list_lookup_middle by done.
    by eexists. }
  destruct Hdesc as [d Hdesc].
  rewrite (bind_inr _ _ _ _ _ (frameGraph_run _ w3 _ _ Hdesc)).
  unfold bind at 1. unfold set_this, modify. rewrite Hobj.
  assert (Hol : getObjectList id (w_frameGraph w3) = (inr objects, w_frameGraph w3)).
  { unfold getObjectList. rewrite Hf3. simpl. by rewrite Hlist. }
  rewrite (bind_inr _ _ _ _ _ (frameGraph_run _ (mkWorld _ _ _) _ _ Hol)).
  unfold bind at 1. simpl.
  assert (Hmono : ∀ k, is_Some (outputs (w_frameGraph w) !! k) →
                       is_Some (outputs (w_frameGraph w3) !! k)) by (by rewrite Hf3).
  clear Hdesc Hol.
  match goal with
  | |- ∃ w', bind _ _ ?ws = _ =>
      assert (Hs : ∀ k, is_Some (outputs (w_frameGraph w) !! k) →
                        is_Some (outputs (w_frameGraph ws) !! k)) by exact Hmono;
      generalize dependent ws
  end.
  intros ws Hs. unfold setRenderTarget.
  match goal with
  | |- ∃ w', bind (frameGraph (update_pass ?p ?f)) _ ?wc = _ =>
      destruct (update_pass_run p f wc) as (wn & Hop & _ & Ho)
  end.
  rewrite (bind_inr _ _ _ _ _ Hop). clear Hop. rewrite <- Ho in Hs. clear Ho ws.
  do 10 (match goal with
         | |- ∃ w', bind (frameGraph (setOutputTexture ?p ?h ?m ?n)) _ ?wc = _ =>
             destruct (setOutputTexture_run p h m n wc) as (wn' & Hop & _ & Ho)
         end;
         rewrite (bind_inr _ _ _ _ _ Hop); clear Hop;
         assert (Hs' : ∀ k, is_Some (outputs (w_frameGraph w) !! k) →
                            is_Some (outputs (w_frameGraph wn') !! k)) by (intros k Hk; auto);
         clear Hs Ho wn; rename Hs' into Hs; rename wn' into wn).
  unfold depthCompatible in Hdepth.
  destruct (depthTexture (w_task w)) as [depth|].
  - destruct Hdepth as (handle & _ & Hh & _).
    destruct (getTextureHandle_outputs depth _ (w_frameGraph wn) handle Hh Hs) as [h' Hh'].
    apply getTextureHandle_run in Hh'.
    unfold bind at 1.
    rewrite (bind_inr _ _ _ _ _ (frameGraph_run _ wn _ _ Hh')).
    by eexists.
  - by eexists.
Qed.

Lemma recordFrameGraph_inv w w' :
  recordFrameGraph w = (inr tt, w') →
  ∃ kinds objects p sz,
    Forall2 (λ d k, clearKindOf d = Some k) (textureDescriptions (w_task w)) kinds ∧
    w_task w' =
      with_rtt
        (with_layouts (w_task w)
           (map (λ kind, (kind, buildTextureLayout (layoutOf kinds kind))) (firstSeen kinds))
           (buildTextureLayout (replicate (length (textureDescriptions (w_task w))) true)))
        (mkRtt (rtt_name (_rtt (w_task w))) sz (rtt_renderList (_rtt (w_task w)))
           (rtt_particleSystemList (_rtt (w_task w))) (rtt_renderPassId (_rtt (w_task w)))) ∧
    recordedPass w w' = Some p ∧
    pass_executeFunc p
    = Some (mkExecuteClosure objects (bool_decide (is_Some (depthTexture (w_task w))))).
Proof.
  unfold recordFrameGraph. unfold bind at 1. unfold this_.
  destruct (_ || _); [done |]. intros Hrun.
  apply bind_inv_inr in Hrun as (h & w1 & Hc & Hrun).
  apply _createMultiRenderTargetTexture_inv in Hc as [Hall [Ht1 Hp1]].
  apply bind_inv_inr in Hrun as (dE & w1' & Hc & Hrun).
  apply _checkDepthTextureCompatibility_inv in Hc as [-> ->].
  destruct (clearKinds_exist _ Hall) as [kinds Hkinds].
  apply bind_inv_inr in Hrun as (u2 & w2 & Hbuild & Hrun).
  rewrite (_buildClearAttachmentsLayout_run w1 kinds) in Hbuild by (by rewrite Ht1).
  injection Hbuild as _ <-.
  apply bind_inv_inr in Hrun as (u3 & w3 & [Ht3 Hf3]%registerLoop_keeps & Hrun).
  apply bind_inv_inr in Hrun as (d & w4 & ->%getTextureDescription_inv & Hrun).
  apply bind_inv_inr in Hrun as (u5 & w5 & Hset & Hrun).
  injection Hset as _ <-.
  apply bind_inv_inr in Hrun as (objects & w6 & Hobj & Hrun).
  simpl in Ht3, Hf3, Hobj.
  assert (w6 = mkWorld
            (with_rtt (w_task w3)
               (mkRtt (rtt_name (_rtt (w_task w3))) (desc_size d)
                  (rtt_renderList (_rtt (w_task w3)))
                  (rtt_particleSystemList (_rtt (w_task w3)))
                  (rtt_renderPassId (_rtt (w_task w3)))))
            (w_frameGraph w3) (w_defines w3)) as ->.
  { destruct (objectList (w_task w)); [|done]. by apply getObjectList_inv in Hobj. }
  clear Hobj.
  apply bind_inv_inr in Hrun as (pass & w7 & Hadd & Hrun).
  apply frameGraph_inv in Hadd as (fg7 & Hadd & ->). simpl in Hadd.
  unfold addRenderPass in Hadd. injection Hadd as <- <-.
  set (w7 := mkWorld _ (with_passes _ _) _) in Hrun.
  assert (Hlt : (length (passes (w_frameGraph w)) < length (passes (w_frameGraph w7)))%nat).
  { simpl. rewrite length_app, Hf3. simpl. lia. }
  assert (Hidx : length (passes (w_frameGraph w3)) = length (passes (w_frameGraph w)))
    by congruence.
  rewrite Hidx in Hrun.
  assert (Htask7 : w_task w7 =
      with_rtt
        (with_layouts (w_task w)
           (map (λ kind, (kind, buildTextureLayout (layoutOf kinds kind))) (firstSeen kinds))
           (buildTextureLayout (replicate (length (textureDescriptions (w_task w))) true)))
        (mkRtt (rtt_name (_rtt (w_task w))) (desc_size d) (rtt_renderList (_rtt (w_task w)))
           (rtt_particleSystemList (_rtt (w_task w))) (rtt_renderPassId (_rtt (w_task w))))).
  { simpl. rewrite Ht3, Ht1. done. }
  clearbody w7.
  apply bind_inv_inr in Hrun as (? & wn & Hkeep%update_pass_keeps & Hrun).
  do 10 (apply bind_inv_inr in Hrun as (? & wc & Hk%setOutputTexture_keeps & Hrun);
         pose proof (keepsTaskAndPasses_trans _ _ _ Hkeep Hk) as Hkeep';
         clear Hkeep Hk wn; rename Hkeep' into Hkeep; rename wc into wn).
  apply bind_inv_inr in Hrun as (? & wc & Hk & Hrun).
  assert (Hkeep' : keepsTaskAndPasses w7 wc).
  { apply (keepsTaskAndPasses_trans _ _ _ Hkeep).
    destruct (depthTexture (w_task w)).
    - apply bind_inv_inr in Hk as (h' & wx & ->%getTextureHandle_inv & Hk).
      by apply update_pass_keeps in Hk.
    - injection Hk as _ <-. apply keepsTaskAndPasses_refl. }
  clear Hkeep Hk wn. destruct Hkeep' as [Htask Hlen].
  apply frameGraph_inv in Hrun as (fg' & Hrun & ->).
  unfold setExecuteFunc, update_pass, modify in Hrun. injection Hrun as <-.
  assert (Hsome : is_Some (passes (w_frameGraph wc) !! length (passes (w_frameGraph w)))).
  { apply lookup_lt_is_Some_2. lia. }
  destruct Hsome as [p Hp].
  eexists kinds, objects, _, (desc_size d). split_and!.
  - done.
  - simpl. by rewrite Htask.
  - unfold recordedPass. simpl. rewrite list_lookup_alter_eq, Hp. reflexivity.
  - simpl. by rewrite Ht1.
Qed.

Lemma clearColors_lookup kind : clearColors !! clearTypeIndex kind = Some (clearColorOf kind).
Proof. by destruct kind. Qed.

(** The calls of one run of the closure, from the task as it is then. *)
Lemma callsOf_executeFunc closure (ew : ExecWorld) :
  callsOf closure ew =
  SetDepthStates (depthTest (ex_task ew) && cl_depthEnabled closure)
                 (depthWrite (ex_task ew) && cl_depthEnabled closure)
  :: map (λ kv, ClearColorAttachments (clearColors !! clearTypeIndex kv.1) kv.2)
         (_clearAttachmentsLayout (ex_task ew))
  ++ [BindAttachments (_allAttachmentsLayout (ex_task ew));
      Render (meshes (ex_objectLists ew (cl_objectList closure)))
             (particleSystems (ex_objectLists ew (cl_objectList closure)))].
Proof.
  unfold callsOf, executeFunc. cbn [ex_calls]. rewrite drop_app_length.
  destruct ew as [[] ? ? ?]. reflexivity.
Qed.

(** C9. The closure of a recorded pass issues one [clearColorAttachments]
    call for each distinct clear kind present among the N planes, with the
    clear color of that kind and the layout of that kind, then a single
    [bindAttachments] call with all N attachments, and then renders. The
    clear kind of a plane is that of the catalogue entry of the plane's
    type. The closure reads the layouts of the task when it runs: this
    holds of every run on a task that holds the layouts of this
    recording. *)
Theorem execute_clears_once_per_kind w w' :
  recordFrameGraph w = (inr tt, w') →
  ∃ p closure kinds,
    recordedPass w w' = Some p ∧
    pass_executeFunc p = Some closure ∧
    Forall2 planeKind (textureDescriptions (w_task w)) kinds ∧
    NoDup (firstSeen kinds) ∧
    (∀ kind, kind ∈ firstSeen kinds ↔ kind ∈ kinds) ∧
    ∀ ew : ExecWorld,
      _clearAttachmentsLayout (ex_task ew) = _clearAttachmentsLayout (w_task w') →
      _allAttachmentsLayout (ex_task ew) = _allAttachmentsLayout (w_task w') →
      callsOf closure ew =
      [SetDepthStates (depthTest (ex_task ew) && cl_depthEnabled closure)
                      (depthWrite (ex_task ew) && cl_depthEnabled closure)]
      ++ map (λ kind, ClearColorAttachments (Some (clearColorOf kind))
                        (buildTextureLayout (layoutOf kinds kind)))
             (firstSeen kinds)
      ++ [BindAttachments
            (buildTextureLayout (replicate (length (textureDescriptions (w_task w))) true));
          Render (meshes (ex_objectLists ew (cl_objectList closure)))
                 (particleSystems (ex_objectLists ew (cl_objectList closure)))].
Proof.
  intros (kinds & objects & p & sz & Hkinds & Htask & Hp & Hclosure)%recordFrameGraph_inv.
  exists p, (mkExecuteClosure objects (bool_decide (is_Some (depthTexture (w_task w))))), kinds.
  split_and!; [done | done | by apply planeKinds | apply NoDup_firstSeen
              | apply elem_of_firstSeen |].
  intros ew Hclear Hall.
  rewrite callsOf_executeFunc, Hclear, Hall, Htask. cbn.
  do 2 f_equal. rewrite map_map. apply map_ext. intros kind. cbn.
  by rewrite clearColors_lookup.
Qed.

(** C10. The closure of a recorded pass first sets the depth states, and
    does so once: to false and false when the task had no depth texture at
    record time, whatever its flags are, and to the task's [depthTest] and
    [depthWrite] when it had one. *)
Theorem depth_states_follow_depth_texture w w' :
  recordFrameGraph w = (inr tt, w') →
  ∃ p closure,
    recordedPass w w' = Some p ∧
    pass_executeFunc p = Some closure ∧
    ∀ ew : ExecWorld, ∃ rest,
      Forall (λ call, isSetDepthStates call = false) rest ∧
      callsOf closure ew =
      match depthTexture (w_task w) with
      | None => SetDepthStates false false
      | Some _ => SetDepthStates (depthTest (ex_task ew)) (depthWrite (ex_task ew))
      end :: rest.
Proof.
  intros (kinds & objects & p & sz & Hkinds & Htask & Hp & Hclosure)%recordFrameGraph_inv.
  exists p, (mkExecuteClosure objects (bool_decide (is_Some (depthTexture (w_task w))))).
  split_and!; [done | done |].
  intros ew. rewrite callsOf_executeFunc.
  exists (map (λ kv, ClearColorAttachments (clearColors !! clearTypeIndex kv.1) kv.2)
            (_clearAttachmentsLayout (ex_task ew))
          ++ [BindAttachments (_allAttachmentsLayout (ex_task ew));
              Render (meshes (ex_objectLists ew objects))
                     (particleSystems (ex_objectLists ew objects))]).
  split.
  - apply Forall_app. split; [|by repeat constructor].
    apply Forall_forall. intros call Hcall%list_elem_of_In.
    apply in_map_iff in Hcall as (kv & <- & _). reflexivity.
  - cbn [cl_depthEnabled]. destruct (depthTexture (w_task w)) as [depth|].
    + rewrite bool_decide_eq_true_2 by (by eexists). by rewrite !andb_true_r.
    + rewrite bool_decide_eq_false_2 by (by intros [? ?]). by rewrite !andb_false_r.
Qed.
End Recorded.

Lemma execute_clears_once_per_kind_witness :
  recordFrameGraph (H := Sample.external) Sample.world_depth1
  = (inr tt, Sample.recorded_depth1) ∧
  Forall2 (planeKind (H := Sample.external)) Sample.planes
    [ClearZeros; ClearMaxViewZ; ClearZeros; ClearOnes] ∧
  ∃ p closure,
    recordedPass Sample.world_depth1 Sample.recorded_depth1 = Some p ∧
    pass_executeFunc p = Some closure ∧
    ∀ renderId calls,
      callsOf closure
        (mkExecWorld (w_task Sample.recorded_depth1) Sample.objects renderId calls) =
      [SetDepthStates true true;
       ClearColorAttachments (Some (mkColor4 0 0 0 0)) [36064; 0; 36066; 0];
       ClearColorAttachments
         (Some (mkColor4 100000000 100000000 100000000 100000000)) [0; 36065; 0; 0];
       ClearColorAttachments (Some (mkColor4 1 1 1 1)) [0; 0; 0; 36067];
       BindAttachments [36064; 36065; 36066; 36067];
       Render [11; 12] [21]].
Proof.
  assert (Hrun : recordFrameGraph (H := Sample.external) Sample.world_depth1
                 = (inr tt, Sample.recorded_depth1)) by (vm_compute; reflexivity).
  assert (Hsample : Forall2 (planeKind (H := Sample.external)) Sample.planes
                      [ClearZeros; ClearMaxViewZ; ClearZeros; ClearOnes]).
  { apply (planeKinds (H := Sample.external)). repeat constructor. }
  split; [exact Hrun |]. split; [exact Hsample |].
  destruct (execute_clears_once_per_kind (H := Sample.external) _ _ Hrun)
    as (p & closure & kinds & Hp & Hc & Hk & _ & _ & Hcalls).
  assert (kinds = [ClearZeros; ClearMaxViewZ; ClearZeros; ClearOnes]) as ->.
  { exact (planeKinds_unique (H := Sample.external) Sample.planes _ _ Hk Hsample). }
  assert (Hpass : (recordedPass Sample.world_depth1 Sample.recorded_depth1
                     ≫= pass_executeFunc)
                  = Some (mkExecuteClosure 30 true)) by (vm_compute; reflexivity).
  rewrite Hp in Hpass. cbn in Hpass. rewrite Hc in Hpass. injection Hpass as ->.
  exists p, (mkExecuteClosure 30 true). split_and!; [exact Hp | exact Hc |].
  intros renderId calls.
  refine (eq_trans
            (Hcalls (mkExecWorld (w_task Sample.recorded_depth1) Sample.objects renderId calls)
               eq_refl eq_refl) _).
  vm_compute. reflexivity.
Defined.

Lemma depth_states_follow_depth_texture_witness :
  recordFrameGraph (H := Sample.external) Sample.world_no_depth
  = (inr tt, Sample.recorded_no_depth) ∧
  ∃ p closure,
    recordedPass Sample.world_no_depth Sample.recorded_no_depth = Some p ∧
    pass_executeFunc p = Some closure ∧
    ∀ ew : ExecWorld, ∃ rest,
      Forall (λ call, isSetDepthStates call = false) rest ∧
      callsOf closure ew = SetDepthStates false false :: rest.
Proof.
  assert (Hrun : recordFrameGraph (H := Sample.external) Sample.world_no_depth
                 = (inr tt, Sample.recorded_no_depth)) by (vm_compute; reflexivity).
  split; [exact Hrun |].
  destruct (depth_states_follow_depth_texture (H := Sample.external) _ _ Hrun)
    as (p & closure & Hp & Hc & Hcalls).
  exists p, closure. split_and!; [exact Hp | exact Hc | exact Hcalls].
Defined.

End GeometryRendererTaskFacts.

(** ** The teleport receiver *)

Module TeleportOutFacts.
Import TeleportOut.

Section Heap.
Implicit Types (h : Heap) (this : loc).

Lemma read_out_run h this blk :
  teleportOuts h !! this = Some blk → read_out this h = (inr blk, h).
Proof. intros Hl. unfold read_out. by rewrite Hl. Qed.

Lemma read_in_run h e entry :
  teleportIns h !! e = Some entry → read_in e h = (inr entry, h).
Proof. intros Hl. unfold read_in. by rewrite Hl. Qed.

Lemma update_out_run h this blk f :
  teleportOuts h !! this = Some blk →
  update_out this f h = (inr tt, with_outs h (alter f this (teleportOuts h))).
Proof. intros Hl. unfold update_out. by rewrite (bind_inr _ _ _ _ _ (read_out_run _ _ _ Hl)). Qed.

Lemma update_in_run h e entry f :
  teleportIns h !! e = Some entry →
  update_in e f h = (inr tt, with_ins h (alter f e (teleportIns h))).
Proof. intros Hl. unfold update_in. by rewrite (bind_inr _ _ _ _ _ (read_in_run _ _ _ Hl)). Qed.

Lemma attachToEndpoint_run h e entry endpoint blk :
  teleportIns h !! e = Some entry →
  teleportOuts h !! endpoint = Some blk →
  attachToEndpoint e endpoint h
  = (inr tt,
     mkHeap
       (alter (λ e, mkIn (in_uniqueId e) (in_name e) (_endpoints e ++ [endpoint])) e
          (teleportIns h))
       (alter (set_entryPoint (Some e)) endpoint (teleportOuts h))
       (nextUniqueId h) (calls h ++ [AttachToEndpoint e endpoint])).
Proof.
  intros He Hb. unfold attachToEndpoint.
  unfold bind at 1. unfold log, modify.
  erewrite bind_inr; [|by eapply update_in_run].
  erewrite update_out_run; [reflexivity | exact Hb].
Qed.

(** A new block gets an address that no block has. *)
Lemma new_block_fresh h :
  teleportOuts h !! fresh (dom (teleportOuts h) ∪ dom (teleportIns h)) = None ∧
  teleportIns h !! fresh (dom (teleportOuts h) ∪ dom (teleportIns h)) = None.
Proof.
  pose proof (is_fresh (dom (teleportOuts h) ∪ dom (teleportIns h))) as Hf.
  rewrite not_elem_of_union, !not_elem_of_dom in Hf. exact Hf.
Qed.
End Heap.

Section Receiver.
Context `{Base}.
Implicit Types (h : Heap) (this : loc).

Lemma entryPoint_run h this blk :
  teleportOuts h !! this = Some blk → entryPoint this h = (inr (_entryPoint blk), h).
Proof.
  intros Hl. unfold entryPoint. by rewrite (bind_inr _ _ _ _ _ (read_out_run _ _ _ Hl)).
Qed.

(** C6. A receiver whose entry point is null builds without throwing and
    without any effect: [_customBuildStep] and [_buildBlock], alone and one
    after the other, return and leave the heap as they found it, whatever
    the build of an entry point would do; so the block's output has the
    value it had, none if it had none. With an entry point attached,
    [_customBuildStep] is the build of that entry point. *)
Theorem unpaired_receiver_builds_nothing h this blk :
  teleportOuts h !! this = Some blk →
  (_entryPoint blk = None →
     _customBuildStep this h = (inr tt, h) ∧
     _buildBlock this h = (inr tt, h) ∧
     (_customBuildStep this >> _buildBlock this) h = (inr tt, h) ∧
     (let! _ := _customBuildStep this in let! _ := _buildBlock this in output this) h
     = (inr (_outputs blk !! 0%nat), h)) ∧
  (∀ e, _entryPoint blk = Some e → _customBuildStep this h = entryPoint_build e h).
Proof.
  intros Hl. split.
  - intros Hnull.
    assert (Hcustom : _customBuildStep this h = (inr tt, h)).
    { unfold _customBuildStep.
      rewrite (bind_inr _ _ _ _ _ (entryPoint_run _ _ _ Hl)). by rewrite Hnull. }
    split_and!; [done | done | by rewrite (bind_inr _ _ _ _ _ Hcustom) |].
    rewrite (bind_inr _ _ _ _ _ Hcustom). unfold _buildBlock, bind at 1, ret.
    unfold output. by rewrite (bind_inr _ _ _ _ _ (read_out_run _ _ _ Hl)).
  - intros e He. unfold _customBuildStep.
    rewrite (bind_inr _ _ _ _ _ (entryPoint_run _ _ _ Hl)). by rewrite He.
Qed.

Lemma entryPoint_uniqueId_run h this blk :
  teleportOuts h !! this = Some blk →
  match _entryPoint blk with
  | Some e => ∃ entry, teleportIns h !! e = Some entry ∧
                       entryPoint_uniqueId this h = (inr (JsNumber (in_uniqueId entry)), h)
  | None => entryPoint_uniqueId this h = (inr (JsString ""), h)
  end ∨
  (∃ e, _entryPoint blk = Some e ∧ teleportIns h !! e = None).
Proof.
  intros Hl. unfold entryPoint_uniqueId.
  rewrite (bind_inr _ _ _ _ _ (entryPoint_run _ _ _ Hl)).
  destruct (_entryPoint blk) as [e|]; [|by left].
  destruct (teleportIns h !! e) as [entry|] eqn:He.
  - left. exists entry. split; [done |]. by rewrite (bind_inr _ _ _ _ _ (read_in_run _ _ _ He)).
  - right. by exists e.
Qed.

(** What [serialize] adds to the object of the base class. *)
Lemma serialize_run h this blk e entry :
  teleportOuts h !! this = Some blk → _entryPoint blk = Some e →
  teleportIns h !! e = Some entry →
  serialize this h
  = (inr (<["entryPoint" := JsNumber (in_uniqueId entry)]> (super_serialize blk)), h).
Proof.
  intros Hl He Hentry. unfold serialize.
  rewrite (bind_inr _ _ _ _ _ (read_out_run _ _ _ Hl)).
  destruct (entryPoint_uniqueId_run h this blk Hl) as [Hrun | (e' & He' & Hnone)].
  - rewrite He in Hrun. destruct Hrun as (entry' & Hentry' & Hrun).
    assert (entry' = entry) as -> by congruence.
    by rewrite (bind_inr _ _ _ _ _ Hrun).
  - congruence.
Qed.

Lemma serialize_unpaired h this blk :
  teleportOuts h !! this = Some blk → _entryPoint blk = None →
  serialize this h = (inr (<["entryPoint" := JsString ""]> (super_serialize blk)), h).
Proof.
  intros Hl He. unfold serialize.
  rewrite (bind_inr _ _ _ _ _ (read_out_run _ _ _ Hl)).
  destruct (entryPoint_uniqueId_run h this blk Hl) as [Hrun | (e' & He' & Hnone)].
  - rewrite He in Hrun. by rewrite (bind_inr _ _ _ _ _ Hrun).
  - congruence.
Qed.

(** [_deserialize] sets [_tempEntryPointUniqueId] to the [entryPoint]
    property of the object and leaves the rest of the block to the base
    class. *)
Lemma _deserialize_run h target blk (obj : gmap string JsValue) :
  teleportOuts h !! target = Some blk →
  _deserialize target obj h
  = (inr tt,
     with_outs h
       (<[target := set_tempEntryPointUniqueId (default JsUndefined (obj !! "entryPoint"))
                      (super_deserialize obj blk)]> (teleportOuts h))).
Proof.
  intros Hl. unfold _deserialize.
  rewrite (bind_inr _ _ _ _ _ (update_out_run _ _ _ _ Hl)).
  assert (Hl' : teleportOuts (with_outs h (alter (super_deserialize obj) target (teleportOuts h)))
                !! target = Some (super_deserialize obj blk)).
  { simpl. by rewrite lookup_alter_eq, Hl. }
  rewrite (update_out_run _ _ _ _ Hl'). simpl. do 2 f_equal.
  apply map_eq. intros l. destruct (decide (l = target)) as [->|Hne].
  - rewrite lookup_insert_eq, lookup_alter_eq.
    exact (f_equal (fmap (M := option) _) Hl').
  - by rewrite !lookup_alter_ne, lookup_insert_ne.
Qed.

(** C7. [serialize] adds to the object of the base class the property
    [entryPoint] and nothing else; for a receiver paired with an entry
    point it holds the entry point's [uniqueId] as a number (and the empty
    string for a receiver that has none). [_deserialize] of that object
    sets [_tempEntryPointUniqueId] to exactly the stored value and does not
    itself set [_entryPoint]. So after [_deserialize(serialize())] the
    block's [_tempEntryPointUniqueId] is the [uniqueId] of the original
    entry point. *)
Theorem serialize_deserialize_entry_point h this blk target tblk :
  teleportOuts h !! this = Some blk →
  (∀ e, _entryPoint blk = Some e → is_Some (teleportIns h !! e)) →
  teleportOuts h !! target = Some tblk →
  ∃ (obj : gmap string JsValue) stored h' blk',
    serialize this h = (inr obj, h) ∧
    obj = <["entryPoint" := stored]> (super_serialize blk) ∧
    _deserialize target obj h = (inr tt, h') ∧
    teleportOuts h' !! target = Some blk' ∧
    _tempEntryPointUniqueId blk' = stored ∧
    _entryPoint blk' = _entryPoint (super_deserialize obj tblk) ∧
    (∀ e entry, _entryPoint blk = Some e → teleportIns h !! e = Some entry →
                stored = JsNumber (in_uniqueId entry)) ∧
    (_entryPoint blk = None → stored = JsString "").
Proof.
  intros Hl Hwf Ht.
  assert (Hser : ∃ stored,
    serialize this h = (inr (<["entryPoint" := stored]> (super_serialize blk)), h) ∧
    (∀ e entry, _entryPoint blk = Some e → teleportIns h !! e = Some entry →
                stored = JsNumber (in_uniqueId entry)) ∧
    (_entryPoint blk = None → stored = JsString "")).
  { destruct (_entryPoint blk) as [e|] eqn:He.
    - destruct (Hwf e eq_refl) as [entry Hentry].
      exists (JsNumber (in_uniqueId entry)). split_and!.
      + by apply (serialize_run h this blk e entry).
      + intros e' entry' [= <-] Hentry'. congruence.
      + done.
    - exists (JsString ""). split_and!; [by apply serialize_unpaired | done | done]. }
  destruct Hser as (stored & Hser & Hpaired & Hnone).
  eexists _, stored, _, _. split_and!.
  - exact Hser.
  - reflexivity.
  - by apply (_deserialize_run h target tblk).
  - simpl. apply lookup_insert_eq.
  - simpl. by rewrite lookup_insert_eq.
  - reflexivity.
  - exact Hpaired.
  - exact Hnone.
Qed.

Lemma new_block_run h blockName :
  new_block blockName h
  = (inr (fresh (dom (teleportOuts h) ∪ dom (teleportIns h))),
     mkHeap (teleportIns h)
       (<[fresh (dom (teleportOuts h) ∪ dom (teleportIns h))
          := constructor blockName (nextUniqueId h)]> (teleportOuts h))
       (nextUniqueId h + 1) (calls h)).
Proof. reflexivity. Qed.

(** C8. [clone] of a receiver attached to the entry point E returns a new
    block on which E's [attachToEndpoint] was called, and which is
    thereby attached to E; [clone] of a receiver without entry point
    returns a new block that is attached to none, and calls nothing. *)
Theorem clone_reattaches h this blk :
  teleportOuts h !! this = Some blk →
  (∀ e entry,
     _entryPoint blk = Some e → teleportIns h !! e = Some entry →
     ∃ c h' cblk,
       clone this h = (inr c, h') ∧
       teleportOuts h !! c = None ∧
       calls h' = calls h ++ [AttachToEndpoint e c] ∧
       teleportOuts h' !! c = Some cblk ∧
       _entryPoint cblk = Some e ∧
       teleportIns h' !! e = Some (mkIn (in_uniqueId entry) (in_name entry)
                                     (_endpoints entry ++ [c])) ∧
       teleportOuts h' !! this = Some blk) ∧
  (_entryPoint blk = None →
     ∃ c h' cblk,
       clone this h = (inr c, h') ∧
       teleportOuts h !! c = None ∧
       calls h' = calls h ∧
       teleportOuts h' !! c = Some cblk ∧
       _entryPoint cblk = None ∧
       teleportIns h' = teleportIns h ∧
       teleportOuts h' !! this = Some blk).
Proof.
  intros Hl.
  destruct (new_block_fresh h) as [Hfo Hfi].
  set (c := fresh (dom (teleportOuts h) ∪ dom (teleportIns h))) in *.
  assert (Hne : c ≠ this) by (intros Heq; rewrite Heq in Hfo; congruence).
  set (h1 := mkHeap (teleportIns h)
               (<[c := constructor (name blk) (nextUniqueId h)]> (teleportOuts h))
               (nextUniqueId h + 1) (calls h)).
  assert (Hsuper : super_clone this h = (inr c, h1)).
  { unfold super_clone. rewrite (bind_inr _ _ _ _ _ (read_out_run _ _ _ Hl)).
    apply new_block_run. }
  assert (Hthis1 : teleportOuts h1 !! this = Some blk).
  { simpl. by rewrite lookup_insert_ne. }
  assert (Hc1 : teleportOuts h1 !! c = Some (constructor (name blk) (nextUniqueId h))).
  { simpl. by rewrite lookup_insert_eq. }
  split.
  - intros e entry He Hentry.
    assert (Hec : e ≠ c) by (intros Heq; rewrite Heq in Hentry; congruence).
    eexists c, _, _. split_and!.
    + unfold clone. rewrite (bind_inr _ _ _ _ _ Hsuper).
      rewrite (bind_inr _ _ _ _ _ (entryPoint_run _ _ _ Hthis1)). rewrite He.
      rewrite (bind_inr _ _ _ _ _ (attachToEndpoint_run h1 e entry c _ Hentry Hc1)).
      reflexivity.
    + exact Hfo.
    + reflexivity.
    + simpl. rewrite lookup_alter_eq, lookup_insert_eq. reflexivity.
    + reflexivity.
    + simpl. by rewrite lookup_alter_eq, Hentry.
    + simpl. by rewrite lookup_alter_ne, lookup_insert_ne.
  - intros Hnull. exists c, h1, (constructor (name blk) (nextUniqueId h)). split_and!.
    + unfold clone. rewrite (bind_inr _ _ _ _ _ Hsuper).
      rewrite (bind_inr _ _ _ _ _ (entryPoint_run _ _ _ Hthis1)). by rewrite Hnull.
    + exact Hfo.
    + reflexivity.
    + exact Hc1.
    + reflexivity.
    + reflexivity.
    + exact Hthis1.
Qed.
End Receiver.

Lemma unpaired_receiver_builds_nothing_witness :
  teleportOuts TeleportSample.heap !! 21%nat = Some TeleportSample.unpaired ∧
  _entryPoint TeleportSample.unpaired = None ∧
  _customBuildStep (H := TeleportSample.base) 21%nat TeleportSample.heap
  = (inr tt, TeleportSample.heap) ∧
  (_customBuildStep (H := TeleportSample.base) 21%nat >> _buildBlock 21%nat)
    TeleportSample.heap
  = (inr tt, TeleportSample.heap).
Proof.
  assert (Hl : teleportOuts TeleportSample.heap !! 21%nat = Some TeleportSample.unpaired)
    by (vm_compute; reflexivity).
  split; [exact Hl |]. split; [reflexivity |].
  destruct (unpaired_receiver_builds_nothing (H := TeleportSample.base) _ _ _ Hl)
    as [Hnull _].
  destruct (Hnull eq_refl) as (Hcustom & _ & Hhooks & _).
  split; [exact Hcustom | exact Hhooks].
Defined.

Lemma serialize_deserialize_entry_point_witness :
  teleportOuts TeleportSample.heap !! 20%nat = Some TeleportSample.paired ∧
  (∀ e, _entryPoint TeleportSample.paired = Some e →
        is_Some (teleportIns TeleportSample.heap !! e)) ∧
  teleportOuts TeleportSample.heap !! 21%nat = Some TeleportSample.unpaired ∧
  ∃ (obj : gmap string JsValue) h' blk',
    serialize (H := TeleportSample.base) 20%nat TeleportSample.heap
    = (inr obj, TeleportSample.heap) ∧
    obj = <["entryPoint" := JsNumber 42]>
            (super_serialize (Base := TeleportSample.base) TeleportSample.paired) ∧
    _deserialize (H := TeleportSample.base) 21%nat obj TeleportSample.heap = (inr tt, h') ∧
    teleportOuts h' !! 21%nat = Some blk' ∧
    _tempEntryPointUniqueId blk' = JsNumber 42.
Proof.
  assert (H20 : teleportOuts TeleportSample.heap !! 20%nat = Some TeleportSample.paired)
    by (vm_compute; reflexivity).
  assert (H10 : teleportIns TeleportSample.heap !! 10%nat = Some TeleportSample.source)
    by (vm_compute; reflexivity).
  assert (Hwf : ∀ e, _entryPoint TeleportSample.paired = Some e →
                     is_Some (teleportIns TeleportSample.heap !! e)).
  { intros e [= <-]. rewrite H10. by eexists. }
  assert (H21 : teleportOuts TeleportSample.heap !! 21%nat = Some TeleportSample.unpaired)
    by (vm_compute; reflexivity).
  split_and!; [exact H20 | exact Hwf | exact H21 |].
  destruct (serialize_deserialize_entry_point (H := TeleportSample.base)
              _ _ _ _ _ H20 Hwf H21)
    as (obj & stored & h' & blk' & Hser & Hobj & Hdes & Hl & Htemp & _ & Hpaired & _).
  pose proof (Hpaired 10%nat TeleportSample.source eq_refl H10) as Hstored.
  simpl in Hstored. rewrite Hstored in Hobj, Htemp.
  exists obj, h', blk'.
  split_and!; [exact Hser | exact Hobj | exact Hdes | exact Hl | exact Htemp].
Defined.

Lemma clone_reattaches_witness :
  teleportOuts TeleportSample.heap !! 20%nat = Some TeleportSample.paired ∧
  ∃ c h' cblk,
    clone 20%nat TeleportSample.heap = (inr c, h') ∧
    calls h' = [AttachToEndpoint 10%nat c] ∧
    teleportOuts h' !! c = Some cblk ∧
    _entryPoint cblk = Some 10%nat.
Proof.
  assert (H20 : teleportOuts TeleportSample.heap !! 20%nat = Some TeleportSample.paired)
    by (vm_compute; reflexivity).
  assert (H10 : teleportIns TeleportSample.heap !! 10%nat = Some TeleportSample.source)
    by (vm_compute; reflexivity).
  split; [exact H20 |].
  destruct (clone_reattaches _ _ _ H20) as [Hpaired _].
  destruct (Hpaired 10%nat TeleportSample.source eq_refl H10)
    as (c & h' & cblk & Hclone & _ & Hcalls & Hl & He & _).
  exists c, h', cblk. split_and!; [exact Hclone | exact Hcalls | exact Hl | exact He].
Defined.

End TeleportOutFacts.

(** ** The bloom block *)

Module BloomBlockFacts.
Import BloomBlock.

(** The constructor leaves a block with the two inputs, the output declared
    BasedOnInput, and the resolver of lines 52-54. *)
Lemma constructor_shape :
  _typeConnectionSource constructor = Some typeResolver ∧
  (cp_name <$> source (_inputs constructor)) = Some "source" ∧
  (cp_name <$> destination (_inputs constructor)) = Some "destination" ∧
  (cp_kind <$> output constructor) = Some BasedOnInput ∧
  (isConnected <$> source (_inputs constructor)) = Some false ∧
  (isConnected <$> destination (_inputs constructor)) = Some false.
Proof. by repeat split. Qed.

Lemma connectInput_resolver input remote this :
  _typeConnectionSource (connectInput input remote this) = _typeConnectionSource this ∧
  output (connectInput input remote this) = output this.
Proof. done. Qed.



(** With only the source connected, the block as constructed has the
    source's kind on its output. *)
Example source_only_kind :
  ∃ s, source (_inputs BloomSample.source_only) = Some s ∧
       outputKind BloomSample.source_only = Some (cp_kind s).
Proof. eexists. split; reflexivity. Qed.

End BloomBlockFacts.

(** ** More of the geometry renderer task *)

Module GeometryRendererTaskExtra.
Import FrameGraph GeometryRendererTask GeometryRendererTaskFacts.

Lemma append_nil_r (s : string) : s +:+ "" = s.
Proof.
  induction s as [|c s IH]; [done |]. change (String c (s +:+ "") = String c s). by rewrite IH.
Qed.

Section Creation.
Context `{External}.
Implicit Types (w : World).

(** A safe integer is printed as its decimal numeral. *)
Lemma msg_unknown_type_safe (taskName : string) (ty : Z) :
  - 2 ^ 53 < ty < 2 ^ 53 →
  msg_unknown_type taskName ty = msg_prefix taskName +:+ "unknown texture type " +:+ pretty ty.
Proof. intros Hsafe. unfold msg_unknown_type, Number_toString. by rewrite decide_True. Qed.

Lemma msg_unknown_type_names_type (taskName : string) (ty : Z) :
  - 2 ^ 53 < ty < 2 ^ 53 →
  namesCount (msg_unknown_type taskName ty) ty = true.
Proof.
  intros Hsafe. rewrite msg_unknown_type_safe by done. unfold namesCount.
  rewrite <- (append_nil_r (pretty ty)) at 2. rewrite <- append_assoc. apply substringb_splice.
Qed.

Lemma catalogueEntries_entryOfType
    (descriptions : list IFrameGraphGeometryRendererTextureDescription) entries :
  Forall2 (λ d f, catalogueEntry d = Some f) descriptions entries ↔
  Forall2 (λ d f, entryOfType (type d) f) descriptions entries.
Proof.
  split; intros Hent; (eapply Forall2_impl; [exact Hent |]); intros d f Hf;
    by apply catalogueEntry_entryOfType.
Qed.

Lemma catalogueEntries_exist (descriptions : list IFrameGraphGeometryRendererTextureDescription) :
  Forall inCatalogue descriptions →
  ∃ entries, Forall2 (λ d f, catalogueEntry d = Some f) descriptions entries.
Proof.
  induction 1 as [|d ds Hd _ [entries IH]].
  - exists []. constructor.
  - destruct (catalogueEntry_known d Hd) as (f & _ & Hf). exists (f :: entries). by constructor.
Qed.

(** The loop of [_createMultiRenderTargetTexture] on planes of the
    catalogue: plane i gets its own texture type and format and the name of
    its catalogue entry. *)
Lemma createLoop_known taskName descriptions : ∀ entries types formats labels,
  Forall2 (λ d f, catalogueEntry d = Some f) descriptions entries →
  createLoop taskName descriptions (types, formats, labels)
  = inr (types ++ map textureType descriptions, formats ++ map textureFormat descriptions,
         labels ++ map gd_name entries).
Proof.
  induction descriptions as [|d ds IH]; intros entries types formats labels Hent.
  - apply Forall2_nil_inv_l in Hent as ->. simpl. by rewrite !app_nil_r.
  - apply Forall2_cons_inv_l in Hent as (f & entries' & Hd & Hds & ->).
    cbn [createLoop].
    assert (Hidx : catalogueIndex d ≠ -1).
    { intros Hm. unfold catalogueEntry, array_at in Hd. rewrite Hm in Hd.
      by rewrite decide_False in Hd by lia. }
    rewrite bool_decide_eq_false_2 by done.
    change (array_at GeometryTextureDescriptions (catalogueIndex d)) with (catalogueEntry d).
    rewrite Hd, (IH entries' _ _ _ Hds). simpl. by rewrite <- !app_assoc.
Qed.

(** The loop stops at the first plane that is not in the catalogue. *)
Lemma createLoop_first_unknown taskName known d rest : ∀ acc,
  Forall inCatalogue known → ¬ inCatalogue d →
  createLoop taskName (known ++ d :: rest) acc
  = inl (Error (msg_unknown_type taskName (type d))).
Proof.
  induction known as [|k known IH]; intros [[types formats] labels] Hknown Hd.
  - cbn [app createLoop]. destruct (catalogueEntry_unknown d Hd) as [Hidx _].
    by rewrite bool_decide_eq_true_2.
  - apply Forall_cons in Hknown as [Hk Hknown].
    destruct (catalogueEntry_known k Hk) as (f & Hne & Hf).
    cbn [app createLoop]. rewrite bool_decide_eq_false_2 by done.
    change (array_at GeometryTextureDescriptions (catalogueIndex k)) with (catalogueEntry k).
    rewrite Hf. by apply IH.
Qed.

(** X1. A plane whose type is not in the catalogue makes
    [recordFrameGraph] throw at the first such plane, and the world is as it
    was before the call. The message is the task's prefix, "unknown texture
    type " and the plane's type as the template literal prints it: it names
    the task, and for a type that is a safe integer it ends with the type's
    decimal numeral. *)
Theorem record_rejects_unknown_type w known d rest :
  textureDescriptions (w_task w) = known ++ d :: rest →
  objectList (w_task w) ≠ None →
  Forall inCatalogue known →
  ¬ inCatalogue d →
  recordFrameGraph w = (inl (Error (msg_unknown_type (name (w_task w)) (type d))), w) ∧
  namesTask (msg_unknown_type (name (w_task w)) (type d)) (name (w_task w)) = true ∧
  (- 2 ^ 53 < type d < 2 ^ 53 →
   msg_unknown_type (name (w_task w)) (type d)
   = msg_prefix (name (w_task w)) +:+ "unknown texture type " +:+ pretty (type d) ∧
   namesCount (msg_unknown_type (name (w_task w)) (type d)) (type d) = true).
Proof.
  intros Hdescs Hobj Hknown Hd. split_and!.
  - unfold recordFrameGraph. unfold bind at 1. unfold this_.
    rewrite (recordFrameGraph_configured w) by (rewrite ?Hdescs; by destruct known).
    apply bind_inl. unfold _createMultiRenderTargetTexture, bind, this_.
    by rewrite Hdescs, (createLoop_first_unknown _ known d rest _ Hknown Hd).
  - apply msg_prefix_names.
  - intros Hsafe. split; [by apply msg_unknown_type_safe | by apply msg_unknown_type_names_type].
Qed.

Lemma _createMultiRenderTargetTexture_run w entries :
  Forall2 (λ d f, catalogueEntry d = Some f) (textureDescriptions (w_task w)) entries →
  _createMultiRenderTargetTexture w =
    (inr (Z.of_nat (length (textures (w_frameGraph w)))),
     mkWorld (w_task w)
       (with_textures (w_frameGraph w)
          (textures (w_frameGraph w)
           ++ [(name (w_task w),
                mkCreation (size (w_task w)) (sizeIsPercentage (w_task w))
                  (mkOptions false false
                     (Z.of_nat (length (textureDescriptions (w_task w))))
                     (samples (w_task w))
                     (map textureType (textureDescriptions (w_task w)))
                     (map textureFormat (textureDescriptions (w_task w)))
                     (map gd_name entries)))]))
       (w_defines w)).
Proof.
  intros Hent. unfold _createMultiRenderTargetTexture, bind, this_.
  by rewrite (createLoop_known _ _ entries [] [] [] Hent).
Qed.

(** X2. For planes that are all in the catalogue,
    [_createMultiRenderTargetTexture] returns the next free handle and adds
    one texture under the task's name, with the task's size and sample
    count, N planes, no mip maps and no depth buffer; plane i has the texture
    type and format of description i and, as label, the name of the
    catalogue entry of plane i's type. Nothing else of the world changes. *)
Theorem created_texture_follows_descriptions w entries :
  Forall2 (λ d f, entryOfType (type d) f) (textureDescriptions (w_task w)) entries →
  ∃ handle w' options,
    _createMultiRenderTargetTexture w = (inr handle, w') ∧
    w_task w' = w_task w ∧ w_defines w' = w_defines w ∧
    passes (w_frameGraph w') = passes (w_frameGraph w) ∧
    outputs (w_frameGraph w') = outputs (w_frameGraph w) ∧
    textures (w_frameGraph w') =
      textures (w_frameGraph w)
      ++ [(name (w_task w), mkCreation (size (w_task w)) (sizeIsPercentage (w_task w)) options)] ∧
    array_at (textures (w_frameGraph w')) handle =
      Some (name (w_task w),
            mkCreation (size (w_task w)) (sizeIsPercentage (w_task w)) options) ∧
    opt_createMipMaps options = false ∧ opt_generateDepthBuffer options = false ∧
    opt_textureCount options = Z.of_nat (length (textureDescriptions (w_task w))) ∧
    opt_samples options = samples (w_task w) ∧
    ∀ (i : nat) d f,
      textureDescriptions (w_task w) !! i = Some d → entries !! i = Some f →
      opt_types options !! i = Some (textureType d) ∧
      opt_formats options !! i = Some (textureFormat d) ∧
      opt_labels options !! i = Some (gd_name f).
Proof.
  intros Hent%catalogueEntries_entryOfType.
  eexists _, _, _. split; [by apply _createMultiRenderTargetTexture_run |].
  split_and!; try reflexivity.
  - simpl. unfold array_at. rewrite decide_True by lia.
    by rewrite Nat2Z.id, list_lookup_middle.
  - intros i d f Hd Hf. cbn.
    change (map ?g ?l) with (g <$> l). rewrite !list_lookup_fmap, Hd, Hf. done.
Qed.
End Creation.

(** *** What a call of [recordFrameGraph] that returns leaves *)

Section Result.
Context `{External}.
Implicit Types (w : World).

Lemma alter_last {A} (f : A → A) (ps : list A) (p : A) :
  alter f (length ps) (ps ++ [p]) = ps ++ [f p].
Proof. rewrite <- (Nat.add_0_r (length ps)). by rewrite alter_app_r. Qed.

Lemma update_pass_last f task sc tx os ol ps p defs :
  frameGraph (update_pass (length ps) f)
    (mkWorld task (mkFrameGraph sc tx os ol (ps ++ [p])) defs)
  = (inr tt, mkWorld task (mkFrameGraph sc tx os ol (ps ++ [f p])) defs).
Proof.
  unfold frameGraph, update_pass, modify, with_passes. simpl. by rewrite alter_last.
Qed.

Lemma setOutputTexture_last handle mipLevel output task sc tx os ol ps p defs :
  frameGraph (setOutputTexture (length ps) handle mipLevel output)
    (mkWorld task (mkFrameGraph sc tx os ol (ps ++ [p])) defs)
  = (inr tt,
     mkWorld task
       (mkFrameGraph sc tx (<[(pass_name p, output) := handle]> os) ol
          (ps ++ [mkPass (pass_name p) (pass_renderTarget p)
                    (pass_outputTextures p ++ [(handle, mipLevel, output)])
                    (pass_renderTargetDepth p) (pass_executeFunc p)]))
       defs).
Proof.
  unfold frameGraph, setOutputTexture, bind, update_pass, modify, with_passes, with_outputs.
  simpl. rewrite alter_last. by rewrite list_lookup_middle.
Qed.

Lemma registerLoop_registered descriptions : ∀ i w,
  Forall inCatalogue descriptions →
  registerLoop i descriptions w
  = (inr tt, mkWorld (w_task w) (w_frameGraph w) (registeredDefines i descriptions (w_defines w))).
Proof.
  induction descriptions as [|d ds IH]; intros i w Hall; cbn [registerLoop registeredDefines].
  - by destruct w.
  - apply Forall_cons in Hall as [Hd Hds].
    destruct (catalogueEntry_known d Hd) as (f & _ & ->).
    unfold bind at 1. unfold set_define, modify. by rewrite IH.
Qed.

Lemma getObjectList_found id w l w' :
  frameGraph (getObjectList id) w = (inr l, w') →
  objectLists (w_frameGraph w) !! id = Some l.
Proof.
  intros (fg' & Hrun & ->)%frameGraph_inv. unfold getObjectList in Hrun.
  destruct (objectLists (w_frameGraph w) !! id); [|done]. by injection Hrun as -> _.
Qed.

Lemma getTextureHandle_same_outputs id (fg fg' : FrameGraph.t) :
  outputs fg = outputs fg' → (getTextureHandle id fg).1 = (getTextureHandle id fg').1.
Proof. intros Ho. destruct id; simpl; [done |]. rewrite Ho. by destruct (outputs fg' !! _). Qed.

Lemma recordFrameGraph_result w w' :
  recordFrameGraph w = (inr tt, w') →
  ∃ entries kinds id objects depthTarget,
    Forall2 (λ d f, catalogueEntry d = Some f) (textureDescriptions (w_task w)) entries ∧
    Forall2 (λ d k, clearKindOf d = Some k) (textureDescriptions (w_task w)) kinds ∧
    objectList (w_task w) = Some id ∧
    objectLists (w_frameGraph w) !! id = Some objects ∧
    match depthTexture (w_task w) with
    | None => depthTarget = None
    | Some depth =>
        ∃ h, depthTarget = Some h ∧ (getTextureHandle depth (w_frameGraph w')).1 = inr h
    end ∧
    w' =
    mkWorld
      (with_rtt
         (with_layouts (w_task w)
            (map (λ kind, (kind, buildTextureLayout (layoutOf kinds kind))) (firstSeen kinds))
            (buildTextureLayout (replicate (length (textureDescriptions (w_task w))) true)))
         (mkRtt (rtt_name (_rtt (w_task w)))
            (if sizeIsPercentage (w_task w)
             then mkSize (percentageOf (width (screen (w_frameGraph w))) (width (size (w_task w))))
                         (percentageOf (height (screen (w_frameGraph w))) (height (size (w_task w))))
             else size (w_task w))
            (rtt_renderList (_rtt (w_task w))) (rtt_particleSystemList (_rtt (w_task w)))
            (rtt_renderPassId (_rtt (w_task w)))))
      (mkFrameGraph (screen (w_frameGraph w))
         (textures (w_frameGraph w)
          ++ [(name (w_task w),
               mkCreation (size (w_task w)) (sizeIsPercentage (w_task w))
                 (mkOptions false false
                    (Z.of_nat (length (textureDescriptions (w_task w))))
                    (samples (w_task w))
                    (map textureType (textureDescriptions (w_task w)))
                    (map textureFormat (textureDescriptions (w_task w)))
                    (map gd_name entries)))])
         (foldl (λ os output,
                   <[(name (w_task w), output) := Z.of_nat (length (textures (w_frameGraph w)))]> os)
            (outputs (w_frameGraph w)) geometryOutputNames)
         (objectLists (w_frameGraph w))
         (passes (w_frameGraph w)
          ++ [mkPass (name (w_task w)) (Some (Z.of_nat (length (textures (w_frameGraph w)))))
                (map (λ output, (Z.of_nat (length (textures (w_frameGraph w))), 0, output))
                   geometryOutputNames)
                depthTarget
                (Some (mkExecuteClosure objects
                         (bool_decide (is_Some (depthTexture (w_task w))))))]))
      (registeredDefines 0 (textureDescriptions (w_task w)) (w_defines w)).
Proof.
  unfold recordFrameGraph. unfold bind at 1. unfold this_.
  destruct (_ || _); [done |]. intros Hrun.
  apply bind_inv_inr in Hrun as (h & w1 & Hc & Hrun).
  pose proof Hc as Hc'.
  apply _createMultiRenderTargetTexture_inv in Hc' as [Hall _].
  destruct (catalogueEntries_exist _ Hall) as [entries Hent].
  rewrite (_createMultiRenderTargetTexture_run w entries Hent) in Hc.
  injection Hc as <- <-.
  apply bind_inv_inr in Hrun as (dE & w1' & Hc & Hrun).
  apply _checkDepthTextureCompatibility_inv in Hc as [-> ->]. cbn [w_task] in Hrun.
  destruct (clearKinds_exist _ Hall) as [kinds Hkinds].
  apply bind_inv_inr in Hrun as (u2 & w2 & Hbuild & Hrun).
  rewrite (_buildClearAttachmentsLayout_run (mkWorld _ _ _) kinds Hkinds) in Hbuild.
  injection Hbuild as _ <-. cbn [w_task w_frameGraph w_defines] in Hrun.
  apply bind_inv_inr in Hrun as (u3 & w3 & Hreg & Hrun).
  unfold _registerForRenderPassId, bind, this_ in Hreg.
  rewrite registerLoop_registered in Hreg by exact Hall.
  injection Hreg as _ <-. cbn [w_task w_frameGraph w_defines] in Hrun.
  apply bind_inv_inr in Hrun as (d & w4 & Hdesc & Hrun).
  pose proof Hdesc as Hdesc'. apply getTextureDescription_inv in Hdesc' as ->.
  apply frameGraph_inv in Hdesc as (fg' & Hdesc & _).
  unfold getTextureDescription, array_at in Hdesc.
  cbn [w_frameGraph textures with_textures screen] in Hdesc.
  rewrite decide_True in Hdesc by lia.
  rewrite Nat2Z.id, list_lookup_middle in Hdesc by done.
  cbn [tex_sizeIsPercentage tex_size tex_options] in Hdesc.
  injection Hdesc as <- _. clear fg'.
  apply bind_inv_inr in Hrun as (u5 & w5 & Hset & Hrun).
  injection Hset as _ <-.
  apply bind_inv_inr in Hrun as (objects & w6 & Hobj & Hrun).
  destruct (objectList (w_task w)) as [id|] eqn:Hid; [|done].
  pose proof (getObjectList_found _ _ _ _ Hobj) as Hfound.
  apply getObjectList_inv in Hobj as ->.
  apply bind_inv_inr in Hrun as (pass & w7 & Hadd & Hrun).
  apply frameGraph_inv in Hadd as (fg7 & Hadd & ->).
  unfold addRenderPass in Hadd. injection Hadd as <- <-.
  destruct w as [task [sc tx os ol ps] defs].
  unfold with_passes, with_textures in Hrun.
  cbn [w_task w_frameGraph w_defines screen textures outputs objectLists passes] in *.
  unfold setRenderTarget in Hrun.
  apply bind_inv_inr in Hrun as (? & wn & Hk & Hrun).
  rewrite update_pass_last in Hk. injection Hk as _ <-.
  do 10 (apply bind_inv_inr in Hrun as (? & wn & Hk & Hrun);
         rewrite setOutputTexture_last in Hk; injection Hk as _ <-).
  cbn [pass_name pass_renderTarget pass_outputTextures pass_renderTargetDepth
       pass_executeFunc app] in Hrun.
  apply bind_inv_inr in Hrun as (? & wn & Hk & Hrun).
  destruct (depthTexture task) as [depth|] eqn:Hdepth.
  - apply bind_inv_inr in Hk as (h' & wx & Hh & Hk).
    pose proof Hh as Hh'. apply getTextureHandle_inv in Hh' as ->.
    apply frameGraph_inv in Hh as (fgx & Hh & _).
    unfold setRenderTargetDepth in Hk. rewrite update_pass_last in Hk. injection Hk as _ <-.
    unfold setExecuteFunc in Hrun. rewrite update_pass_last in Hrun. injection Hrun as <-.
    exists entries, kinds, id, objects, (Some h').
    split_and!; [done | done | done | done | | reflexivity].
    exists h'. split; [done |].
    pose proof (f_equal fst Hh) as Hfst. cbn [fst] in Hfst.
    rewrite <- Hfst. by apply getTextureHandle_same_outputs.
  - injection Hk as _ <-.
    unfold setExecuteFunc in Hrun. rewrite update_pass_last in Hrun. injection Hrun as <-.
    exists entries, kinds, id, objects, None.
    split_and!; [done | done | done | done | done | reflexivity].
Qed.
End Result.

(** *** Every outcome of [recordFrameGraph] *)

Section Outcome.
Context `{External}.
Implicit Types (w : World).

(** X3. A call of [recordFrameGraph] that returns has created exactly one
    texture, under the task's name, and added exactly one render pass behind
    the passes that were there, named after the task. The pass renders to
    the handle that the creation returned, binds that handle at mip level 0
    to the ten geometry outputs in the order of lines 142-151 and to no other
    output, and holds an execute closure. Its depth target is set exactly
    when the task has a depth texture, and a depth texture given as a handle
    is that depth target. The frame graph's object lists and screen are
    untouched. *)
Theorem recorded_pass_shape w w' :
  recordFrameGraph w = (inr tt, w') →
  ∃ creation depthTarget closure,
    textures (w_frameGraph w')
    = textures (w_frameGraph w) ++ [(name (w_task w), creation)] ∧
    passes (w_frameGraph w')
    = passes (w_frameGraph w)
      ++ [mkPass (name (w_task w)) (Some (Z.of_nat (length (textures (w_frameGraph w)))))
            (map (λ output, (Z.of_nat (length (textures (w_frameGraph w))), 0, output))
               geometryOutputNames)
            depthTarget (Some closure)] ∧
    (depthTexture (w_task w) = None → depthTarget = None) ∧
    (∀ handle, depthTexture (w_task w) = Some (TextureHandle handle) →
               depthTarget = Some handle) ∧
    (is_Some (depthTexture (w_task w)) → is_Some depthTarget) ∧
    objectLists (w_frameGraph w') = objectLists (w_frameGraph w) ∧
    screen (w_frameGraph w') = screen (w_frameGraph w).
Proof.
  intros (entries & kinds & id & objects & depthTarget & _ & _ & _ & _ & Hdepth & ->)
    %recordFrameGraph_result.
  eexists _, depthTarget, _. split_and!; try reflexivity.
  - intros Hnone. by rewrite Hnone in Hdepth.
  - intros handle Hsome. rewrite Hsome in Hdepth.
    destruct Hdepth as (h & -> & Hh). simpl in Hh. congruence.
  - intros [depth Hsome]. rewrite Hsome in Hdepth.
    destruct Hdepth as (h & -> & _). by eexists.
Qed.


Lemma registeredDefines_untouched descriptions : ∀ entries i defines key,
  Forall2 (λ d f, catalogueEntry d = Some f) descriptions entries →
  key ∉ map gd_defineIndex entries →
  registeredDefines i descriptions defines !! key = defines !! key.
Proof.
  induction descriptions as [|d ds IH]; intros entries i defines key Hent Hkey.
  - done.
  - apply Forall2_cons_inv_l in Hent as (f & entries' & Hd & Hds & ->).
    cbn [registeredDefines]. rewrite Hd. cbn [map] in Hkey.
    apply not_elem_of_cons in Hkey as [Hne Hkey].
    rewrite (IH entries' _ _ _ Hds Hkey). by rewrite lookup_insert_ne.
Qed.

Lemma registeredDefines_last descriptions : ∀ entries i defines (n : nat) f,
  Forall2 (λ d f, catalogueEntry d = Some f) descriptions entries →
  entries !! n = Some f →
  (∀ (m : nat) g, (n < m)%nat → entries !! m = Some g → gd_defineIndex g ≠ gd_defineIndex f) →
  registeredDefines i descriptions defines !! gd_defineIndex f = Some (i + Z.of_nat n).
Proof.
  induction descriptions as [|d ds IH]; intros entries i defines n f Hent Hn Hlast.
  - apply Forall2_nil_inv_l in Hent as ->. done.
  - apply Forall2_cons_inv_l in Hent as (f0 & entries' & Hd & Hds & ->).
    cbn [registeredDefines]. rewrite Hd. destruct n as [|n].
    + injection Hn as ->.
      rewrite (registeredDefines_untouched ds entries' _ _ _ Hds).
      * rewrite lookup_insert_eq. f_equal. lia.
      * intros Hin. apply list_elem_of_In, in_map_iff in Hin as (g & Hg & Hin).
        apply list_elem_of_In, list_elem_of_lookup in Hin as [m Hm].
        by apply (Hlast (S m) g); [lia | |].
    + rewrite (IH entries' (i + 1) _ n f Hds Hn).
      * f_equal. lia.
      * intros m g Hlt Hm. apply (Hlast (S m) g); [lia | done].
Qed.

Lemma catalogueEntries_unique descriptions : ∀ entries entries',
  Forall2 (λ d f, catalogueEntry d = Some f) descriptions entries →
  Forall2 (λ d f, catalogueEntry d = Some f) descriptions entries' →
  entries = entries'.
Proof.
  induction descriptions as [|d ds IH]; intros entries entries' Hent Hent'.
  - apply Forall2_nil_inv_l in Hent as ->. by apply Forall2_nil_inv_l in Hent' as ->.
  - apply Forall2_cons_inv_l in Hent as (f & es & Hd & Hent & ->).
    apply Forall2_cons_inv_l in Hent' as (f' & es' & Hd' & Hent' & ->).
    f_equal; [congruence | by apply IH].
Qed.

(** X4. [_registerForRenderPassId], as [recordFrameGraph] runs it: after
    a call that returns, the define of the catalogue entry of each plane's
    type holds the plane's attachment index, the last plane winning when two planes
    share a define, and every define that no plane's entry names is as it
    was. *)
Theorem record_registers_attachment_indices w w' entries :
  recordFrameGraph w = (inr tt, w') →
  Forall2 (λ d f, entryOfType (type d) f) (textureDescriptions (w_task w)) entries →
  (∀ key, key ∉ map gd_defineIndex entries → w_defines w' !! key = w_defines w !! key) ∧
  (∀ (i : nat) f,
     entries !! i = Some f →
     (∀ (j : nat) g, (i < j)%nat → entries !! j = Some g →
                     gd_defineIndex g ≠ gd_defineIndex f) →
     w_defines w' !! gd_defineIndex f = Some (Z.of_nat i)).
Proof.
  intros (entries' & kinds & id & objects & depthTarget & Hent' & _ & _ & _ & _ & ->)
    %recordFrameGraph_result Hent%catalogueEntries_entryOfType.
  cbn [w_defines]. split.
  - intros key Hkey. by apply (registeredDefines_untouched _ entries).
  - intros i f Hi Hlast.
    by rewrite (registeredDefines_last _ entries 0 _ i f Hent Hi Hlast).
Qed.

(** X5. The depth texture is checked after the output texture is created:
    when the configuration is valid but the depth texture resolves to the
    back buffer's depth/stencil handle or to a texture of another sample
    count, [recordFrameGraph] throws the task's error for that and leaves
    the frame graph with the texture of N planes that it created. The task,
    the passes, the outputs and the defines are as before the call. *)
Theorem depth_rejection_keeps_created_texture w depth handle :
  textureDescriptions (w_task w) ≠ [] →
  objectList (w_task w) ≠ None →
  Forall inCatalogue (textureDescriptions (w_task w)) →
  depthTexture (w_task w) = Some depth →
  (getTextureHandle depth (w_frameGraph w)).1 = inr handle →
  handle = backbufferDepthStencilTextureHandle ∨
  (∃ description,
     (getTextureDescription handle (w_frameGraph w)).1 = inr description ∧
     opt_samples (desc_options description) ≠ samples (w_task w)) →
  ∃ msg creation,
    recordFrameGraph w
    = (inl (Error msg),
       mkWorld (w_task w)
         (with_textures (w_frameGraph w)
            (textures (w_frameGraph w) ++ [(name (w_task w), creation)]))
         (w_defines w)) ∧
    opt_textureCount (tex_options creation)
    = Z.of_nat (length (textureDescriptions (w_task w))) ∧
    (msg = msg_backbuffer (name (w_task w)) ∨ msg = msg_samples (name (w_task w))).
Proof.
  intros Hdescs Hobj Hall Hdepth Hhandle Hrefused.
  destruct (catalogueEntries_exist _ Hall) as [entries Hent].
  unfold recordFrameGraph. unfold bind at 1. unfold this_.
  rewrite (recordFrameGraph_configured w Hdescs Hobj).
  rewrite (bind_inr _ _ _ _ _ (_createMultiRenderTargetTexture_run w entries Hent)).
  set (w1 := mkWorld _ (with_textures _ _) _).
  assert (Hh1 : (getTextureHandle depth (w_frameGraph w1)).1 = inr handle)
    by (subst w1; cbn [w_frameGraph]; by rewrite getTextureHandle_textures).
  assert (Hcheck : ∃ msg, _checkDepthTextureCompatibility w1 = (inl (Error msg), w1) ∧
                          (msg = msg_backbuffer (name (w_task w)) ∨
                           msg = msg_samples (name (w_task w)))).
  { destruct (decide (handle = backbufferDepthStencilTextureHandle)) as [-> | Hne].
    - eexists. split; [|by left].
      by apply (_checkDepthTextureCompatibility_backbuffer w1 depth).
    - destruct Hrefused as [-> | (description & Hdesc & Hsamples)]; [done |].
      eexists. split; [|by right].
      apply (_checkDepthTextureCompatibility_samples w1 depth handle description);
        try done.
      by apply getTextureDescription_textures. }
  destruct Hcheck as (msg & Hcheck & Hmsg).
  eexists msg, _. split_and!; [exact (bind_inl _ _ _ _ _ Hcheck) | reflexivity | done].
Qed.

Lemma _checkDepthTextureCompatibility_outcome w :
  (_checkDepthTextureCompatibility w
   = (inr (bool_decide (is_Some (depthTexture (w_task w)))), w) ∧ depthCompatible w) ∨
  (∃ e, _checkDepthTextureCompatibility w = (inl e, w) ∧
        (e = ResolutionFailure ∨ e = Error (msg_backbuffer (name (w_task w))) ∨
         e = Error (msg_samples (name (w_task w))))).
Proof.
  destruct (depthTexture (w_task w)) as [depth|] eqn:Hdepth.
  2: { left. assert (Hc : depthCompatible w) by (unfold depthCompatible; by rewrite Hdepth).
       split; [|done]. rewrite (_checkDepthTextureCompatibility_run w Hc). by rewrite Hdepth. }
  destruct (getTextureHandle depth (w_frameGraph w)).1 as [e|handle] eqn:Hh.
  { right. exists ResolutionFailure. split; [|by left].
    unfold _checkDepthTextureCompatibility. unfold bind at 1. unfold this_. rewrite Hdepth.
    apply bind_inl. unfold frameGraph.
    destruct depth as [h|task output]; simpl in *; [done |].
    destruct (outputs (w_frameGraph w) !! (task, output)); [done |]. by destruct w. }
  destruct (decide (handle = backbufferDepthStencilTextureHandle)) as [-> | Hne].
  { right. eexists. split; [by apply (_checkDepthTextureCompatibility_backbuffer w depth) |].
    right. by left. }
  destruct (getTextureDescription handle (w_frameGraph w)).1 as [e|description] eqn:Hd.
  { right. exists ResolutionFailure. split; [|by left].
    unfold _checkDepthTextureCompatibility. unfold bind at 1. unfold this_. rewrite Hdepth.
    apply getTextureHandle_run in Hh.
    rewrite (bind_inr _ _ _ _ _ (frameGraph_run _ w _ _ Hh)).
    rewrite bool_decide_eq_false_2 by done.
    apply bind_inl. destruct w as [task fg defs].
    unfold frameGraph, getTextureDescription in *. cbn [w_frameGraph w_task w_defines] in *.
    by destruct (array_at (textures fg) handle) as [[? ?]|]. }
  destruct (decide (opt_samples (desc_options description) = samples (w_task w))) as [Hs | Hs].
  - left. assert (Hc : depthCompatible w).
    { unfold depthCompatible. rewrite Hdepth. by exists handle, description. }
    split; [|done]. rewrite (_checkDepthTextureCompatibility_run w Hc). by rewrite Hdepth.
  - right. eexists.
    split; [by apply (_checkDepthTextureCompatibility_samples w depth handle description) |].
    right. by right.
Qed.

Lemma reportedFailure_prefix (taskName rest : string) :
  reportedFailure taskName (Error (msg_prefix taskName +:+ rest)).
Proof. right. eexists. split; [done |]. apply prefix_app_l. Qed.

(** Every call of [recordFrameGraph] ends, and a call that throws throws
    either a failed lookup of the frame graph or an error of the task's
    own. *)
Lemma recordFrameGraph_outcome w :
  ∃ res w', recordFrameGraph w = (res, w') ∧
    match res with
    | inr _ => True
    | inl e => reportedFailure (name (w_task w)) e
    end.
Proof.
  destruct (decide (textureDescriptions (w_task w) = [])) as [Hempty | Hdescs].
  { eexists _, _. split; [by apply recordFrameGraph_missing; left |].
    apply reportedFailure_prefix. }
  destruct (objectList (w_task w)) as [id|] eqn:Hobj.
  2: { eexists _, _. split; [by apply recordFrameGraph_missing; right |].
       apply reportedFailure_prefix. }
  unfold recordFrameGraph. unfold bind at 1. unfold this_.
  rewrite (recordFrameGraph_configured w Hdescs) by (by rewrite Hobj).
  destruct (_createMultiRenderTargetTexture_outcome w)
    as [[Hall (creation & _ & Hrun)] | (d & Hin & Hnot & Hrun)].
  2: { rewrite (bind_inl _ _ _ _ _ Hrun). eexists _, _. split; [done |].
       apply reportedFailure_prefix. }
  rewrite (bind_inr _ _ _ _ _ Hrun). clear Hrun.
  set (w1 := mkWorld _ (with_textures _ _) _) in *.
  destruct (_checkDepthTextureCompatibility_outcome w1)
    as [[Hcheck Hdepth1] | (e & Hcheck & He)].
  2: { rewrite (bind_inl _ _ _ _ _ Hcheck). eexists _, _. split; [done |].
       destruct He as [-> | [-> | ->]]; [by left | apply reportedFailure_prefix ..]. }
  rewrite (bind_inr _ _ _ _ _ Hcheck). clear Hcheck.
  destruct (clearKinds_exist _ Hall) as [kinds Hkinds].
  rewrite (bind_inr _ _ _ _ _ (_buildClearAttachmentsLayout_run w1 kinds Hkinds)).
  set (w2 := mkWorld _ _ _).
  destruct (_registerForRenderPassId_run (rtt_renderPassId (_rtt (w_task w))) w2 Hall)
    as (w3 & Hreg & Ht3 & Hf3).
  rewrite (bind_inr _ _ _ _ _ Hreg). clear Hreg.
  assert (Hdesc : ∃ d, getTextureDescription (Z.of_nat (length (textures (w_frameGraph w))))
                         (w_frameGraph w3) = (inr d, w_frameGraph w3)).
  { rewrite Hf3. simpl. unfold getTextureDescription, array_at. simpl.
    rewrite decide_True by lia. rewrite Nat2Z.id, list_lookup_middle by done.
    by eexists. }
  destruct Hdesc as [d Hdesc].
  rewrite (bind_inr _ _ _ _ _ (frameGraph_run _ w3 _ _ Hdesc)).
  unfold bind at 1. unfold set_this, modify. rewrite Hobj.
  destruct (objectLists (w_frameGraph w) !! id) as [objects|] eqn:Hlist.
  2: { assert (Hol : getObjectList id (w_frameGraph w3)
                      = (inl ResolutionFailure, w_frameGraph w3)).
       { unfold getObjectList. rewrite Hf3. simpl. by rewrite Hlist. }
       rewrite (bind_inl _ _ _ _ _ (frameGraph_run _ (mkWorld _ _ _) _ _ Hol)).
       eexists _, _. split; [done | by left]. }
  assert (Hol : getObjectList id (w_frameGraph w3) = (inr objects, w_frameGraph w3)).
  { unfold getObjectList. rewrite Hf3. simpl. by rewrite Hlist. }
  rewrite (bind_inr _ _ _ _ _ (frameGraph_run _ (mkWorld _ _ _) _ _ Hol)).
  unfold bind at 1. simpl.
  assert (Hmono : ∀ k, is_Some (outputs (w_frameGraph w) !! k) →
                       is_Some (outputs (w_frameGraph w3) !! k)) by (by rewrite Hf3).
  clear Hdesc Hol.
  match goal with
  | |- ∃ res w', bind _ _ ?ws = _ ∧ _ =>
      assert (Hs : ∀ k, is_Some (outputs (w_frameGraph w) !! k) →
                        is_Some (outputs (w_frameGraph ws) !! k)) by exact Hmono;
      generalize dependent ws
  end.
  intros ws Hs. unfold setRenderTarget.
  match goal with
  | |- ∃ res w', bind (frameGraph (update_pass ?p ?f)) _ ?wc = _ ∧ _ =>
      destruct (update_pass_run p f wc) as (wn & Hop & _ & Ho)
  end.
  rewrite (bind_inr _ _ _ _ _ Hop). clear Hop. rewrite <- Ho in Hs. clear Ho ws.
  do 10 (match goal with
         | |- ∃ res w', bind (frameGraph (setOutputTexture ?p ?h ?m ?n)) _ ?wc = _ ∧ _ =>
             destruct (setOutputTexture_run p h m n wc) as (wn' & Hop & _ & Ho)
         end;
         rewrite (bind_inr _ _ _ _ _ Hop); clear Hop;
         assert (Hs' : ∀ k, is_Some (outputs (w_frameGraph w) !! k) →
                            is_Some (outputs (w_frameGraph wn') !! k)) by (intros k Hk; auto);
         clear Hs Ho wn; rename Hs' into Hs; rename wn' into wn).
  unfold depthCompatible in Hdepth1. subst w1. cbn [w_task w_frameGraph] in Hdepth1.
  destruct (depthTexture (w_task w)) as [depth|].
  - destruct Hdepth1 as (handle & _ & Hh & _).
    rewrite getTextureHandle_textures in Hh.
    destruct (getTextureHandle_outputs depth _ (w_frameGraph wn) handle Hh Hs) as [h' Hh'].
    apply getTextureHandle_run in Hh'.
    unfold bind at 1.
    rewrite (bind_inr _ _ _ _ _ (frameGraph_run _ wn _ _ Hh')).
    by eexists _, _.
  - by eexists _, _.
Qed.

(** X6. Whatever the configuration, an exception that [recordFrameGraph]
    throws is a failed lookup of the frame graph or an [Error] whose message
    starts with "FrameGraphGeometryRendererTask <name>: ". No call reads a
    property of [undefined]: the catalogue is never indexed with -1. *)
Theorem record_failures_name_the_task w e w' :
  recordFrameGraph w = (inl e, w') →
  e = ResolutionFailure ∨
  ∃ msg, e = Error msg ∧ String.prefix (msg_prefix (name (w_task w))) msg = true.
Proof.
  intros Hrun. destruct (recordFrameGraph_outcome w) as (res & w'' & Hrun' & Hres).
  rewrite Hrun in Hrun'. injection Hrun' as <- <-. exact Hres.
Qed.

(** X7. [recordFrameGraph] returns on every valid configuration: at least
    one plane, all planes in the catalogue, an object list that the frame
    graph knows, and no depth texture or a compatible one. It then has added
    one pass and one texture. *)
Theorem record_returns_on_valid_configuration w id objects :
  textureDescriptions (w_task w) ≠ [] →
  Forall inCatalogue (textureDescriptions (w_task w)) →
  objectList (w_task w) = Some id →
  objectLists (w_frameGraph w) !! id = Some objects →
  depthCompatible w →
  ∃ w', recordFrameGraph w = (inr tt, w') ∧
        length (passes (w_frameGraph w')) = S (length (passes (w_frameGraph w))) ∧
        length (textures (w_frameGraph w')) = S (length (textures (w_frameGraph w))).
Proof.
  intros Hdescs Hall Hobj Hlist Hdepth.
  destruct (recordFrameGraph_returns w id objects Hdescs Hall Hobj Hlist Hdepth) as [w' Hrun].
  exists w'. split; [done |].
  apply recordFrameGraph_result in Hrun
    as (entries & kinds & id' & objects' & depthTarget & _ & _ & _ & _ & _ & ->).
  cbn [w_frameGraph passes textures]. rewrite !length_app. simpl. lia.
Qed.

(** X8. The execute closure holds a reference to the object list that the
    frame graph held under the task's [objectList] when the pass was
    recorded, and consults neither the task's [objectList] nor the frame
    graph when it runs. Each run reads the list as it is then: it sets the
    render list and the particle system list of the render target texture to
    the meshes and particle systems that the list holds at that time,
    increments the render id by one, and ends with the render call on them.
    A run changes no object list, so a run that follows at once issues the
    same calls. *)
Theorem closure_renders_recorded_objects w w' id :
  recordFrameGraph w = (inr tt, w') →
  objectList (w_task w) = Some id →
  ∃ p closure,
    recordedPass w w' = Some p ∧ pass_executeFunc p = Some closure ∧
    objectLists (w_frameGraph w) !! id = Some (cl_objectList closure) ∧
    ∀ ew : ExecWorld,
      rtt_renderList (_rtt (ex_task (executeFunc closure ew)))
      = meshes (ex_objectLists ew (cl_objectList closure)) ∧
      rtt_particleSystemList (_rtt (ex_task (executeFunc closure ew)))
      = particleSystems (ex_objectLists ew (cl_objectList closure)) ∧
      ex_renderId (executeFunc closure ew) = ex_renderId ew + 1 ∧
      ex_objectLists (executeFunc closure ew) = ex_objectLists ew ∧
      last (ex_calls (executeFunc closure ew))
      = Some (Render (meshes (ex_objectLists ew (cl_objectList closure)))
                     (particleSystems (ex_objectLists ew (cl_objectList closure)))) ∧
      callsOf closure (executeFunc closure ew) = callsOf closure ew.
Proof.
  intros (entries & kinds & id' & objects & depthTarget & _ & _ & Hid & Hobjects & _ & ->)
    %recordFrameGraph_result Hobj.
  assert (id' = id) as -> by congruence.
  eexists _, (mkExecuteClosure objects _). split_and!.
  - unfold recordedPass. cbn [w_frameGraph passes]. by rewrite list_lookup_middle.
  - reflexivity.
  - done.
  - intros ew. split_and!; try reflexivity.
    + cbn [executeFunc ex_calls]. rewrite !app_assoc. by rewrite last_snoc.
    + by rewrite !callsOf_executeFunc.
Qed.

(** X9. A task as the constructor leaves it has no plane and no object
    list, so [recordFrameGraph] on it throws the missing-configuration error
    under the name given to the constructor, and under the new name once the
    task is renamed; the world is untouched. *)
Theorem fresh_task_cannot_record (taskName renamed : string) (renderPassId : Z)
    (fg : FrameGraph.t) (defines : gmap string Z) :
  recordFrameGraph (mkWorld (constructor taskName renderPassId) fg defines)
  = (inl (Error (msg_missing taskName)),
     mkWorld (constructor taskName renderPassId) fg defines) ∧
  recordFrameGraph (mkWorld (set_name renamed (constructor taskName renderPassId)) fg defines)
  = (inl (Error (msg_missing renamed)),
     mkWorld (set_name renamed (constructor taskName renderPassId)) fg defines).
Proof. split; reflexivity. Qed.

Lemma onlyLayoutsAndSize_refl t : onlyLayoutsAndSize t t.
Proof. by destruct t as [? ? ? ? ? ? ? ? ? ? [] ? ?]. Qed.

Lemma onlyLayoutsAndSize_trans t1 t2 t3 :
  onlyLayoutsAndSize t1 t2 → onlyLayoutsAndSize t2 t3 → onlyLayoutsAndSize t1 t3.
Proof. unfold onlyLayoutsAndSize. intros -> ->. reflexivity. Qed.

Lemma keeps_ret {A} (a : A) : keepsConfiguration (ret a).
Proof. intros w res w' [= _ <-]. apply onlyLayoutsAndSize_refl. Qed.

Lemma keeps_throw {A} e : keepsConfiguration (@throw World A e).
Proof. intros w res w' [= _ <-]. apply onlyLayoutsAndSize_refl. Qed.

Lemma keeps_this : keepsConfiguration this_.
Proof. intros w res w' [= _ <-]. apply onlyLayoutsAndSize_refl. Qed.

Lemma keeps_bind {A B} (c : M World A) (k : A → M World B) :
  keepsConfiguration c → (∀ a, keepsConfiguration (k a)) → keepsConfiguration (bind c k).
Proof.
  intros Hc Hk w res w'. unfold bind. destruct (c w) as [[e|a] w1] eqn:Hcw.
  - intros [= <- <-]. by eapply Hc.
  - intros Hrun. eapply onlyLayoutsAndSize_trans; [by eapply Hc | by eapply Hk].
Qed.

Lemma keeps_frameGraph {A} (c : M FrameGraph.t A) : keepsConfiguration (frameGraph c).
Proof.
  intros w res w'. unfold frameGraph. destruct (c (w_frameGraph w)).
  intros [= _ <-]. apply onlyLayoutsAndSize_refl.
Qed.

Lemma keeps_set_this (f : Task → Task) :
  (∀ t, onlyLayoutsAndSize t (f t)) → keepsConfiguration (set_this f).
Proof. intros Hf w res w' [= _ <-]. apply Hf. Qed.

Lemma keeps_set_define key value : keepsConfiguration (set_define key value).
Proof. intros w res w' [= _ <-]. apply onlyLayoutsAndSize_refl. Qed.

Lemma keeps_registerLoop descriptions : ∀ i, keepsConfiguration (registerLoop i descriptions).
Proof.
  induction descriptions as [|d ds IH]; intros i; cbn [registerLoop].
  - apply keeps_ret.
  - destruct (catalogueEntry d); [|apply keeps_throw].
    apply keeps_bind; [apply keeps_set_define | intros _; apply IH].
Qed.

Lemma keeps_recordFrameGraph : keepsConfiguration recordFrameGraph.
Proof.
  unfold recordFrameGraph, _createMultiRenderTargetTexture, _checkDepthTextureCompatibility,
    _buildClearAttachmentsLayout, _registerForRenderPassId.
  repeat lazymatch goal with
    | |- keepsConfiguration (ret _) => apply keeps_ret
    | |- keepsConfiguration (throw _) => apply keeps_throw
    | |- keepsConfiguration this_ => apply keeps_this
    | |- keepsConfiguration (frameGraph _) => apply keeps_frameGraph
    | |- keepsConfiguration (registerLoop _ _) => apply keeps_registerLoop
    | |- keepsConfiguration (set_this _) =>
        apply keeps_set_this; intros [? ? ? ? ? ? ? ? ? ? [] ? ?]; reflexivity
    | |- keepsConfiguration (bind _ _) => apply keeps_bind; [|intros ?]
    | |- keepsConfiguration (if ?b then _ else _) => destruct b
    | |- keepsConfiguration (match ?x with _ => _ end) => destruct x
    end.
Qed.

(** X10. Whatever its outcome, [recordFrameGraph] changes of the task only
    [_clearAttachmentsLayout], [_allAttachmentsLayout] and the size of the
    render target texture: the name, the configuration fields, and the
    render target texture's name, lists and render pass id are as they
    were. *)
Theorem record_touches_only_layouts_and_size w :
  w_task (recordFrameGraph w).2 =
  mkTask (name (w_task w)) (depthTexture (w_task w)) (objectList (w_task w))
    (depthTest (w_task w)) (depthWrite (w_task w)) (size (w_task w))
    (sizeIsPercentage (w_task w)) (samples (w_task w)) (textureDescriptions (w_task w))
    (disabled (w_task w))
    (mkRtt (rtt_name (_rtt (w_task w))) (rtt_size (_rtt (w_task (recordFrameGraph w).2)))
       (rtt_renderList (_rtt (w_task w))) (rtt_particleSystemList (_rtt (w_task w)))
       (rtt_renderPassId (_rtt (w_task w))))
    (_clearAttachmentsLayout (w_task (recordFrameGraph w).2))
    (_allAttachmentsLayout (w_task (recordFrameGraph w).2)).
Proof.
  destruct (recordFrameGraph w) as [res w'] eqn:Hrun. by apply keeps_recordFrameGraph in Hrun.
Qed.

(** X11. The render target texture is named after the task: on every task
    that the constructor, the setter of [name], assignments to the public
    fields, calls of [recordFrameGraph] and runs of an execute closure
    produce, the texture's name is the task's name followed by
    "_internal_rtt". *)
Theorem rtt_is_named_after_task (this : Task) :
  reachable this → rttNamedAfterTask this.
Proof.
  induction 1 as [taskName renderPassId | value this _ _
                 | this depth objects test write sz percentage count descriptions off _ IH
                 | w res w' _ IH Hrun | closure ew _ IH].
  - reflexivity.
  - reflexivity.
  - exact IH.
  - apply keeps_recordFrameGraph in Hrun. unfold rttNamedAfterTask in *.
    rewrite Hrun. cbn. exact IH.
  - exact IH.
Qed.

Lemma catalogueEntry_missing description :
  catalogueEntry description = None → ¬ inCatalogue description.
Proof. intros Hnone (f & _ & Hf)%catalogueEntry_known. congruence. Qed.
End Outcome.

Lemma sample_planes_inCatalogue : Forall (inCatalogue (H := Sample.external)) Sample.planes.
Proof. repeat constructor; by eapply (catalogueEntry_inCatalogue (H := Sample.external)). Qed.

Lemma sample_entries :
  Forall2 (λ d f, entryOfType (H := Sample.external) (type d) f)
    Sample.planes SamplePlanes.entries.
Proof. apply (catalogueEntries_entryOfType (H := Sample.external)). repeat constructor. Qed.

Lemma sample_record_no_depth :
  recordFrameGraph (H := Sample.external) Sample.world_no_depth
  = (inr tt, Sample.recorded_no_depth).
Proof. vm_compute. reflexivity. Qed.

Lemma sample_record_depth1 :
  recordFrameGraph (H := Sample.external) Sample.world_depth1
  = (inr tt, Sample.recorded_depth1).
Proof. vm_compute. reflexivity. Qed.

Lemma record_rejects_unknown_type_witness :
  recordFrameGraph (H := Sample.external) SamplePlanes.world_unknown
  = (inl (Error "FrameGraphGeometryRendererTask geom: unknown texture type 99"),
     SamplePlanes.world_unknown) ∧
  namesTask "FrameGraphGeometryRendererTask geom: unknown texture type 99" "geom" = true ∧
  namesCount "FrameGraphGeometryRendererTask geom: unknown texture type 99" 99 = true.
Proof.
  assert (Hknown : Forall (inCatalogue (H := Sample.external)) [mkTextureDescription 6 2 5]).
  { repeat constructor. by eapply (catalogueEntry_inCatalogue (H := Sample.external)). }
  assert (Hd : ¬ inCatalogue (H := Sample.external) (mkTextureDescription 99 0 0))
    by (by apply (catalogueEntry_missing (H := Sample.external))).
  assert (Hobj : objectList (w_task SamplePlanes.world_unknown) ≠ None) by discriminate.
  destruct (record_rejects_unknown_type (H := Sample.external) SamplePlanes.world_unknown
              [mkTextureDescription 6 2 5] (mkTextureDescription 99 0 0)
              [mkTextureDescription 5 1 6] eq_refl Hobj Hknown Hd)
    as (Hrun & Hnames & Hsafe).
  destruct (Hsafe ltac:(done)) as [_ Hcount].
  split_and!; [exact Hrun | exact Hnames | exact Hcount].
Defined.

Lemma created_texture_follows_descriptions_witness :
  ∃ handle w' options,
    _createMultiRenderTargetTexture (H := Sample.external) Sample.world_no_depth
    = (inr handle, w') ∧
    handle = 4 ∧
    opt_textureCount options = 4 ∧
    textures (w_frameGraph w')
    = textures Sample.graph ++ [("geom", mkCreation (mkSize 100 100) true options)] ∧
    opt_labels options !! 0%nat = Some "Normal" ∧
    opt_labels options !! 1%nat = Some "Depth" ∧
    opt_labels options !! 2%nat = Some "Albedo" ∧
    opt_labels options !! 3%nat = Some "ScreenDepth".
Proof.
  destruct (created_texture_follows_descriptions (H := Sample.external) Sample.world_no_depth
              SamplePlanes.entries sample_entries)
    as (handle & w' & options & Hrun & _ & _ & _ & _ & Htex & _ & _ & _ & Hcount & _ & Hplanes).
  exists handle, w', options. split_and!.
  - exact Hrun.
  - assert (Hh : (_createMultiRenderTargetTexture (H := Sample.external)
                    Sample.world_no_depth).1 = inr 4) by reflexivity.
    rewrite Hrun in Hh. by injection Hh.
  - exact Hcount.
  - exact Htex.
  - exact (proj2 (proj2 (Hplanes 0%nat _ _ eq_refl eq_refl))).
  - exact (proj2 (proj2 (Hplanes 1%nat _ _ eq_refl eq_refl))).
  - exact (proj2 (proj2 (Hplanes 2%nat _ _ eq_refl eq_refl))).
  - exact (proj2 (proj2 (Hplanes 3%nat _ _ eq_refl eq_refl))).
Defined.

Lemma recorded_pass_shape_witness :
  recordFrameGraph (H := Sample.external) Sample.world_depth1
  = (inr tt, Sample.recorded_depth1) ∧
  ∃ creation closure,
    textures (w_frameGraph Sample.recorded_depth1)
    = textures Sample.graph ++ [("geom", creation)] ∧
    passes (w_frameGraph Sample.recorded_depth1)
    = [mkPass "geom" (Some 4) (map (λ output, (4, 0, output)) geometryOutputNames)
         (Some 3) (Some closure)].
Proof.
  pose proof sample_record_depth1 as Hrun.
  split; [exact Hrun |].
  destruct (recorded_pass_shape (H := Sample.external) _ _ Hrun)
    as (creation & depthTarget & closure & Htex & Hpass & _ & Hdepth & _).
  exists creation, closure. split; [exact Htex |].
  rewrite Hpass, (Hdepth 3 eq_refl). reflexivity.
Defined.

Lemma record_registers_attachment_indices_witness :
  recordFrameGraph (H := Sample.external) Sample.world_no_depth
  = (inr tt, Sample.recorded_no_depth) ∧
  w_defines Sample.recorded_no_depth !! "PREPASS_DEPTH_INDEX" = Some 1 ∧
  w_defines Sample.recorded_no_depth !! "PREPASS_VELOCITY_INDEX" = None.
Proof.
  pose proof sample_record_no_depth as Hrun.
  split; [exact Hrun |].
  destruct (record_registers_attachment_indices (H := Sample.external) _ _ SamplePlanes.entries
              Hrun sample_entries) as [Hother Hplane].
  split.
  - apply (Hplane 1%nat (mkGeometryTextureDescription 5 "Depth" ClearMaxViewZ
                           "PREPASS_DEPTH_INDEX") eq_refl).
    intros j g Hlt Hg. destruct j as [|[|[|[|j]]]]; [lia | lia | | | done].
    + injection Hg as <-. discriminate.
    + injection Hg as <-. discriminate.
  - rewrite Hother; [reflexivity |].
    vm_compute. intros Hin.
    repeat (apply elem_of_cons in Hin as [Hin|Hin]; [discriminate |]).
    by apply elem_of_nil in Hin.
Defined.

Lemma depth_rejection_keeps_created_texture_witness :
  ∃ msg creation,
    recordFrameGraph (H := Sample.external) Sample.world_depth4
    = (inl (Error msg),
       mkWorld (w_task Sample.world_depth4)
         (with_textures Sample.graph (textures Sample.graph ++ [("geom", creation)])) ∅) ∧
    opt_textureCount (tex_options creation) = 4.
Proof.
  assert (Hdescs : textureDescriptions (w_task Sample.world_depth4) ≠ []) by discriminate.
  assert (Hobj : objectList (w_task Sample.world_depth4) ≠ None) by discriminate.
  assert (Hs : opt_samples (desc_options (mkDescription (mkSize 1920 1080)
                                            (tex_options (Sample.depthOptions 4))))
               ≠ samples (w_task Sample.world_depth4)) by (vm_compute; discriminate).
  destruct (depth_rejection_keeps_created_texture (H := Sample.external) Sample.world_depth4
              (TextureHandle 2) 2 Hdescs Hobj sample_planes_inCatalogue eq_refl eq_refl
              (or_intror (ex_intro _ _ (conj eq_refl Hs))))
    as (msg & creation & Hrun & Hcount & _).
  exists msg, creation. split; [exact Hrun | exact Hcount].
Defined.

Lemma record_failures_name_the_task_witness :
  recordFrameGraph (H := Sample.external) Sample.world_backbuffer
  = (inl (Error (msg_backbuffer "geom")),
     (recordFrameGraph (H := Sample.external) Sample.world_backbuffer).2) ∧
  (Error (msg_backbuffer "geom") = ResolutionFailure ∨
   ∃ msg, Error (msg_backbuffer "geom") = Error msg ∧
          String.prefix (msg_prefix "geom") msg = true).
Proof.
  assert (Hrun : recordFrameGraph (H := Sample.external) Sample.world_backbuffer
                 = (inl (Error (msg_backbuffer "geom")),
                    (recordFrameGraph (H := Sample.external) Sample.world_backbuffer).2))
    by (vm_compute; reflexivity).
  split; [exact Hrun |].
  exact (record_failures_name_the_task (H := Sample.external) _ _ _ Hrun).
Defined.

Lemma record_returns_on_valid_configuration_witness :
  ∃ w', recordFrameGraph (H := Sample.external) Sample.world_depth1 = (inr tt, w') ∧
        length (passes (w_frameGraph w')) = 1%nat ∧
        length (textures (w_frameGraph w')) = 5%nat.
Proof.
  apply (record_returns_on_valid_configuration (H := Sample.external) Sample.world_depth1 0
           30%nat).
  - discriminate.
  - exact sample_planes_inCatalogue.
  - reflexivity.
  - reflexivity.
  - exists 3, (mkDescription (mkSize 1920 1080) (tex_options (Sample.depthOptions 1))).
    split_and!; [reflexivity | vm_compute; discriminate | reflexivity | reflexivity].
Defined.

Lemma closure_renders_recorded_objects_witness :
  recordFrameGraph (H := Sample.external) Sample.world_no_depth
  = (inr tt, Sample.recorded_no_depth) ∧
  ∃ p closure,
    recordedPass Sample.world_no_depth Sample.recorded_no_depth = Some p ∧
    pass_executeFunc p = Some closure ∧
    cl_objectList closure = 30%nat ∧
    ∀ task renderId calls,
      rtt_renderList
        (_rtt (ex_task (executeFunc closure (mkExecWorld task Sample.objects renderId calls))))
      = [11; 12] ∧
      rtt_renderList
        (_rtt (ex_task (executeFunc closure
                          (mkExecWorld task (λ _, mkObjectList [13] []) renderId calls))))
      = [13].
Proof.
  pose proof sample_record_no_depth as Hrun.
  split; [exact Hrun |].
  destruct (closure_renders_recorded_objects (H := Sample.external) _ _ 0 Hrun eq_refl)
    as (p & closure & Hp & Hc & Hlist & Hexec).
  assert (Haddress : cl_objectList closure = 30%nat).
  { vm_compute in Hlist. by injection Hlist. }
  exists p, closure. split_and!; [exact Hp | exact Hc | exact Haddress |].
  intros task renderId calls. split.
  - rewrite (proj1 (Hexec _)), Haddress. reflexivity.
  - rewrite (proj1 (Hexec _)), Haddress. reflexivity.
Defined.

Lemma rtt_is_named_after_task_witness :
  reachable (H := Sample.external) (set_name "renamed" (constructor "geom" 7)) ∧
  rtt_name (_rtt (set_name "renamed" (constructor "geom" 7))) = "renamed_internal_rtt".
Proof.
  assert (Hreach : reachable (H := Sample.external) (set_name "renamed" (constructor "geom" 7)))
    by (apply reachable_set_name, reachable_constructor).
  split; [exact Hreach |].
  exact (rtt_is_named_after_task (H := Sample.external) _ Hreach).
Defined.

(** *** The layouts are rebuilt by every call *)

Section Layouts.
Context `{External}.
Implicit Types (w : World).

Lemma clearKinds_unique descriptions : ∀ kinds kinds',
  Forall2 (λ d k, clearKindOf d = Some k) descriptions kinds →
  Forall2 (λ d k, clearKindOf d = Some k) descriptions kinds' →
  kinds = kinds'.
Proof.
  induction descriptions as [|d ds IH]; intros kinds kinds' Hk Hk'.
  - apply Forall2_nil_inv_l in Hk as ->. by apply Forall2_nil_inv_l in Hk' as ->.
  - apply Forall2_cons_inv_l in Hk as (k & ks & Hd & Hk & ->).
    apply Forall2_cons_inv_l in Hk' as (k' & ks' & Hd' & Hk' & ->).
    f_equal; [congruence | by apply IH].
Qed.

(** X21. The layouts that [recordFrameGraph] leaves are a function of the
    planes alone: two calls that return, on tasks with the same texture
    descriptions, leave the same [_clearAttachmentsLayout] and the same
    [_allAttachmentsLayout], whatever layouts the tasks held before, and
    whatever their depth textures, object lists and frame graphs are. *)
Theorem layouts_depend_only_on_planes w1 w1' w2 w2' :
  textureDescriptions (w_task w1) = textureDescriptions (w_task w2) →
  recordFrameGraph w1 = (inr tt, w1') →
  recordFrameGraph w2 = (inr tt, w2') →
  _clearAttachmentsLayout (w_task w1') = _clearAttachmentsLayout (w_task w2') ∧
  _allAttachmentsLayout (w_task w1') = _allAttachmentsLayout (w_task w2').
Proof.
  intros Hsame
    (entries1 & kinds1 & id1 & objects1 & depthTarget1 & _ & Hk1 & _ & _ & _ & ->)
      %recordFrameGraph_result
    (entries2 & kinds2 & id2 & objects2 & depthTarget2 & _ & Hk2 & _ & _ & _ & ->)
      %recordFrameGraph_result.
  rewrite Hsame in Hk1. rewrite (clearKinds_unique _ _ _ Hk1 Hk2).
  cbn. by rewrite Hsame.
Qed.
End Layouts.

Lemma layouts_depend_only_on_planes_witness :
  _clearAttachmentsLayout (w_task Sample.recorded_no_depth)
  = _clearAttachmentsLayout (w_task Sample.recorded_depth1) ∧
  _allAttachmentsLayout (w_task Sample.recorded_no_depth)
  = _allAttachmentsLayout (w_task Sample.recorded_depth1).
Proof.
  exact (layouts_depend_only_on_planes (H := Sample.external) Sample.world_no_depth _
           Sample.world_depth1 _ eq_refl sample_record_no_depth sample_record_depth1).
Defined.

End GeometryRendererTaskExtra.

(** ** More of the teleport receiver *)

Module TeleportOutExtra.
Import TeleportOut TeleportOutFacts TeleportOutDump.

Section Receiver.
Context `{Base}.
Implicit Types (h : Heap) (this : loc).

Lemma detachFromEndpoint_run h e entry endpoint blk :
  teleportIns h !! e = Some entry →
  teleportOuts h !! endpoint = Some blk →
  detachFromEndpoint e endpoint h
  = (inr tt,
     mkHeap
       (alter (λ e, mkIn (in_uniqueId e) (in_name e)
                      (filter (λ x, x ≠ endpoint) (_endpoints e))) e (teleportIns h))
       (alter (set_entryPoint None) endpoint (teleportOuts h))
       (nextUniqueId h) (calls h ++ [DetachFromEndpoint e endpoint])).
Proof.
  intros He Hb. unfold detachFromEndpoint.
  unfold bind at 1. unfold log, modify.
  erewrite bind_inr; [|by eapply update_in_run].
  erewrite update_out_run; [reflexivity | exact Hb].
Qed.

(** X12. [detach] of a receiver without entry point returns at once and
    changes nothing. [detach] of a receiver paired with the source E calls
    E's [detachFromEndpoint] once, with the receiver itself as argument, and
    touches no other receiver; once that call has cleared the receiver's
    entry point, a second [detach] changes nothing. *)
Theorem detach_calls_source_only_when_paired h this blk :
  teleportOuts h !! this = Some blk →
  (_entryPoint blk = None → detach this h = (inr tt, h)) ∧
  (∀ e entry,
     _entryPoint blk = Some e → teleportIns h !! e = Some entry →
     ∃ h', detach this h = (inr tt, h') ∧
           calls h' = calls h ++ [DetachFromEndpoint e this] ∧
           (∀ l, l ≠ this → teleportOuts h' !! l = teleportOuts h !! l) ∧
           detach this h' = (inr tt, h')).
Proof.
  intros Hl. split.
  - intros Hnone. unfold detach.
    rewrite (bind_inr _ _ _ _ _ (entryPoint_run _ _ _ Hl)). by rewrite Hnone.
  - intros e entry He Hentry. eexists. split_and!.
    + unfold detach. rewrite (bind_inr _ _ _ _ _ (entryPoint_run _ _ _ Hl)). rewrite He.
      by apply (detachFromEndpoint_run h e entry this blk).
    + reflexivity.
    + intros l Hne. cbn [teleportOuts]. by rewrite lookup_alter_ne.
    + unfold detach.
      erewrite bind_inr; [|apply entryPoint_run; cbn [teleportOuts];
                           by rewrite lookup_alter_eq, Hl].
      reflexivity.
Qed.

(** X13. [_deserialize] only records the stored id: it restores the block
    through the base class and then sets [_tempEntryPointUniqueId] to the
    [entryPoint] property of the object, [undefined] when the object has
    none. It does not set [_entryPoint], calls no source, and leaves the
    sources and every other receiver as they were. *)
Theorem deserialize_touches_only_target h target blk (obj : gmap string JsValue) :
  teleportOuts h !! target = Some blk →
  ∃ h' blk',
    _deserialize target obj h = (inr tt, h') ∧
    teleportIns h' = teleportIns h ∧ calls h' = calls h ∧ nextUniqueId h' = nextUniqueId h ∧
    (∀ l, l ≠ target → teleportOuts h' !! l = teleportOuts h !! l) ∧
    teleportOuts h' !! target = Some blk' ∧
    _entryPoint blk' = _entryPoint (super_deserialize obj blk) ∧
    (∀ v, obj !! "entryPoint" = Some v → _tempEntryPointUniqueId blk' = v) ∧
    (obj !! "entryPoint" = None → _tempEntryPointUniqueId blk' = JsUndefined).
Proof.
  intros Hl.
  eexists _, (set_tempEntryPointUniqueId (default JsUndefined (obj !! "entryPoint"))
                (super_deserialize obj blk)).
  split; [by apply (_deserialize_run h target blk) |].
  split_and!; try reflexivity.
  - intros l Hne. cbn [with_outs teleportOuts]. by rewrite lookup_insert_ne.
  - cbn [with_outs teleportOuts]. apply lookup_insert_eq.
  - intros v ->. reflexivity.
  - intros ->. reflexivity.
Qed.
End Receiver.

Section Dump.
Context `{DumpBase}.

Lemma indexOf_missing (l : list nat) (x : nat) : indexOf l x = -1 ↔ x ∉ l.
Proof.
  split.
  - intros Hidx Hin.
    destruct (findIndex_found (λ y, bool_decide (y = x)) l x Hin) as (y & Hne & _).
    { by apply bool_decide_eq_true_2. }
    done.
  - intros Hnot. apply findIndex_missing. intros y Hy.
    apply bool_decide_eq_false_2. by intros ->.
Qed.

Lemma _dumpCode_skips (this : NodeRenderGraphTeleportOutBlock) (st : DumpState) :
  (∀ e, _entryPoint this = Some e → e ∈ alreadyDumped st) →
  _dumpCode this st = super_dumpCode this st.
Proof.
  intros Hdumped. unfold _dumpCode.
  assert (Hfirst : match _entryPoint this with
                   | Some e =>
                       let! st := get_state in
                       if bool_decide (indexOf (alreadyDumped st) e = -1) then
                         let! code := entryPoint_dumpCode e in ret ("" +:+ code)
                       else ret ""
                   | None => ret ""
                   end st = (inr "", st)).
  { destruct (_entryPoint this) as [e|]; [|done].
    unfold bind, get_state. rewrite bool_decide_eq_false_2; [done |].
    rewrite indexOf_missing. intros Hnot. by apply Hnot, Hdumped. }
  rewrite (bind_inr _ _ _ _ _ Hfirst). unfold bind, ret.
  by destruct (super_dumpCode this st) as [[e|code] st'].
Qed.

(** X14. [_dumpCode] dumps the entry point before the block itself, and
    only when it is not yet in [alreadyDumped]: the code of a receiver paired
    with a source that is not yet dumped is the source's code followed by the
    base class's code for the receiver; and when the source is among the
    dumped blocks after that, another receiver of the same source dumps as
    the base class does, without the source's code. *)
Theorem shared_entry_point_dumped_once
    (this that : NodeRenderGraphTeleportOutBlock) (e : nat)
    (st st1 st2 : DumpState) (code1 code2 : string) :
  _entryPoint this = Some e → _entryPoint that = Some e →
  e ∉ alreadyDumped st →
  entryPoint_dumpCode e st = (inr code1, st1) →
  super_dumpCode this st1 = (inr code2, st2) →
  e ∈ alreadyDumped st2 →
  _dumpCode this st = (inr (code1 +:+ code2), st2) ∧
  _dumpCode that st2 = super_dumpCode that st2.
Proof.
  intros Hthis Hthat Hnot Hentry Hsuper Hdumped. split.
  - unfold _dumpCode. rewrite Hthis.
    unfold bind at 1. unfold bind at 1. unfold get_state.
    rewrite bool_decide_eq_true_2 by (by apply indexOf_missing).
    rewrite (bind_inr _ _ _ _ _ Hentry). unfold ret at 1.
    by rewrite (bind_inr _ _ _ _ _ Hsuper).
  - apply _dumpCode_skips. intros e' He'. congruence.
Qed.

(** X15. A receiver without entry point dumps exactly as its base class:
    [_dumpCode] and [_dumpCodeForOutputConnections] are the base class's, in
    result and in effect, whether they return or throw. *)
Theorem unpaired_receiver_dumps_as_base (this : NodeRenderGraphTeleportOutBlock) :
  _entryPoint this = None →
  (∀ st, _dumpCode this st = super_dumpCode this st) ∧
  (∀ dumped, _dumpCodeForOutputConnections this dumped
             = super_dumpCodeForOutputConnections this dumped).
Proof.
  intros Hnone. split.
  - intros st. apply _dumpCode_skips. intros e He. congruence.
  - intros dumped. unfold _dumpCodeForOutputConnections. rewrite Hnone.
    unfold bind, ret. by destruct (super_dumpCodeForOutputConnections this dumped) as [[|] ?].
Qed.
End Dump.

Lemma detach_calls_source_only_when_paired_witness :
  teleportOuts TeleportSample.heap !! 21%nat = Some TeleportSample.unpaired ∧
  detach 21%nat TeleportSample.heap = (inr tt, TeleportSample.heap) ∧
  ∃ h', detach 20%nat TeleportSample.heap = (inr tt, h') ∧
        calls h' = [DetachFromEndpoint 10%nat 20%nat] ∧
        detach 20%nat h' = (inr tt, h').
Proof.
  split; [reflexivity |]. split.
  - exact (proj1 (detach_calls_source_only_when_paired
                    TeleportSample.heap 21%nat TeleportSample.unpaired eq_refl) eq_refl).
  - destruct (proj2 (detach_calls_source_only_when_paired
                       TeleportSample.heap 20%nat TeleportSample.paired eq_refl)
                10%nat TeleportSample.source eq_refl eq_refl)
      as (h' & Hrun & Hcalls & _ & Hagain).
    exists h'. split_and!; [exact Hrun | exact Hcalls | exact Hagain].
Defined.

Lemma deserialize_touches_only_target_witness :
  teleportOuts TeleportSample.heap !! 21%nat = Some TeleportSample.unpaired ∧
  ∃ h' blk',
    _deserialize (H := TeleportSample.base) 21%nat {[ "name" := JsString "restored" ]}
      TeleportSample.heap = (inr tt, h') ∧
    teleportOuts h' !! 21%nat = Some blk' ∧
    _tempEntryPointUniqueId blk' = JsUndefined.
Proof.
  split; [reflexivity |].
  destruct (deserialize_touches_only_target (H := TeleportSample.base) TeleportSample.heap
              21%nat TeleportSample.unpaired {[ "name" := JsString "restored" ]} eq_refl)
    as (h' & blk' & Hrun & _ & _ & _ & _ & Hl & _ & _ & Hundef).
  exists h', blk'. split_and!; [exact Hrun | exact Hl | exact (Hundef eq_refl)].
Defined.

Lemma shared_entry_point_dumped_once_witness :
  _dumpCode (H := TeleportDumpSample.dumpBase) TeleportDumpSample.first (mkDumpState [] [])
  = (inr "var source;var first;", mkDumpState ["source"; "first"] [10%nat]) ∧
  _dumpCode (H := TeleportDumpSample.dumpBase) TeleportDumpSample.second
    (mkDumpState ["source"; "first"] [10%nat])
  = (inr "var second;", mkDumpState ["source"; "first"; "second"] [10%nat]).
Proof.
  exact (shared_entry_point_dumped_once (H := TeleportDumpSample.dumpBase)
           TeleportDumpSample.first TeleportDumpSample.second 10%nat
           (mkDumpState [] []) (mkDumpState ["source"] [10%nat])
           (mkDumpState ["source"; "first"] [10%nat]) "var source;" "var first;"
           eq_refl eq_refl (not_elem_of_nil 10%nat) eq_refl eq_refl
           (list_elem_of_here 10%nat [])).
Defined.

Lemma unpaired_receiver_dumps_as_base_witness :
  _dumpCode (H := TeleportDumpSample.dumpBase) TeleportSample.unpaired (mkDumpState [] [])
  = (inr "var lonely;", mkDumpState ["lonely"] []).
Proof.
  exact (eq_trans
           (proj1 (unpaired_receiver_dumps_as_base (H := TeleportDumpSample.dumpBase)
                     TeleportSample.unpaired eq_refl) (mkDumpState [] []))
           eq_refl).
Defined.
End TeleportOutExtra.

(** ** The bloom block's build and serialization *)

Module BloomBlockStateFacts.
Import FrameGraph BloomBlock BloomBlockState.

Section Values.
Context {V E : Type} (undefined : V) `{BlockBase V E} `{BloomEffect V E}.

(** X16. [_buildBlock] of the bloom block, once the base class's build has
    returned: the task gets the block's name; the value of the block's output
    becomes the task's "output" texture, under that name; the task's source
    texture becomes the value of the point that the source input is
    connected to, and is left as it was when the input is not connected, and
    likewise for the destination; and the task, as it then is, is added to
    the frame graph once, behind the tasks added before. The sampling mode
    and the post process are untouched. *)
Theorem build_names_task_and_binds_inputs (values : gmap Z FrameGraphTextureId)
    (w w1 : BuildWorld) o s d :
  super_buildBlock w = (inr tt, w1) →
  output (points (bw_block w1)) = Some o →
  source (_inputs (points (bw_block w1))) = Some s →
  destination (_inputs (points (bw_block w1))) = Some d →
  ∃ task,
    task = mkBloomTask (name (bw_block w1))
             (builtTexture values s (sourceTexture (_frameGraphTask (bw_block w1))))
             (builtTexture values d (destinationTexture (_frameGraphTask (bw_block w1))))
             (task_sourceSamplingMode (_frameGraphTask (bw_block w1))) ∧
    _buildBlock values w
    = (inr tt,
       mkBuildWorld
         (mkState (points (bw_block w1)) (name (bw_block w1))
            (Some (TaskOutputReference (name (bw_block w1)) "output"))
            task (_postProcess (bw_block w1)))
         (bw_tasks w1 ++ [task])).
Proof.
  intros Hsuper Ho Hs Hd. eexists. split; [reflexivity |].
  unfold _buildBlock. rewrite (bind_inr _ _ _ _ _ Hsuper).
  destruct w1 as [[pts nm ov [tn st dt sm] pp] tasks]. cbn in Ho, Hs, Hd |- *.
  unfold bind at 1. unfold set_block, modify. cbn [bw_block bw_tasks].
  unfold bind at 1. unfold this_block. cbn [bw_block points].
  rewrite Ho. unfold bind at 1. cbn [bw_block bw_tasks points _inputs]. rewrite Hs.
  unfold builtTexture.
  destruct (cp_connectedPoint s) as [sp|], (cp_connectedPoint d) as [dp|] eqn:Hdp;
    cbn; rewrite Hd; cbn; rewrite Hdp; reflexivity.
Qed.

(** A failing base build is all that happens. *)
Lemma _buildBlock_super_throws (values : gmap Z FrameGraphTextureId) (w w1 : BuildWorld) e :
  super_buildBlock w = (inl e, w1) → _buildBlock values w = (inl e, w1).
Proof. intros Hsuper. unfold _buildBlock. by rewrite (bind_inl _ _ _ _ _ Hsuper). Qed.

Lemma serialize_lookups (this : Block) :
  serialize this !! "threshold" = Some (threshold this) ∧
  serialize this !! "weight" = Some (weight this) ∧
  serialize this !! "kernel" = Some (kernel this) ∧
  serialize this !! "sourceSamplingMode" = Some (sourceSamplingMode this).
Proof.
  unfold serialize. split_and!.
  - do 3 (rewrite lookup_insert_ne by done). by rewrite lookup_insert_eq.
  - do 2 (rewrite lookup_insert_ne by done). by rewrite lookup_insert_eq.
  - rewrite lookup_insert_ne by done. by rewrite lookup_insert_eq.
  - by rewrite lookup_insert_eq.
Qed.

(** What [_deserialize] makes of an object that [serialize] made. *)
Lemma _deserialize_serialize (this target : Block) :
  _deserialize undefined (serialize this) target
  = set_sourceSamplingMode (sourceSamplingMode this)
      (set_kernel (kernel this)
         (set_weight (weight this)
            (set_threshold (threshold this) (super_deserialize (serialize this) target)))).
Proof.
  destruct (serialize_lookups this) as (Ht & Hw & Hk & Hm).
  unfold _deserialize. by rewrite Ht, Hw, Hk, Hm.
Qed.

(** X17. Serialization of the bloom block, for any base class and any
    accessors of the post process. [serialize] stores under "threshold",
    "weight", "kernel" and "sourceSamplingMode" what the four getters return,
    also when the base class stored properties of these names, and leaves
    the other properties of the base class's object. [_deserialize] of that
    object hands the four stored values to the setters, after the base
    class, in the order threshold, weight, kernel, source sampling mode. So
    the source sampling mode comes back; and threshold, weight and kernel
    come back when the setter, handed the value that the getter returned,
    makes the getter return it, and the setters that run later leave the
    property alone. *)
Theorem serialize_deserialize_properties (this target : Block) :
  (serialize this !! "threshold" = Some (threshold this) ∧
   serialize this !! "weight" = Some (weight this) ∧
   serialize this !! "kernel" = Some (kernel this) ∧
   serialize this !! "sourceSamplingMode" = Some (sourceSamplingMode this)) ∧
  (∀ key, key ∉ ["threshold"; "weight"; "kernel"; "sourceSamplingMode"] →
          serialize this !! key = super_serialize this !! key) ∧
  _deserialize undefined (serialize this) target
  = set_sourceSamplingMode (sourceSamplingMode this)
      (set_kernel (kernel this)
         (set_weight (weight this)
            (set_threshold (threshold this) (super_deserialize (serialize this) target)))) ∧
  sourceSamplingMode (_deserialize undefined (serialize this) target)
  = sourceSamplingMode this ∧
  ((∀ e, effect_get_kernel (effect_set_kernel (kernel this) e) = kernel this) →
   kernel (_deserialize undefined (serialize this) target) = kernel this) ∧
  ((∀ e, effect_get_weight (effect_set_weight (weight this) e) = weight this) →
   (∀ v e, effect_get_weight (effect_set_kernel v e) = effect_get_weight e) →
   weight (_deserialize undefined (serialize this) target) = weight this) ∧
  ((∀ e, effect_get_threshold (effect_set_threshold (threshold this) e) = threshold this) →
   (∀ v e, effect_get_threshold (effect_set_weight v e) = effect_get_threshold e) →
   (∀ v e, effect_get_threshold (effect_set_kernel v e) = effect_get_threshold e) →
   threshold (_deserialize undefined (serialize this) target) = threshold this).
Proof.
  split; [apply serialize_lookups |]. split.
  { intros key Hkey. unfold serialize.
    rewrite !lookup_insert_ne; [done | ..]; intros <-; apply Hkey; set_solver. }
  split; [apply _deserialize_serialize |].
  rewrite _deserialize_serialize. split_and!.
  - reflexivity.
  - intros Hkernel. unfold kernel at 1. cbn. apply Hkernel.
  - intros Hweight Hlater. unfold weight at 1. cbn. rewrite Hlater. apply Hweight.
  - intros Hthreshold Hweight Hkernel. unfold threshold at 1. cbn.
    rewrite Hkernel, Hweight. apply Hthreshold.
Qed.

(** X18. [_deserialize] of an object that lacks the four properties does
    not keep the block's values: the setters of threshold, weight and kernel
    are called, in this order, with [undefined], the source sampling mode
    becomes [undefined], and the rest of the block is what the base class
    restored. *)
Theorem deserialize_overwrites_missing_properties (obj : gmap string V) (this : Block) :
  obj !! "threshold" = None → obj !! "weight" = None →
  obj !! "kernel" = None → obj !! "sourceSamplingMode" = None →
  _deserialize undefined obj this
  = mkState (points (super_deserialize obj this)) (name (super_deserialize obj this))
      (outputValue (super_deserialize obj this))
      (mkBloomTask (task_name (_frameGraphTask (super_deserialize obj this)))
         (sourceTexture (_frameGraphTask (super_deserialize obj this)))
         (destinationTexture (_frameGraphTask (super_deserialize obj this)))
         undefined)
      (effect_set_kernel undefined
         (effect_set_weight undefined
            (effect_set_threshold undefined (_postProcess (super_deserialize obj this))))).
Proof.
  intros Ht Hw Hk Hm. unfold _deserialize. rewrite Ht, Hw, Hk, Hm. cbn [default].
  by destruct (super_deserialize obj this) as [? ? ? [] ?].
Qed.
End Values.

Lemma build_names_task_and_binds_inputs_witness :
  ∃ task,
    task = mkBloomTask "bloom" (Some (TextureHandle 3)) (Some (TextureHandle 6)) (JsNumber 2) ∧
    _buildBlock (H := BloomStateSample.blockBase) BloomStateSample.values
      (mkBuildWorld (BloomStateSample.block BloomSample.source_only) [])
    = (inr tt,
       mkBuildWorld
         (mkState BloomSample.source_only "bloom" (Some (TaskOutputReference "bloom" "output"))
            task (BloomStateSample.mkPlainEffect (JsNumber 20) (JsNumber 75) (JsNumber 64)))
         [task]).
Proof.
  destruct (build_names_task_and_binds_inputs (H := BloomStateSample.blockBase)
              BloomStateSample.values
              (mkBuildWorld (BloomStateSample.block BloomSample.source_only) [])
              (mkBuildWorld (BloomStateSample.block BloomSample.source_only) [])
              _ _ _ eq_refl eq_refl eq_refl eq_refl) as (task & Htask & Hrun).
  exists task. split; [exact Htask | exact Hrun].
Defined.

Lemma serialize_deserialize_properties_witness :
  kernel (H := BloomStateSample.plainEffect)
    (_deserialize JsUndefined (H := BloomStateSample.blockBase)
       (H0 := BloomStateSample.plainEffect)
       (serialize (H := BloomStateSample.blockBase) (H0 := BloomStateSample.plainEffect)
          (BloomStateSample.block BloomSample.both))
       (BloomStateSample.block BloomSample.source_only))
  = JsNumber 64.
Proof.
  exact (proj1 (proj2 (proj2 (proj2 (proj2
           (serialize_deserialize_properties JsUndefined (H := BloomStateSample.blockBase)
              (H0 := BloomStateSample.plainEffect)
              (BloomStateSample.block BloomSample.both)
              (BloomStateSample.block BloomSample.source_only))))))
           (λ e, eq_refl)).
Defined.

Lemma deserialize_overwrites_missing_properties_witness :
  _deserialize JsUndefined (H := BloomStateSample.blockBase)
    (H0 := BloomStateSample.plainEffect) {[ "name" := JsString "restored" ]}
    (BloomStateSample.block BloomSample.both)
  = mkState BloomSample.both "restored" None
      (mkBloomTask "old" (Some (TextureHandle 5)) (Some (TextureHandle 6)) JsUndefined)
      (BloomStateSample.mkPlainEffect JsUndefined JsUndefined JsUndefined).
Proof.
  exact (deserialize_overwrites_missing_properties JsUndefined
           (H := BloomStateSample.blockBase) (H0 := BloomStateSample.plainEffect)
           {[ "name" := JsString "restored" ]} (BloomStateSample.block BloomSample.both)
           eq_refl eq_refl eq_refl eq_refl).
Defined.
End BloomBlockStateFacts.

(** ** Arrays of color components *)

Module Color4ArraysFacts.
Import Color4Arrays.

Section CheckColors4.
Context {X : Type} (undefined one : X).

Lemma js_write_end (arr : list X) (v : X) :
  js_write undefined arr (length arr) v = arr ++ [v].
Proof.
  unfold js_write. rewrite decide_False by lia. by rewrite Nat.sub_diag.
Qed.

(** The loop, started on a whole number of colors already converted,
    converts the colors that are left. *)
Lemma checkLoop_spec (rest : list X) : ∀ (k : nat) (done colors4 : list X) (fuel : nat),
  (length rest `mod` 3 = 0)%nat →
  length done = (3 * k)%nat → length colors4 = (4 * k)%nat →
  (length rest ≤ 3 * fuel)%nat →
  checkLoop undefined one fuel (3 * k) (done ++ rest) colors4
  = colors4 ++ withAlpha one rest.
Proof.
  induction rest as [rest IH] using (induction_ltof1 _ (@length X)). unfold ltof in IH.
  intros k done colors4 fuel Hmod Hdone Hacc Hfuel.
  destruct rest as [|cr [|cg [|cb rest]]]; cbn [length] in *.
  - destruct fuel; cbn [checkLoop withAlpha].
    + by rewrite app_nil_r.
    + rewrite decide_False by (rewrite length_app; simpl; lia). by rewrite app_nil_r.
  - done.
  - done.
  - destruct fuel as [|fuel]; [lia |]. cbn [checkLoop withAlpha].
    rewrite decide_True by (rewrite length_app; simpl; lia).
    replace (3 * k / 3 * 4)%nat with (4 * k)%nat
      by (rewrite (Nat.mul_comm 3 k), Nat.div_mul by done; lia).
    unfold js_read.
    rewrite lookup_app_r by lia. replace (3 * k - length done)%nat with 0%nat by lia.
    rewrite lookup_app_r by lia. replace (3 * k + 1 - length done)%nat with 1%nat by lia.
    rewrite lookup_app_r by lia. replace (3 * k + 2 - length done)%nat with 2%nat by lia.
    cbn [lookup list_lookup default].
    rewrite <- Hacc at 1. rewrite js_write_end.
    replace (4 * k + 1)%nat with (length (colors4 ++ [cr]))
      by (rewrite length_app; simpl; lia).
    rewrite js_write_end.
    replace (4 * k + 2)%nat with (length ((colors4 ++ [cr]) ++ [cg]))
      by (rewrite !length_app; simpl; lia).
    rewrite js_write_end.
    replace (4 * k + 3)%nat with (length (((colors4 ++ [cr]) ++ [cg]) ++ [cb]))
      by (rewrite !length_app; simpl; lia).
    rewrite js_write_end.
    replace (3 * k + 3)%nat with (3 * S k)%nat by lia.
    replace (done ++ cr :: cg :: cb :: rest) with ((done ++ [cr; cg; cb]) ++ rest)
      by (by rewrite <- app_assoc).
    rewrite (IH rest).
    + by rewrite <- !app_assoc.
    + simpl. lia.
    + replace (S (S (S (length rest)))) with (length rest + 1 * 3)%nat in Hmod by lia.
      by rewrite Nat.Div0.mod_add in Hmod.
    + rewrite length_app. simpl. lia.
    + rewrite !length_app. simpl. lia.
    + lia.
Qed.

Lemma length_withAlpha (colors : list X) :
  (length colors `mod` 3 = 0)%nat →
  (3 * length (withAlpha one colors) = 4 * length colors)%nat.
Proof.
  induction colors as [colors IH] using (induction_ltof1 _ (@length X)). unfold ltof in IH.
  destruct colors as [|cr [|cg [|cb rest]]]; cbn [length withAlpha]; try done.
  intros Hmod.
  replace (S (S (S (length rest)))) with (length rest + 1 * 3)%nat in Hmod by lia.
  rewrite Nat.Div0.mod_add in Hmod.
  specialize (IH rest ltac:(simpl; lia) Hmod). lia.
Qed.

Lemma withAlpha_lookup (colors : list X) : ∀ (j c : nat),
  (3 * j + c < length colors)%nat → (c < 3)%nat →
  (length colors `mod` 3 = 0)%nat →
  withAlpha one colors !! (4 * j + c)%nat = colors !! (3 * j + c)%nat ∧
  withAlpha one colors !! (4 * j + 3)%nat = Some one.
Proof.
  induction colors as [colors IH] using (induction_ltof1 _ (@length X)). unfold ltof in IH.
  intros j c Hlt Hc Hmod.
  destruct colors as [|cr [|cg [|cb rest]]]; cbn [length] in *; try done; try lia.
  replace (S (S (S (length rest)))) with (length rest + 1 * 3)%nat in Hmod by lia.
  rewrite Nat.Div0.mod_add in Hmod.
  cbn [withAlpha]. destruct j as [|j].
  - destruct c as [|[|[|c]]]; [done | done | done | lia].
  - replace (4 * S j + c)%nat with (S (S (S (S (4 * j + c))))) by lia.
    replace (3 * S j + c)%nat with (S (S (S (3 * j + c)))) by lia.
    replace (4 * S j + 3)%nat with (S (S (S (S (4 * j + 3))))) by lia.
    cbn [lookup list_lookup]. apply IH; [simpl; lia | lia | lia | done].
Qed.

Lemma CheckColors4_run (colors : list X) (count : Z) :
  Z.of_nat (length colors) = count * 3 →
  (length colors `mod` 3 = 0)%nat ∧
  CheckColors4 undefined one colors count = withAlpha one colors.
Proof.
  intros Hlen.
  assert (Hmod : (length colors `mod` 3 = 0)%nat).
  { assert (0 ≤ count) by lia.
    replace (length colors) with (Z.to_nat count * 3)%nat by lia.
    apply Nat.Div0.mod_mul. }
  split; [done |]. unfold CheckColors4. rewrite decide_True by done.
  exact (checkLoop_spec colors 0 [] [] (length colors) Hmod eq_refl eq_refl ltac:(lia)).
Qed.

(** X19. [Color4.CheckColors4] on an array of [count] RGB triples returns
    a new array of [count] RGBA quadruples: color j keeps its three
    components, in order, and gets alpha 1.0. The loop ends within one turn
    for each element. *)
Theorem CheckColors4_converts_rgb (colors : list X) (count : Z) :
  Z.of_nat (length colors) = count * 3 →
  CheckColors4 undefined one colors count = withAlpha one colors ∧
  Z.of_nat (length (CheckColors4 undefined one colors count)) = count * 4 ∧
  ∀ (j c : nat), (Z.of_nat j < count) → (c < 3)%nat →
    CheckColors4 undefined one colors count !! (4 * j + c)%nat = colors !! (3 * j + c)%nat ∧
    CheckColors4 undefined one colors count !! (4 * j + 3)%nat = Some one.
Proof.
  intros Hlen. destruct (CheckColors4_run colors count Hlen) as [Hmod Hrun].
  rewrite Hrun. split_and!.
  - done.
  - pose proof (length_withAlpha colors Hmod). lia.
  - intros j c Hj Hc. apply withAlpha_lookup; [lia | done | done].
Qed.

(** X20. [Color4.CheckColors4] returns an array whose length is not
    [count] × 3 as it is; so the array that it returns holds [count] × 4
    values exactly when the given array holds [count] × 3 or [count] × 4
    values. *)
Theorem CheckColors4_length (colors : list X) (count : Z) :
  (Z.of_nat (length colors) ≠ count * 3 → CheckColors4 undefined one colors count = colors) ∧
  (Z.of_nat (length (CheckColors4 undefined one colors count)) = count * 4
   ↔ Z.of_nat (length colors) = count * 3 ∨ Z.of_nat (length colors) = count * 4).
Proof.
  split.
  { intros Hlen. unfold CheckColors4. by rewrite decide_False. }
  destruct (decide (Z.of_nat (length colors) = count * 3)) as [Hlen | Hlen].
  - split; [by left |]. intros _.
    destruct (CheckColors4_run colors count Hlen) as [Hmod ->].
    pose proof (length_withAlpha colors Hmod). lia.
  - unfold CheckColors4. rewrite decide_False by done. split; [by right | by intros [? | ?]].
Qed.
End CheckColors4.

Lemma CheckColors4_converts_rgb_witness :
  CheckColors4 0 255 [10; 20; 30; 40; 50; 60] 2 = [10; 20; 30; 255; 40; 50; 60; 255].
Proof.
  exact (proj1 (CheckColors4_converts_rgb 0 255 [10; 20; 30; 40; 50; 60] 2 eq_refl)).
Defined.
End Color4ArraysFacts.
